(** * Resilient element-interaction layer: a shallow embedding

    Embedding of the retry engine, the smart wait, the health checker, a few
    facade operations ([toggleCheckbox], the read operations, [enterValue]),
    the [SmartLogger] log buffer and [ErrorInspector.generateFailureSuggestions]
    of the xwp-automation test suite, with the properties its specification
    states about them.

    Conventions of the model.
    - A JavaScript string is a Rocq [string]; the model is exact on ASCII
      text ([length] counts characters, [toLowerCase] maps A-Z).  Other bytes
      are carried through unchanged.
    - A JavaScript number that the code uses as a counter or a duration is an
      integer [Z]; [NaN] is [None] where [parseInt] can produce it.
    - An [async] function is a state transformer over [World]; a thrown
      exception is a result, and the state reached before the throw is kept.
    - The browser driver (Playwright) is not part of the repository: its
      primitives are modelled from their documented contract on a page that
      does not change while it is being waited on. *)

From Stdlib Require Import ZArith List String Ascii Bool Lia DecimalString.
Import ListNotations.

#[local] Open Scope list_scope.
#[local] Open Scope string_scope.
#[local] Open Scope Z_scope.

(* ===================================================================== *)
(** * JavaScript values and string primitives                              *)
(* ===================================================================== *)

Module JS.

(** [String.prototype.toLowerCase], on ASCII letters. *)
Definition is_upper (c : ascii) : bool :=
  let n := nat_of_ascii c in (Nat.leb 65 n && Nat.leb n 90)%bool.

Definition lower_char (c : ascii) : ascii :=
  if is_upper c then ascii_of_nat (nat_of_ascii c + 32) else c.

Fixpoint toLowerCase (s : string) : string :=
  match s with
  | EmptyString => EmptyString
  | String c s' => String (lower_char c) (toLowerCase s')
  end.

(** [s.includes(sub)]: [sub] occurs in [s] as a contiguous substring. *)
Fixpoint includes (s sub : string) : bool :=
  (String.prefix sub s
   || match s with
      | EmptyString => false
      | String _ s' => includes s' sub
      end)%bool.

(** [s.repeat(n)]. *)
Fixpoint repeat (s : string) (n : nat) : string :=
  match n with
  | O => EmptyString
  | S n' => s ++ repeat s n'
  end.

(** White space removed by [String.prototype.trim] (ASCII part). *)
Definition is_space (c : ascii) : bool :=
  let n := nat_of_ascii c in
  (Nat.leb 9 n && Nat.leb n 13 || Nat.eqb n 32)%bool.

Fixpoint trimStart (s : string) : string :=
  match s with
  | EmptyString => EmptyString
  | String c s' => if is_space c then trimStart s' else s
  end.



(** [s.split('\n')]. *)
Fixpoint split_lines_aux (cur : string) (s : string) : list string :=
  match s with
  | EmptyString => [cur]
  | String c s' =>
      if Ascii.eqb c (ascii_of_nat 10)
      then cur :: split_lines_aux EmptyString s'
      else split_lines_aux (cur ++ String c EmptyString) s'
  end.

Definition split_lines (s : string) : list string := split_lines_aux EmptyString s.

(** [String(n)] for an integer. *)
Definition string_of_nat (n : nat) : string :=
  NilEmpty.string_of_uint (Nat.to_uint n).

Definition string_of_Z (z : Z) : string :=
  NilEmpty.string_of_int (Z.to_int z).

(** [n.toFixed(2)] for a whole number of milliseconds. *)
Definition toFixed2 (z : Z) : string := string_of_Z z ++ ".00".

(** Values of type [any]: what the logger stores as a log context. *)
#[local] Set Warnings "-register-all".
Inductive Value : Type :=
| Undefined
| Null
| Bool (b : bool)
| Num (n : Z)
| Str (s : string)
| Arr (items : list Value)
| Obj (fields : list (string * Value)).

(** Truthiness, as used by [||], [?:] and [if]. *)
Definition truthy (v : Value) : bool :=
  match v with
  | Undefined | Null => false
  | Bool b => b
  | Num n => negb (n =? 0)
  | Str s => negb (String.eqb s EmptyString)
  | Arr _ | Obj _ => true
  end.

Fixpoint lookup (k : string) (fields : list (string * Value)) : Value :=
  match fields with
  | [] => Undefined
  | (k', v) :: rest => if String.eqb k k' then v else lookup k rest
  end.

(** [v?.k]: property access with optional chaining. *)
Definition prop (v : Value) (k : string) : Value :=
  match v with
  | Obj fields => lookup k fields
  | _ => Undefined
  end.

(** [a || b] on values. *)
Definition or_else (a b : Value) : Value := if truthy a then a else b.

(** [a || b] where [a] is a possibly missing string. *)
Definition str_or (a : option string) (b : string) : string :=
  match a with
  | Some s => if String.eqb s EmptyString then b else s
  | None => b
  end.

(** Digit value of a character in the given radix. *)
Definition digit_of (radix : Z) (c : ascii) : option Z :=
  let n := Z.of_nat (nat_of_ascii c) in
  let d :=
    if (48 <=? n) && (n <=? 57) then Some (n - 48)
    else if (97 <=? n) && (n <=? 122) then Some (n - 87)
    else if (65 <=? n) && (n <=? 90) then Some (n - 55)
    else None in
  match d with
  | Some v => if v <? radix then Some v else None
  | None => None
  end.

Fixpoint parse_digits (radix : Z) (s : string) (acc : option Z) : option Z :=
  match s with
  | EmptyString => acc
  | String c s' =>
      match digit_of radix c with
      | Some d =>
          parse_digits radix s'
            (Some (radix * match acc with Some a => a | None => 0 end + d))
      | None => acc
      end
  end.

(** [parseInt(s)] without a radix: leading white space, an optional sign, an
    optional [0x] prefix, then the longest run of digits; [None] is [NaN].
    The result is the integer the digits denote.  The number of the source
    is the float nearest to it, which is that integer as long as it is
    below [2^53] in magnitude, and is 0 exactly when the integer is. *)
Definition parseInt (s : string) : option Z :=
  let s1 := trimStart s in
  let '(neg, s2) :=
    match s1 with
    | String "-" r => (true, r)
    | String "+" r => (false, r)
    | _ => (false, s1)
    end in
  let '(radix, s3) :=
    match s2 with
    | String "0" (String "x" r) => (16, r)
    | String "0" (String "X" r) => (16, r)
    | _ => (10, s2)
    end in
  match parse_digits radix s3 None with
  | Some v => Some (if neg then - v else v)
  | None => None
  end.

(** [n || d] on a number: [NaN] and [0] are falsy. *)
Definition num_or (n : option Z) (d : Z) : Z :=
  match n with
  | Some v => if v =? 0 then d else v
  | None => d
  end.

(** [s.split(sep)] for a one-character separator. *)
Fixpoint split_on_aux (sep : ascii) (cur : string) (s : string) : list string :=
  match s with
  | EmptyString => [cur]
  | String c s' =>
      if Ascii.eqb c sep
      then cur :: split_on_aux sep EmptyString s'
      else split_on_aux sep (cur ++ String c EmptyString) s'
  end.

Definition split_on (sep : ascii) (s : string) : list string :=
  split_on_aux sep EmptyString s.

End JS.

(* ===================================================================== *)
(** * Configuration: [EnvironmentManager] and the [ElementHelper] constants *)
(* ===================================================================== *)

(** [process.env]: a variable is either unset or holds a string. *)
Definition Env := string -> option string.

Definition empty_env : Env := fun _ => None.

Definition set_env (k v : string) (env : Env) : Env :=
  fun k' => if String.eqb k' k then Some v else env k'.

(** [EnvironmentConfig] (src/types/base.types.ts); [timeout] and [retries]
    come out of [parseInt] and may be [NaN]. *)
Record EnvironmentConfig := {
  baseUrl : string;
  apiUrl : string;
  timeout : option Z;
  retries : option Z;
  headless : bool
}.

(** [EnvironmentManager.loadConfiguration]. *)
Definition loadConfiguration (env : Env) : EnvironmentConfig :=
  {| baseUrl := JS.str_or (env "BASE_URL") "http://localhost:3000";
     apiUrl := JS.str_or (env "API_URL") "http://localhost:3000/api";
     timeout := JS.parseInt (JS.str_or (env "TEST_TIMEOUT") "30000");
     retries := JS.parseInt (JS.str_or (env "TEST_RETRIES") "1");
     headless :=
       match env "HEADLESS" with
       | Some v => negb (String.eqb v "false")
       | None => true
       end |}.

(** [process.env.X === 'true'] and [process.env.X !== 'false']. *)
Definition env_is (env : Env) (k v : string) : bool :=
  match env k with
  | Some s => String.eqb s v
  | None => false
  end.

(** The static constants of [ElementHelper]. *)
Record Constants := {
  DEFAULT_TIMEOUT : Z;
  SHORT_TIMEOUT : Z;
  LONG_TIMEOUT : Z;
  ANIMATION_DELAY : Z;
  POLLING_INTERVAL : Z;
  MAX_RETRIES : Z;
  BASE_RETRY_DELAY : Z;
  ENABLE_HEALTH_CHECKS : bool;
  ENABLE_PERFORMANCE_MONITORING : bool;
  ENABLE_VALUE_VERIFICATION : bool
}.

(** The values the static initialisers compute.  [Math.floor(x / 2)] and
    [x * 3] are written as integer arithmetic, which is what the floats of
    the source compute as long as the results are safe integers. *)
Definition constants_of (env : Env) : Constants :=
  let cfg := loadConfiguration env in
  let default_timeout := JS.num_or (timeout cfg) 10000 in
  {| DEFAULT_TIMEOUT := default_timeout;
     SHORT_TIMEOUT := default_timeout / 2;
     LONG_TIMEOUT := default_timeout * 3;
     ANIMATION_DELAY := 100;
     POLLING_INTERVAL := 100;
     MAX_RETRIES := JS.num_or (retries cfg) 3;
     BASE_RETRY_DELAY := 500;
     ENABLE_HEALTH_CHECKS := env_is env "DETAILED_HEALTH_CHECKS" "true";
     ENABLE_PERFORMANCE_MONITORING :=
       negb (env_is env "PERFORMANCE_MONITORING" "false");
     ENABLE_VALUE_VERIFICATION := env_is env "VALUE_VERIFICATION" "true" |}.

(** [ElementHelper.ERROR_MESSAGES]. *)
Definition ELEMENT_NOT_FOUND := "Element not found".
Definition ELEMENT_NOT_VISIBLE := "Element not visible".
Definition ELEMENT_NOT_ENABLED := "Element not enabled".
Definition TIMEOUT_EXCEEDED := "Timeout exceeded".
Definition INVALID_PARAMETER := "Invalid parameter provided".
Definition NETWORK_ERROR := "Network request failed".

(* ===================================================================== *)
(** * Errors and outcomes                                                  *)
(* ===================================================================== *)

(** A JavaScript [Error]. *)
Record Error := {
  err_name : string;
  err_message : string;
  err_stack : option string
}.

(** [new Error(msg)]; the stack text is the engine's and is left out. *)
Definition new_Error (msg : string) : Error :=
  {| err_name := "Error"; err_message := msg; err_stack := None |}.

(** [new TypeError(msg)]. *)
Definition new_TypeError (msg : string) : Error :=
  {| err_name := "TypeError"; err_message := msg; err_stack := None |}.

(** A computation that returns or throws, with no other effect. *)
Definition Outcome (A : Type) : Type := (Error + A)%type.

Definition bindO {A B : Type} (c : Outcome A) (k : A -> Outcome B) : Outcome B :=
  match c with
  | inl e => inl e
  | inr a => k a
  end.

Notation "'let*' x ':=' c 'in' k" := (bindO c (fun x => k))
  (at level 10, x name, c at level 100, k at level 200).

(** [v.k] without optional chaining: reading a property of [null] or
    [undefined] throws a [TypeError]. *)
Definition member (v : JS.Value) (k : string) : Outcome JS.Value :=
  match v with
  | JS.Undefined =>
      inl (new_TypeError
             ("Cannot read properties of undefined (reading '" ++ k ++ "')"))
  | JS.Null =>
      inl (new_TypeError
             ("Cannot read properties of null (reading '" ++ k ++ "')"))
  | _ => inr (JS.prop v k)
  end.

(* ===================================================================== *)
(** * [ErrorInspector]: the inspection report and its suggestions          *)
(* ===================================================================== *)

(** The double-quote character, for template literals that embed one. *)
Definition dquote : string := String (ascii_of_nat 34) EmptyString.

Module ErrorInspector.

Record NetworkEntry := {
  net_url : string;
  net_status : Z;
  net_method : string
}.

Record BlockingElement := {
  blk_selector : string;
  blk_reason : string
}.

(** [PageInspectionReport].  [elements] and [loadState] are index signatures
    over [any]; an optional field is an [option]. *)
Record PageInspectionReport := {
  timestamp : string;
  errorContext : string;
  url : string;
  title : string;
  viewport : option (Z * Z);
  userAgent : string;
  console : list (string * string * string);
  network : list NetworkEntry;
  elements : list (string * JS.Value);
  screenshot : string;
  html : string;
  localStorage : list (string * string);
  cookies : list JS.Value;
  jsErrors : option (list string);
  loadState : option (list (string * JS.Value));
  blockingElements : option (list BlockingElement);
  inspectionError : option string
}.

(** [String(v)], as a template literal renders a value of type [any]. *)
Fixpoint join (sep : string) (l : list string) : string :=
  match l with
  | [] => EmptyString
  | [x] => x
  | x :: rest => x ++ sep ++ join sep rest
  end.

Fixpoint to_string (v : JS.Value) : string :=
  match v with
  | JS.Undefined => "undefined"
  | JS.Null => "null"
  | JS.Bool true => "true"
  | JS.Bool false => "false"
  | JS.Num n => JS.string_of_Z n
  | JS.Str s => s
  | JS.Arr items =>
      join ","
        (map (fun i => match i with
                       | JS.Undefined | JS.Null => EmptyString
                       | _ => to_string i
                       end) items)
  | JS.Obj _ => "[object Object]"
  end.

Definition SUGGEST_LOGIN := "üîê Login page detected - check credentials and form submission".
Definition SUGGEST_404 := "üîç 404 error detected - verify URL and routing".
Definition SUGGEST_ERROR_ELEMENT (text : string) : string :=
  "‚ùå Error message found: " ++ dquote ++ text ++ dquote ++ " - check form validation or server response".
Definition SUGGEST_LOADING := "‚è≥ Loading indicator still visible - request may be stuck or taking too long".
Definition SUGGEST_NETWORK := "üåê Network errors detected - check API endpoints and server connectivity".
Definition SUGGEST_JS_ERRORS := "‚ö†Ô∏è JavaScript errors detected - check browser console for details".
Definition SUGGEST_BLOCKING := "üö´ Potentially blocking elements detected - check for modals or overlays".
Definition SUGGEST_LOAD_STATE := "‚è±Ô∏è Page not fully loaded - consider waiting for load state or specific elements".
Definition FALLBACK_SELECTORS := "üîç Check element selectors - they may have changed".
Definition FALLBACK_WAITS := "‚è∞ Consider adding explicit waits for dynamic content".
Definition FALLBACK_NAVIGATION := "üîÑ Verify page navigation completed successfully".

(** The body of the [forEach] over [Object.entries(report.elements)];
    [data.visible] is read only when the selector test before it holds. *)
Definition element_suggestions (entry : string * JS.Value) : Outcome (list string) :=
  let '(selector, data) := entry in
  let* from_error :=
    if JS.includes selector "error" then
      let* v := member data "visible" in
      if JS.truthy v then
        let* t := member data "text" in
        inr [SUGGEST_ERROR_ELEMENT (to_string t)]
      else inr []
    else inr [] in
  let* from_loading :=
    if JS.includes selector "loading" then
      let* v := member data "visible" in
      inr (if JS.truthy v then [SUGGEST_LOADING] else [])
    else inr [] in
  inr (from_error ++ from_loading)%list.

Fixpoint elements_suggestions (entries : list (string * JS.Value))
  : Outcome (list string) :=
  match entries with
  | [] => inr []
  | e :: rest =>
      let* here := element_suggestions e in
      let* there := elements_suggestions rest in
      inr (here ++ there)%list
  end.

(** The suggestions pushed before the generic fallback is considered. *)
Definition specific_suggestions (report : PageInspectionReport)
  : Outcome (list string) :=
  let from_url :=
    ((if JS.includes (url report) "wp-login.php" then [SUGGEST_LOGIN] else [])
     ++ (if JS.includes (url report) "404"
            || JS.includes (JS.toLowerCase (title report)) "not found"
         then [SUGGEST_404] else []))%list in
  let* from_elements := elements_suggestions (elements report) in
  inr (from_url
       ++ from_elements
       ++ (if existsb (fun req => 400 <=? net_status req) (network report)
           then [SUGGEST_NETWORK] else [])
       ++ (match jsErrors report with
           | Some (_ :: _) => [SUGGEST_JS_ERRORS]
           | _ => []
           end)
       ++ (match blockingElements report with
           | Some (_ :: _) => [SUGGEST_BLOCKING]
           | _ => []
           end)
       ++ (match loadState report with
           | Some st =>
               match JS.lookup "readyState" st with
               | JS.Str "complete" => []
               | _ => [SUGGEST_LOAD_STATE]
               end
           | None => []
           end))%list.

(** [ErrorInspector.generateFailureSuggestions]. *)
Definition generateFailureSuggestions (report : PageInspectionReport)
  : Outcome (list string) :=
  let* suggestions := specific_suggestions report in
  match suggestions with
  | [] => inr [FALLBACK_SELECTORS; FALLBACK_WAITS; FALLBACK_NAVIGATION]
  | _ => inr suggestions
  end.

End ErrorInspector.

(* ===================================================================== *)
(** * [SmartLogger]: the process-wide log buffer                           *)
(* ===================================================================== *)

Module Level.

Inductive t := INFO | WARN | ERROR | DEBUG | ACTION | NAVIGATION | PASS | FAIL.

Definition name (l : t) : string :=
  match l with
  | INFO => "INFO" | WARN => "WARN" | ERROR => "ERROR" | DEBUG => "DEBUG"
  | ACTION => "ACTION" | NAVIGATION => "NAVIGATION" | PASS => "PASS"
  | FAIL => "FAIL"
  end.

Definition eqb (a b : t) : bool := String.eqb (name a) (name b).

End Level.

Module Category.

Inductive t :=
  USER_ACTION | NAVIGATION | API | ASSERTION | TIMING | PERFORMANCE | ERROR
| GENERAL.

Definition name (c : t) : string :=
  match c with
  | USER_ACTION => "USER_ACTION" | NAVIGATION => "NAVIGATION" | API => "API"
  | ASSERTION => "ASSERTION" | TIMING => "TIMING"
  | PERFORMANCE => "PERFORMANCE" | ERROR => "ERROR" | GENERAL => "GENERAL"
  end.

Definition eqb (a b : t) : bool := String.eqb (name a) (name b).

End Category.

Module SmartLogger.

Record LogEntry := {
  id : string;
  timestamp : string;
  level : Level.t;
  message : string;
  testName : string;
  context : JS.Value;
  category : Category.t;
  tags : list string
}.

(** What [generateLogId()] and [new Date().toISOString()] return for one
    entry: they read the wall clock and [Math.random], so the model takes
    them from a supply indexed by the number of entries logged so far. *)
Record Stamp := {
  stamp_id : string;
  stamp_iso : string
}.

(** The static fields of [SmartLogger], and the supply of stamps. *)
Record State := {
  logs : list LogEntry;
  currentTest : string;
  emitted : nat;
  stamps : nat -> Stamp
}.

Definition with_logs (l : list LogEntry) (st : State) : State :=
  {| logs := l; currentTest := currentTest st;
     emitted := emitted st; stamps := stamps st |}.

Definition categorizeLog (message : string) (level : Level.t) : Category.t :=
  let msg := JS.toLowerCase message in
  if JS.includes msg "click" || JS.includes msg "type" || JS.includes msg "select"
  then Category.USER_ACTION
  else if JS.includes msg "navigate" || JS.includes msg "page" || JS.includes msg "url"
  then Category.NAVIGATION
  else if JS.includes msg "api" || JS.includes msg "request" || JS.includes msg "response"
  then Category.API
  else if JS.includes msg "assert" || JS.includes msg "expect" || JS.includes msg "verify"
  then Category.ASSERTION
  else if JS.includes msg "wait" || JS.includes msg "timeout"
  then Category.TIMING
  else if JS.includes msg "performance" || JS.includes msg "load" || JS.includes msg "speed"
  then Category.PERFORMANCE
  else if Level.eqb level Level.ERROR || Level.eqb level Level.FAIL
  then Category.ERROR
  else Category.GENERAL.

Definition generateTags (message : string) (level : Level.t) (context : JS.Value)
  : list string :=
  ([JS.toLowerCase (Level.name level)]
   ++ (if JS.truthy (JS.prop context "element") then ["element-interaction"] else [])
   ++ (if JS.truthy (JS.prop context "api") then ["api-call"] else [])
   ++ (if JS.truthy (JS.prop context "performance") then ["performance"] else [])
   ++ (if JS.truthy (JS.prop context "suggestions") then ["auto-diagnosed"] else [])
   ++ (if JS.includes message "screenshot" then ["visual"] else []))%list.

(** [SmartLogger.log]; an omitted [context] is [JS.Undefined].  The echo to
    the console leaves the buffer alone and is not modelled. *)
Definition log (level : Level.t) (message : string) (context : JS.Value)
  (st : State) : State :=
  let stamp := stamps st (emitted st) in
  let entry :=
    {| id := stamp_id stamp;
       timestamp := stamp_iso stamp;
       level := level;
       message := message;
       testName := currentTest st;
       context := JS.or_else context (JS.Obj []);
       category := categorizeLog message level;
       tags := generateTags message level context |} in
  {| logs := (logs st ++ [entry])%list;
     currentTest := currentTest st;
     emitted := S (emitted st);
     stamps := stamps st |}.

(** [SmartLogger.initializeTest]. *)
Definition initializeTest (name : string) (st : State) : State :=
  log Level.INFO "Test started" (JS.Obj [("testName", JS.Str name)])
    {| logs := logs st; currentTest := name;
       emitted := emitted st; stamps := stamps st |}.

Definition getCurrentStepNumber (st : State) : nat :=
  S (List.length
       (filter (fun l => String.eqb (testName l) (currentTest st)
                         && Level.eqb (level l) Level.ACTION)
          (logs st))).

(** [SmartLogger.sanitizeValue]. *)
Definition sanitizeValue (value : string) : string :=
  if JS.includes (JS.toLowerCase value) "password"
     || (6 <? Z.of_nat (String.length value))
  then JS.repeat "*" (String.length value)
  else value.

Definition opt_str (o : option string) : JS.Value :=
  match o with
  | Some s => JS.Str s
  | None => JS.Undefined
  end.

(** [SmartLogger.logUserAction]; [None] is an omitted argument. *)
Definition logUserAction (action : string) (element value : option string)
  (st : State) : State :=
  log Level.ACTION ("User " ++ action)
    (JS.Obj
       [("element", opt_str element);
        ("value",
          match value with
          | Some v =>
              if String.eqb v EmptyString then JS.Undefined
              else JS.Str (sanitizeValue v)
          | None => JS.Undefined
          end);
        ("step", JS.Num (Z.of_nat (getCurrentStepNumber st)))])
    st.

(** [SmartLogger.clearTestLogs]. *)
Definition clearTestLogs (st : State) : State :=
  with_logs
    (filter (fun l => negb (String.eqb (testName l) (currentTest st))) (logs st))
    st.

(** [SmartLogger.logError].  [inspection] is the outcome of
    [new ErrorInspector(page).inspectPageOnError(error.message)]; it is [None]
    when no page is given or [autoInspect] is false, so that no inspection is
    made. *)
Definition errorElements (report : ErrorInspector.PageInspectionReport)
  : Outcome (list string) :=
  let fix go (keys : list string) : Outcome (list string) :=
    match keys with
    | [] => inr []
    | key :: rest =>
        let* keep :=
          if JS.includes key "error" then
            let* v := member (JS.lookup key (ErrorInspector.elements report)) "visible" in
            inr (JS.truthy v)
          else inr false in
        let* others := go rest in
        inr (if keep then key :: others else others)
    end in
  go (map fst (ErrorInspector.elements report)).

Definition inspection_fields (inspection : option (Outcome ErrorInspector.PageInspectionReport))
  : list (string * JS.Value) :=
  match inspection with
  | None => []
  | Some (inl e) => [("inspectionError", JS.Str (err_message e))]
  | Some (inr report) =>
      match ErrorInspector.generateFailureSuggestions report with
      | inl e => [("inspectionError", JS.Str (err_message e))]
      | inr suggestions =>
          let suggested := ("suggestions", JS.Arr (map JS.Str suggestions)) in
          match errorElements report with
          | inl e => [suggested; ("inspectionError", JS.Str (err_message e))]
          | inr keys =>
              [suggested;
               ("pageInspection",
                 JS.Obj
                   [("url", JS.Str (ErrorInspector.url report));
                    ("title", JS.Str (ErrorInspector.title report));
                    ("screenshot", JS.Str (ErrorInspector.screenshot report));
                    ("errorElements", JS.Arr (map JS.Str keys));
                    ("blockingElements",
                      JS.Num
                        (match ErrorInspector.blockingElements report with
                         | Some l => Z.of_nat (List.length l)
                         | None => 0
                         end))])]
          end
      end
  end.

Definition logError (error : Error)
  (inspection : option (Outcome ErrorInspector.PageInspectionReport))
  (st : State) : State :=
  let errorContext :=
    ([("name", JS.Str (err_name error));
      ("message", JS.Str (err_message error));
      ("stack",
        match err_stack error with
        | Some text => JS.Arr (map JS.Str (firstn 5 (JS.split_lines text)))
        | None => JS.Undefined
        end);
      ("testName", JS.Str (currentTest st))]
     ++ inspection_fields inspection)%list in
  log Level.ERROR (err_message error) (JS.Obj errorContext) st.

(** ** Summaries *)

Record TimelineEntry := {
  tl_timestamp : string;
  tl_message : string;
  tl_level : Level.t;
  tl_category : Category.t;
  tl_duration : Z
}.

(** [PerformanceSummary].  [averageTime], [slowestOperation] and
    [fastestOperation] are floating-point aggregates of [measured], the list
    [perfLogs.map(log => log.context?.value || 0)], which stands for them. *)
Record PerformanceSummary := {
  totalMeasurements : nat;
  measured : list JS.Value;
  timeouts : nat
}.

Record TestSummary := {
  sm_testName : string;
  totalLogs : nat;
  logsByLevel : list (string * nat);
  logsByCategory : list (string * nat);
  timeline : list TimelineEntry;
  insights : list string;
  suggestions : list JS.Value;
  performance : PerformanceSummary;
  errors : list LogEntry;
  warnings : list LogEntry
}.

(** [acc[k] = (acc[k] || 0) + 1], keys kept in insertion order. *)
Fixpoint bump (k : string) (acc : list (string * nat)) : list (string * nat) :=
  match acc with
  | [] => [(k, 1%nat)]
  | (k', n) :: rest =>
      if String.eqb k k' then (k', S n) :: rest else (k', n) :: bump k rest
  end.

Definition groupLogsByLevel (l : list LogEntry) : list (string * nat) :=
  fold_left (fun acc e => bump (Level.name (level e)) acc) l [].

Definition groupLogsByCategory (l : list LogEntry) : list (string * nat) :=
  fold_left (fun acc e => bump (Category.name (category e)) acc) l [].

Definition generateTimeline (l : list LogEntry) : list TimelineEntry :=
  map (fun e => {| tl_timestamp := timestamp e; tl_message := message e;
                   tl_level := level e; tl_category := category e;
                   tl_duration := 0 |}) l.

Definition with_level (lv : Level.t) (l : list LogEntry) : list LogEntry :=
  filter (fun e => Level.eqb (level e) lv) l.

Definition generateInsights (l : list LogEntry) : list string :=
  let errors := List.length (with_level Level.ERROR l) in
  let warnings := List.length (with_level Level.WARN l) in
  let actions := List.length (with_level Level.ACTION l) in
  ((if Nat.ltb 0 errors
    then [("Test encountered " ++ JS.string_of_nat errors
           ++ " error(s) - review error logs for details")%string] else [])
   ++ (if Nat.ltb 3 warnings
       then [("High number of warnings (" ++ JS.string_of_nat warnings
              ++ ") - may indicate unstable test conditions")%string] else [])
   ++ (if Nat.ltb 20 actions
       then [("Complex test with " ++ JS.string_of_nat actions
              ++ " user actions - consider breaking into smaller tests")%string]
       else []))%list.

(** [...v]: spreading a value of type [any] into [push]. *)
Fixpoint chars (s : string) : list JS.Value :=
  match s with
  | EmptyString => []
  | String c s' => JS.Str (String c EmptyString) :: chars s'
  end.

Definition spread (v : JS.Value) : Outcome (list JS.Value) :=
  match v with
  | JS.Arr items => inr items
  | JS.Str s => inr (chars s)
  | _ => inl (new_TypeError
                "Spread syntax requires ...iterable[Symbol.iterator] to be a function")
  end.

(** Equality of [Set] members; arrays and objects are compared by identity
    in JavaScript and are never merged here. *)
Definition same_value (a b : JS.Value) : bool :=
  match a, b with
  | JS.Undefined, JS.Undefined => true
  | JS.Null, JS.Null => true
  | JS.Bool x, JS.Bool y => Bool.eqb x y
  | JS.Num x, JS.Num y => x =? y
  | JS.Str x, JS.Str y => String.eqb x y
  | _, _ => false
  end.

Fixpoint dedupe (seen l : list JS.Value) : list JS.Value :=
  match l with
  | [] => []
  | v :: rest =>
      if existsb (same_value v) seen then dedupe seen rest
      else v :: dedupe (v :: seen) rest
  end.

Fixpoint collect_suggestions (l : list LogEntry) : Outcome (list JS.Value) :=
  match l with
  | [] => inr []
  | e :: rest =>
      let s := JS.prop (context e) "suggestions" in
      if JS.truthy s then
        let* here := spread s in
        let* there := collect_suggestions rest in
        inr (here ++ there)%list
      else collect_suggestions rest
  end.

Definition generateSuggestions (l : list LogEntry) : Outcome (list JS.Value) :=
  let* all := collect_suggestions l in
  inr (dedupe [] all).

Definition summarizePerformance (l : list LogEntry) : PerformanceSummary :=
  let perfLogs :=
    filter (fun e => Category.eqb (category e) Category.PERFORMANCE) l in
  {| totalMeasurements := List.length perfLogs;
     measured :=
       map (fun e => JS.or_else (JS.prop (context e) "value") (JS.Num 0)) perfLogs;
     timeouts :=
       List.length (filter (fun e => JS.includes (message e) "timeout") l) |}.

(** [SmartLogger.generateTestSummary]. *)
Definition generateTestSummary (st : State) : Outcome TestSummary :=
  let testLogs :=
    filter (fun e => String.eqb (testName e) (currentTest st)) (logs st) in
  let* suggested := generateSuggestions testLogs in
  inr {| sm_testName := currentTest st;
         totalLogs := List.length testLogs;
         logsByLevel := groupLogsByLevel testLogs;
         logsByCategory := groupLogsByCategory testLogs;
         timeline := generateTimeline testLogs;
         insights := generateInsights testLogs;
         suggestions := suggested;
         performance := summarizePerformance testLogs;
         errors := with_level Level.ERROR testLogs;
         warnings := with_level Level.WARN testLogs |}.

(** ** Export *)

(** The content of an attachment, kept as the data that the source hands to
    its renderer: [JSON.stringify(_, null, 2)] for the first two, a template
    literal for the others.  The rendering itself is text formatting and is
    not modelled. *)
Inductive Content :=
| JsonLogs (entries : list LogEntry)
| JsonSummary (summary : TestSummary)
| TimelineHTML (entries : list TimelineEntry)
| ActionSteps (actions : list LogEntry)
| ErrorAnalysis (errors : list LogEntry)
| PerformanceReport (perf : PerformanceSummary).

Record AllureAttachment := {
  att_name : string;
  att_content : Content;
  att_type : string
}.

(** [SmartLogger.exportForReporting]. *)
Definition exportForReporting (st : State) : Outcome (list AllureAttachment) :=
  let detailed :=
    {| att_name := "📋 Detailed Test Logs";
       att_content := JsonLogs (logs st);
       att_type := "application/json" |} in
  let* summary := generateTestSummary st in
  inr ([detailed;
        {| att_name := "📊 Test Execution Summary";
           att_content := JsonSummary summary;
           att_type := "application/json" |};
        {| att_name := "⏱️ Test Timeline Visualization";
           att_content := TimelineHTML (timeline summary);
           att_type := "text/html" |};
        {| att_name := "👆 User Actions Log";
           att_content := ActionSteps (with_level Level.ACTION (logs st));
           att_type := "text/plain" |}]
       ++ (match errors summary with
           | [] => []
           | _ :: _ =>
               [{| att_name := "🔍 Error Analysis & Suggestions";
                   att_content := ErrorAnalysis (errors summary);
                   att_type := "text/markdown" |}]
           end)
       ++ (if Nat.ltb 0 (totalMeasurements (performance summary))
           then [{| att_name := "⚡ Performance Metrics";
                    att_content := PerformanceReport (performance summary);
                    att_type := "text/plain" |}]
           else []))%list.

(** ** The other logging entry points *)

Definition opt_num (o : option Z) : JS.Value :=
  match o with
  | Some n => JS.Num n
  | None => JS.Undefined
  end.

(** [SmartLogger.categorizePerformance]. *)
Definition categorizePerformance (time : Z) : string :=
  if time <? 1000 then "fast"
  else if time <? 3000 then "moderate"
  else if time <? 5000 then "slow"
  else "very-slow".

(** [SmartLogger.logNavigation]; [None] is an omitted [loadTime]. *)
Definition logNavigation (from to : string) (loadTime : option Z) (st : State) : State :=
  log Level.NAVIGATION ("Navigated from " ++ from ++ " to " ++ to)
    (JS.Obj
       [("from", JS.Str from);
        ("to", JS.Str to);
        ("loadTime", opt_num loadTime);
        ("performance",
          match loadTime with
          | Some t => if t =? 0 then JS.Undefined else JS.Str (categorizePerformance t)
          | None => JS.Undefined
          end)])
    st.

(** [SmartLogger.logApiCall]. *)
Definition apiLevel (status : Z) : Level.t :=
  if 400 <=? status then Level.ERROR
  else if 300 <=? status then Level.WARN
  else Level.INFO.

Definition logApiCall (method url : string) (status : Z) (responseTime : option Z)
  (st : State) : State :=
  log (apiLevel status)
    ("API " ++ method ++ " " ++ url ++ " - " ++ JS.string_of_Z status)
    (JS.Obj
       [("method", JS.Str method);
        ("url", JS.Str url);
        ("status", JS.Num status);
        ("responseTime", opt_num responseTime);
        ("success", JS.Bool (status <? 400))])
    st.

(** [SmartLogger.logPerformance]; [None] is an omitted [threshold], and a
    threshold of 0 is falsy. *)
Definition has_threshold (threshold : option Z) : option Z :=
  match threshold with
  | Some t => if t =? 0 then None else Some t
  | None => None
  end.

Definition logPerformance (metric : string) (value : Z) (threshold : option Z)
  (st : State) : State :=
  log
    (match has_threshold threshold with
     | Some t => if t <? value then Level.WARN else Level.INFO
     | None => Level.INFO
     end)
    ("Performance: " ++ metric ++ " = " ++ JS.string_of_Z value ++ "ms")
    (JS.Obj
       [("metric", JS.Str metric);
        ("value", JS.Num value);
        ("threshold", opt_num threshold);
        ("category", JS.Str (categorizePerformance value));
        ("withinThreshold",
          JS.Bool
            (match has_threshold threshold with
             | Some t => value <=? t
             | None => true
             end))])
    st.

(** [SmartLogger.logWait]; [success] may be omitted. *)
Definition logWait (waitType : string) (selector : option string)
  (timeout : option Z) (success : option bool) (st : State) : State :=
  log
    (match success with
     | Some false => Level.WARN
     | _ => Level.INFO
     end)
    ("Wait: " ++ waitType)
    (JS.Obj
       [("waitType", JS.Str waitType);
        ("selector", opt_str selector);
        ("timeout", opt_num timeout);
        ("success",
          match success with
          | Some b => JS.Bool b
          | None => JS.Undefined
          end)])
    st.

End SmartLogger.

(* ===================================================================== *)
(** * The browser driver: pages and locators                               *)
(* ===================================================================== *)

(** The part of Playwright's [Page] and [Locator] that the modelled
    operations use, on a page that stays as it is unless an action of the
    model changes it.  A wait therefore succeeds exactly when its condition
    holds at the time of the call. *)
Module Driver.

(** A node of the document. *)
Record Element := {
  el_selectors : list string;        (** the selectors that match the node *)
  el_visible : bool;
  el_enabled : bool;
  el_checked : option bool;          (** [None]: not a checkbox or radio *)
  el_value : option string;          (** [None]: not an input control *)
  el_onInput : string -> string;     (** what the page's input handlers leave
                                         in the control for a filled text *)
  el_textContent : option string;
  el_attributes : list (string * string)
}.

Record Page := {
  dom : list Element;
  (** the outcome of [ErrorInspector.inspectPageOnError] on this page *)
  inspectPageOnError : string -> Outcome ErrorInspector.PageInspectionReport
}.

(** [page.locator(selector)] and [locator.nth(index)]. *)
Inductive Locator :=
| Loc (selector : string)
| Nth (l : Locator) (index : Z).

Fixpoint positions (selector : string) (i : nat) (nodes : list Element) : list nat :=
  match nodes with
  | [] => []
  | e :: rest =>
      if existsb (String.eqb selector) (el_selectors e)
      then i :: positions selector (S i) rest
      else positions selector (S i) rest
  end.

(** The positions in the document of the nodes a locator denotes, in
    document order.  A negative index counts from the end. *)
Fixpoint resolve (pg : Page) (l : Locator) : list nat :=
  match l with
  | Loc selector => positions selector 0%nat (dom pg)
  | Nth l' index =>
      let found := resolve pg l' in
      let k :=
        if 0 <=? index then Some (Z.to_nat index)
        else if - index <=? Z.of_nat (List.length found)
             then Some (List.length found - Z.to_nat (- index))%nat
             else None in
      match k with
      | Some n => match nth_error found n with Some p => [p] | None => [] end
      | None => []
      end
  end.

(** The driver's timeout error.  Its message begins as the driver's does;
    the driver appends a call log, which is left out here.  The properties
    stated about thrown errors therefore speak of the driver's message as
    given, never of this text. *)
Definition TimeoutError (what : string) (timeout : Z) : Error :=
  {| err_name := "TimeoutError";
     err_message := what ++ ": Timeout " ++ JS.string_of_Z timeout ++ "ms exceeded.";
     err_stack := None |}.

Definition StrictModeViolation (what : string) : Error :=
  new_Error (what ++ ": strict mode violation: locator resolved to several elements").

(** The single node an action or a query works on: a locator that denotes
    several nodes is a strictness violation, one that denotes none times out.
    The page does not change while a call waits, so a wait that is not
    satisfied at once runs into its timeout; this is the driver's behaviour
    for a positive [timeout].  With a [timeout] of 0 the driver waits without
    limit and such a call never settles, which these total functions do not
    express: the properties that rest on a wait running into its timeout are
    stated for positive timeouts.  Where the source passes no timeout, the driver's configured
    default applies; 0 is written for it, and shows in the message only. *)
Definition target (what : string) (timeout : Z) (pg : Page) (l : Locator)
  : Outcome (nat * Element) :=
  match resolve pg l with
  | [] => inl (TimeoutError what timeout)
  | [p] =>
      match nth_error (dom pg) p with
      | Some e => inr (p, e)
      | None => inl (TimeoutError what timeout)
      end
  | _ => inl (StrictModeViolation what)
  end.

Fixpoint set_nth (p : nat) (e : Element) (nodes : list Element) : list Element :=
  match nodes, p with
  | [], _ => []
  | _ :: rest, O => e :: rest
  | x :: rest, S p' => x :: set_nth p' e rest
  end.

Definition update (pg : Page) (p : nat) (e : Element) : Page :=
  {| dom := set_nth p e (dom pg); inspectPageOnError := inspectPageOnError pg |}.

Definition with_checked (b : bool) (e : Element) : Element :=
  {| el_selectors := el_selectors e; el_visible := el_visible e;
     el_enabled := el_enabled e; el_checked := Some b;
     el_value := el_value e; el_onInput := el_onInput e;
     el_textContent := el_textContent e; el_attributes := el_attributes e |}.

Definition with_value (v : string) (e : Element) : Element :=
  {| el_selectors := el_selectors e; el_visible := el_visible e;
     el_enabled := el_enabled e; el_checked := el_checked e;
     el_value := Some v; el_onInput := el_onInput e;
     el_textContent := el_textContent e; el_attributes := el_attributes e |}.

(** [locator.waitFor({ state: 'visible' | 'attached', timeout })], on a
    page that stays as it is during the wait (see [target] for the timeout
    of 0). *)
Inductive WaitState := visible | attached.

Definition waitFor (state : WaitState) (timeout : Z) (pg : Page) (l : Locator)
  : Outcome unit :=
  let* t := target "locator.waitFor" timeout pg l in
  match state with
  | attached => inr tt
  | visible =>
      if el_visible (snd t) then inr tt
      else inl (TimeoutError "locator.waitFor" timeout)
  end.

Definition count (pg : Page) (l : Locator) : nat := List.length (resolve pg l).

(** [locator.isVisible()]: false, not an error, when nothing matches. *)
Definition isVisible (pg : Page) (l : Locator) : Outcome bool :=
  match resolve pg l with
  | [] => inr false
  | _ => let* t := target "locator.isVisible" 0 pg l in inr (el_visible (snd t))
  end.

Definition isEnabled (pg : Page) (l : Locator) : Outcome bool :=
  let* t := target "locator.isEnabled" 0 pg l in inr (el_enabled (snd t)).

Definition isChecked (pg : Page) (l : Locator) : Outcome bool :=
  let* t := target "locator.isChecked" 0 pg l in
  match el_checked (snd t) with
  | Some b => inr b
  | None => inl (new_Error "locator.isChecked: Not a checkbox or radio button")
  end.

(** [locator.check()] and [locator.uncheck()]: nothing to do when the state
    is already the wanted one; otherwise the node must be actionable, and
    the click leaves it in the wanted state. *)
Definition setChecked (what : string) (wanted : bool) (pg : Page) (l : Locator)
  : Outcome Page :=
  let* t := target what 0 pg l in
  match el_checked (snd t) with
  | None => inl (new_Error (what ++ ": Not a checkbox or radio button"))
  | Some b =>
      if Bool.eqb b wanted then inr pg
      else if el_visible (snd t) && el_enabled (snd t)
           then inr (update pg (fst t) (with_checked wanted (snd t)))
           else inl (TimeoutError what 0)
  end.

Definition check := setChecked "locator.check" true.
Definition uncheck := setChecked "locator.uncheck" false.

(** [locator.fill(value)]. *)
Definition fill (value : string) (pg : Page) (l : Locator) : Outcome Page :=
  let* t := target "locator.fill" 0 pg l in
  match el_value (snd t) with
  | None =>
      inl (new_Error
             "locator.fill: Element is not an <input>, <textarea> or <select> element")
  | Some _ =>
      if el_visible (snd t) && el_enabled (snd t)
      then inr (update pg (fst t) (with_value (el_onInput (snd t) value) (snd t)))
      else inl (TimeoutError "locator.fill" 0)
  end.

Definition inputValue (pg : Page) (l : Locator) : Outcome string :=
  let* t := target "locator.inputValue" 0 pg l in
  match el_value (snd t) with
  | Some v => inr v
  | None =>
      inl (new_Error
             "locator.inputValue: Node is not an <input>, <textarea> or <select> element")
  end.

Definition textContent (timeout : Z) (pg : Page) (l : Locator)
  : Outcome (option string) :=
  let* t := target "locator.textContent" timeout pg l in
  inr (el_textContent (snd t)).

Fixpoint assoc (k : string) (l : list (string * string)) : option string :=
  match l with
  | [] => None
  | (k', v) :: rest => if String.eqb k k' then Some v else assoc k rest
  end.

Definition getAttribute (attribute : string) (pg : Page) (l : Locator)
  : Outcome (option string) :=
  let* t := target "locator.getAttribute" 0 pg l in
  inr (assoc attribute (el_attributes (snd t))).

(** [expect(locator).toBeEnabled({ timeout })]. *)
Definition toBeEnabled (timeout : Z) (pg : Page) (l : Locator) : Outcome unit :=
  let* t := target "expect.toBeEnabled" timeout pg l in
  if el_enabled (snd t) then inr tt
  else inl (TimeoutError "expect.toBeEnabled" timeout).

(** [expect(locator).not.toBeEmpty({ timeout })]: an input control with a
    value, or a node with text. *)
Definition notToBeEmpty (timeout : Z) (pg : Page) (l : Locator) : Outcome unit :=
  let* t := target "expect.not.toBeEmpty" timeout pg l in
  let text :=
    match el_value (snd t) with
    | Some v => v
    | None => match el_textContent (snd t) with Some s => s | None => EmptyString end
    end in
  if String.eqb text EmptyString
  then inl (TimeoutError "expect.not.toBeEmpty" timeout)
  else inr tt.

End Driver.

(* ===================================================================== *)
(** * The world and its computations                                       *)
(* ===================================================================== *)

(** What the modelled code reads and writes: the logger's static fields,
    the live page, and the clock read by [performance.now()], in whole
    milliseconds. *)
Record World := {
  logger : SmartLogger.State;
  page : Driver.Page;
  clock : Z
}.

Definition with_logger (f : SmartLogger.State -> SmartLogger.State) (w : World) : World :=
  {| logger := f (logger w); page := page w; clock := clock w |}.

Definition with_page (pg : Driver.Page) (w : World) : World :=
  {| logger := logger w; page := pg; clock := clock w |}.

(** [await new Promise(resolve => setTimeout(resolve, ms))]. *)
Definition sleep (ms : Z) (w : World) : World :=
  {| logger := logger w; page := page w; clock := clock w + Z.max 0 ms |}.

(** An [async] function: it returns or throws, and changes the world. *)
Definition M (A : Type) : Type := World -> Outcome A * World.

Definition ret {A : Type} (a : A) : M A := fun w => (inr a, w).

Definition throw {A : Type} (e : Error) : M A := fun w => (inl e, w).

Definition bind {A B : Type} (c : M A) (k : A -> M B) : M B :=
  fun w =>
    match c w with
    | (inr a, w') => k a w'
    | (inl e, w') => (inl e, w')
    end.

(** [try { c } catch (error) { handler }]. *)
Definition try_catch {A : Type} (c : M A) (handler : Error -> M A) : M A :=
  fun w =>
    match c w with
    | (inr a, w') => (inr a, w')
    | (inl e, w') => handler e w'
    end.

Definition lift {A : Type} (o : Outcome A) : M A := fun w => (o, w).

Definition modify (f : World -> World) : M unit := fun w => (inr tt, f w).

Notation "x <- c ;; k" := (bind c (fun x => k))
  (at level 61, c at next level, right associativity).
Notation "c ;; k" := (bind c (fun _ => k))
  (at level 61, right associativity).

(** A computation that also reports the steps it took, in order. *)
Definition Traced (E A : Type) : Type := World -> Outcome A * World * list E.

Definition tret {E A : Type} (a : A) : Traced E A := fun w => (inr a, w, []).

Definition tbind {E A B : Type} (c : Traced E A) (k : A -> Traced E B) : Traced E B :=
  fun w =>
    match c w with
    | (inr a, w', t) =>
        let '(r, w'', t') := k a w' in (r, w'', (t ++ t')%list)
    | (inl e, w', t) => (inl e, w', t)
    end.

(** Run [c] as the step [e]. *)
Definition step {E A : Type} (e : E) (c : M A) : Traced E A :=
  fun w => let '(r, w') := c w in (r, w', [e]).

Definition untraced {E A : Type} (c : Traced E A) : M A :=
  fun w => let '(r, w', _) := c w in (r, w').

Definition when {E : Type} (b : bool) (c : Traced E unit) : Traced E unit :=
  if b then c else tret tt.

Notation "c ;;; k" := (tbind c (fun _ => k))
  (at level 61, right associativity).

(** Calls of the logger and of the driver, as computations.  A call of the
    driver leaves the clock where it is: the time a call takes is not part
    of the page model. *)
Definition log (level : Level.t) (message : string) (context : JS.Value) : M unit :=
  modify (with_logger (SmartLogger.log level message context)).

Definition query {A : Type} (f : Driver.Page -> Driver.Locator -> Outcome A)
  (l : Driver.Locator) : M A :=
  fun w => (f (page w) l, w).

Definition action (f : Driver.Page -> Driver.Locator -> Outcome Driver.Page)
  (l : Driver.Locator) : M unit :=
  fun w =>
    match f (page w) l with
    | inr pg => (inr tt, with_page pg w)
    | inl e => (inl e, w)
    end.

(** The methods of a Playwright [Locator] that the private helpers call. *)
Record LocatorOps := {
  op_waitFor : Driver.WaitState -> Z -> M unit;
  op_count : M nat;
  op_isVisible : M bool;
  op_isEnabled : M bool;
  op_toBeEnabled : Z -> M unit;
  op_notToBeEmpty : Z -> M unit
}.

(** The locators of the page model implement them. *)
Definition ops (l : Driver.Locator) : LocatorOps :=
  {| op_waitFor := fun state timeout => query (Driver.waitFor state timeout) l;
     op_count := fun w => (inr (Driver.count (page w) l), w);
     op_isVisible := query Driver.isVisible l;
     op_isEnabled := query Driver.isEnabled l;
     op_toBeEnabled := fun timeout => query (Driver.toBeEnabled timeout) l;
     op_notToBeEmpty := fun timeout => query (Driver.notToBeEmpty timeout) l |}.

(* ===================================================================== *)
(** * [ElementHelper]                                                      *)
(* ===================================================================== *)

Module ElementHelper.

(** An element argument: a selector string or a locator. *)
Definition ElementRef : Type := (string + Driver.Locator)%type.

(** [locator.toString()], used only to name the element in log lines. *)
Fixpoint Locator_toString (l : Driver.Locator) : string :=
  match l with
  | Driver.Loc selector => "locator('" ++ selector ++ "')"
  | Driver.Nth l' index =>
      Locator_toString l' ++ ".nth(" ++ JS.string_of_Z index ++ ")"
  end.

(** [createLocator]. *)
Definition createLocator (element : ElementRef) (index : Z) : Driver.Locator :=
  match element with
  | inl selector => Driver.Nth (Driver.Loc selector) index
  | inr locator => Driver.Nth locator index
  end.

(** How an argument appears among the entries of [validateParams]. *)
Definition element_value (element : ElementRef) : JS.Value :=
  match element with
  | inl selector => JS.Str selector
  | inr _ => JS.Obj []
  end.

Definition page_value : JS.Value := JS.Obj [].

(** [validateParams]: the entries are visited in order. *)
Fixpoint validateParams (params : list (string * JS.Value)) : Outcome unit :=
  match params with
  | [] => inr tt
  | (key, value) :: rest =>
      match value with
      | JS.Null | JS.Undefined =>
          inl (new_Error
                 (INVALID_PARAMETER ++ ": " ++ key ++ " cannot be null or undefined"))
      | JS.Num n =>
          if JS.includes key "timeout" && (n <? 0) then
            inl (new_Error (INVALID_PARAMETER ++ ": " ++ key ++ " must be positive"))
          else if JS.includes key "index" && (n <? 0) then
            inl (new_Error (INVALID_PARAMETER ++ ": " ++ key ++ " must be non-negative"))
          else validateParams rest
      | _ => validateParams rest
      end
  end.

(** [createErrorMessage]; [None] is an omitted [error]. *)
Definition elementDesc (element : ElementRef) : string :=
  match element with
  | inl selector => "selector " ++ dquote ++ selector ++ dquote
  | inr _ => "Locator object"
  end.

Definition createErrorMessage (operation : string) (element : ElementRef)
  (error : option string) : string :=
  operation ++ " failed for " ++ elementDesc element
  ++ match error with
     | Some e => if String.eqb e EmptyString then EmptyString else ": " ++ e
     | None => EmptyString
     end.

(** ** The retry engine *)

Definition unrecoverablePatterns : list string :=
  ["Element not found";
   "page has been closed";
   "context has been closed";
   "browser has been closed";
   "Navigation failed";
   "net::ERR_NAME_NOT_RESOLVED";
   "net::ERR_CONNECTION_REFUSED"].

(** [isUnrecoverableError]. *)
Definition isUnrecoverableError (error : Error) : bool :=
  existsb
    (fun pattern =>
       JS.includes (JS.toLowerCase (err_message error)) (JS.toLowerCase pattern))
    unrecoverablePatterns.

(** What [retryOperation] throws: the last error caught, or [undefined] when
    the loop body never ran and [lastError] was never assigned. *)
Inductive Thrown :=
| ThrownError (e : Error)
| ThrownUndefined.

(** What the engine does, in order: [Attempt n] is the n-th call of the
    operation, [Delay ms] a [setTimeout] of [ms] milliseconds. *)
Inductive RetryEvent :=
| Attempt (n : Z)
| Delay (ms : Z).

Section Retry.

Variable K : Constants.
Context {T : Type}.
Variable operation : M T.
Variable operationName : string.
Variable maxRetries baseDelay : Z.

Definition ms (t : Z) : string := JS.toFixed2 t ++ "ms".

(** The lines of the [try] block after [operation()] has returned. *)
Definition log_success (attempt startTime attemptStartTime : Z) (w : World) : World :=
  if ENABLE_PERFORMANCE_MONITORING K then
    let totalTime := clock w - startTime in
    let attemptTime := clock w - attemptStartTime in
    if (1 <? attempt) || (1000 <? totalTime) then
      with_logger
        (SmartLogger.log Level.INFO
           (operationName ++ " completed ("
            ++ (if 1 <? attempt then "with retries" else "slow operation") ++ ")")
           (JS.Obj [("operation", JS.Str operationName);
                    ("totalTime", JS.Str (ms totalTime));
                    ("attempts", JS.Num attempt);
                    ("attemptTime", JS.Str (ms attemptTime));
                    ("success", JS.Bool true)]))
        w
    else w
  else w.

Definition log_unrecoverable (lastError : Error) : World -> World :=
  with_logger
    (SmartLogger.log Level.ERROR
       (operationName ++ " failed (unrecoverable): " ++ err_message lastError)
       JS.Undefined).

Definition log_exhausted (startTime : Z) (lastError : Error) (w : World) : World :=
  with_logger
    (SmartLogger.log Level.ERROR
       (if ENABLE_PERFORMANCE_MONITORING K then
          operationName ++ " failed after " ++ JS.string_of_Z maxRetries
          ++ " attempts in " ++ ms (clock w - startTime) ++ ": "
          ++ err_message lastError
        else
          operationName ++ " failed after " ++ JS.string_of_Z maxRetries
          ++ " attempts: " ++ err_message lastError)
       JS.Undefined)
    w.

Definition log_retry (attempt delay : Z) : World -> World :=
  with_logger
    (SmartLogger.log Level.WARN
       (operationName ++ " attempt " ++ JS.string_of_Z attempt
        ++ " failed, retrying in " ++ JS.string_of_Z delay ++ "ms")
       JS.Undefined).

(** [attempt === 1 ? 100 : baseDelay * Math.pow(2, attempt - 2)]. *)
Definition retry_delay (attempt : Z) : Z :=
  if attempt =? 1 then 100 else baseDelay * 2 ^ (attempt - 2).

(** The [for] loop, entered with the current value of [attempt] and of
    [lastError]; [fuel] bounds the number of iterations still to run. *)
Fixpoint retry_loop (fuel : nat) (attempt startTime : Z) (lastError : Thrown)
  (w : World) : (Thrown + T) * World * list RetryEvent :=
  match fuel with
  | O => (inl lastError, w, [])
  | S fuel' =>
      if attempt <=? maxRetries then
        let attemptStartTime :=
          if ENABLE_PERFORMANCE_MONITORING K then clock w else 0 in
        match operation w with
        | (inr result, w1) =>
            (inr result, log_success attempt startTime attemptStartTime w1,
             [Attempt attempt])
        | (inl error, w1) =>
            if isUnrecoverableError error then
              (inl (ThrownError error), log_unrecoverable error w1,
               [Attempt attempt])
            else if attempt =? maxRetries then
              (inl (ThrownError error), log_exhausted startTime error w1,
               [Attempt attempt])
            else
              let delay := retry_delay attempt in
              let w2 := sleep delay (log_retry attempt delay w1) in
              let '(r, w3, events) :=
                retry_loop fuel' (attempt + 1) startTime (ThrownError error) w2 in
              (r, w3, Attempt attempt :: Delay delay :: events)
        end
      else (inl lastError, w, [])
  end.

(** [retryOperation]: the loop runs at most [maxRetries] times. *)
Definition retryOperation (w : World) : (Thrown + T) * World * list RetryEvent :=
  let startTime := if ENABLE_PERFORMANCE_MONITORING K then clock w else 0 in
  retry_loop (Z.to_nat maxRetries) 1 startTime ThrownUndefined w.

End Retry.

(** [retryOperation] called without [maxRetries] and [baseDelay]. *)
Definition retryOperation_default (K : Constants) {T : Type} (operation : M T)
  (operationName : string) :=
  retryOperation K operation operationName (MAX_RETRIES K) (BASE_RETRY_DELAY K).

(** ** The smart wait *)

(** The [conditions] argument; [None] is an absent property. *)
Record Conditions := {
  visible : option bool;
  stable : option bool;
  enabled : option bool;
  hasText : option bool
}.

(** [{}], the default value of [conditions]. *)
Definition no_conditions : Conditions :=
  {| visible := None; stable := None; enabled := None; hasText := None |}.

(** A destructuring default: [{ x = d } = conditions]. *)
Definition or_default (d : bool) (o : option bool) : bool :=
  match o with
  | Some b => b
  | None => d
  end.

(** [conditions.stable === true]. *)
Definition is_true (o : option bool) : bool :=
  match o with
  | Some true => true
  | _ => false
  end.

Inductive WaitStep :=
| WaitVisible (timeout : Z)
| StabilityDelay (ms : Z)
| ExpectEnabled (timeout : Z)
| ExpectNotEmpty (timeout : Z).

Section Helpers.

Variable K : Constants.

(** [smartWaitForElement], with the steps it takes. *)
Definition smartWaitForElement_steps (elementLocator : LocatorOps)
  (conditions : Conditions) (timeout : Z) : Traced WaitStep unit :=
  let visible := or_default true (visible conditions) in
  let stable := or_default false (stable conditions) in
  let enabled := or_default false (enabled conditions) in
  let hasText := or_default false (hasText conditions) in
  when visible
    (step (WaitVisible timeout) (op_waitFor elementLocator Driver.visible timeout)) ;;;
  when (stable && (ENABLE_HEALTH_CHECKS K || is_true (ElementHelper.stable conditions)))
    (step (StabilityDelay (ANIMATION_DELAY K)) (modify (sleep (ANIMATION_DELAY K)))) ;;;
  when enabled
    (step (ExpectEnabled (SHORT_TIMEOUT K))
       (op_toBeEnabled elementLocator (SHORT_TIMEOUT K))) ;;;
  when hasText
    (step (ExpectNotEmpty (SHORT_TIMEOUT K))
       (op_notToBeEmpty elementLocator (SHORT_TIMEOUT K))).

Definition smartWaitForElement (elementLocator : LocatorOps)
  (conditions : Conditions) (timeout : Z) : M unit :=
  untraced (smartWaitForElement_steps elementLocator conditions timeout).

(** ** The health check *)

Inductive OperationType := click | fill | read.

Record HealthReport := {
  healthy : bool;
  issues : list string
}.

Definition interactive (operationType : OperationType) : bool :=
  match operationType with
  | click | fill => true
  | read => false
  end.

(** The [try] block of [checkElementHealth]. *)
Definition inspect_health (elementLocator : LocatorOps)
  (operationType : OperationType) : M HealthReport :=
  count <- op_count elementLocator ;;
  if Nat.eqb count 0 then
    ret {| healthy := false; issues := ["Element not found in DOM"] |}
  else
    let issues1 :=
      if Nat.ltb 1 count
      then [("Multiple elements found (" ++ JS.string_of_nat count
             ++ "), using first one")%string]
      else [] in
    isVisible <- op_isVisible elementLocator ;;
    let issues2 :=
      (issues1 ++ if isVisible then [] else ["Element is not visible"])%list in
    issues3 <-
      (if interactive operationType && isVisible then
         isEnabled <- op_isEnabled elementLocator ;;
         ret (issues2 ++ if isEnabled then [] else ["Element is disabled"])%list
       else ret issues2) ;;
    ret {| healthy :=
             Nat.eqb
               (List.length
                  (filter (fun issue => negb (JS.includes issue "Multiple elements"))
                     issues3))
               0;
           issues := issues3 |}.

(** [checkElementHealth]. *)
Definition checkElementHealth (elementLocator : LocatorOps)
  (operationType : OperationType) : M HealthReport :=
  if negb (ENABLE_HEALTH_CHECKS K) then
    ret {| healthy := true; issues := [] |}
  else
    try_catch (inspect_health elementLocator operationType)
      (fun error =>
         ret {| healthy := true;
                issues := [("Health check skipped: " ++ err_message error)%string] |}).

(** ** State checks used by the facade *)

(** [waitForDisplayed]: never throws once its arguments are valid. *)
Definition waitForDisplayed (element : ElementRef) (timeout : Z) : M bool :=
  lift (validateParams
          [("page", page_value); ("element", element_value element);
           ("timeout", JS.Num timeout)]) ;;
  try_catch
    (let elementLocator :=
       match element with
       | inl selector => Driver.Loc selector
       | inr locator => locator
       end in
     query (Driver.waitFor Driver.visible timeout) elementLocator ;;
     ret true)
    (fun _ => ret false).

(** [isElementChecked]. *)
Definition isElementChecked (element : ElementRef) (index : Z) : M bool :=
  lift (validateParams
          [("page", page_value); ("element", element_value element);
           ("index", JS.Num index)]) ;;
  try_catch
    (query Driver.isChecked (createLocator element index))
    (fun _ => ret false).

(** ** Facade operations *)

(** [catch (error) { throw new Error(createErrorMessage(op, element, error.message)) }] *)
Definition rethrow_as {A : Type} (operation : string) (element : ElementRef)
  (c : M A) : M A :=
  try_catch c
    (fun error =>
       throw (new_Error (createErrorMessage operation element (Some (err_message error))))).

(** [toggleCheckbox]. *)
Definition toggleCheckbox (element : ElementRef) (index timeout : Z) : M unit :=
  lift (validateParams
          [("page", page_value); ("element", element_value element);
           ("index", JS.Num index); ("timeout", JS.Num timeout)]) ;;
  rethrow_as "Toggle checkbox" element
    (let elementLocator := createLocator element index in
     isVisible <- waitForDisplayed (inr elementLocator) timeout ;;
     (if isVisible then ret tt
      else throw (new_Error (ELEMENT_NOT_VISIBLE ++ " at index "
                             ++ JS.string_of_Z index))) ;;
     isChecked <- isElementChecked (inr elementLocator) 0 ;;
     if isChecked
     then action Driver.uncheck elementLocator
     else action Driver.check elementLocator).




(** ** Filling an input *)

(** The operation that [enterValue] hands to the retry engine. *)
Definition enterValue_operation (element : ElementRef) (elementSelector value : string)
  (index timeout : Z) : M unit :=
  let elementLocator := createLocator element index in
  smartWaitForElement (ops elementLocator)
    {| visible := Some true; stable := None; enabled := None; hasText := None |}
    timeout ;;
  action (Driver.fill value) elementLocator ;;
  if ENABLE_VALUE_VERIFICATION K then
    actualValue <- query Driver.inputValue elementLocator ;;
    if negb (String.eqb actualValue value) then
      throw (new_Error ("Value verification failed. Expected: " ++ dquote ++ value
                        ++ dquote ++ ", Actual: " ++ dquote ++ actualValue ++ dquote))
    else
      log Level.INFO ("Successfully filled " ++ elementSelector ++ " with verified value")
        JS.Undefined
  else
    log Level.INFO ("Successfully filled " ++ elementSelector) JS.Undefined.

(** The [catch] block of [enterValue]: [logError] reads [error.name] first,
    which is itself a [TypeError] when [undefined] was thrown. *)
Definition enterValue_catch (element : ElementRef) (thrown : Thrown) : M unit :=
  match thrown with
  | ThrownError error =>
      (fun w =>
         (inr tt,
          with_logger
            (SmartLogger.logError error
               (Some (Driver.inspectPageOnError (page w) (err_message error))))
            w)) ;;
      throw (new_Error (createErrorMessage "Enter value" element
                          (Some (err_message error))))
  | ThrownUndefined =>
      throw (new_TypeError "Cannot read properties of undefined (reading 'name')")
  end.

(** [enterValue]. *)
Definition enterValue (element : ElementRef) (value : string) (index timeout : Z)
  : M unit :=
  lift (validateParams
          [("page", page_value); ("element", element_value element);
           ("value", JS.Str value);
           ("index", JS.Num index); ("timeout", JS.Num timeout)]) ;;
  let elementSelector :=
    match element with
    | inl selector => selector
    | inr locator => Locator_toString locator
    end in
  modify (with_logger
            (SmartLogger.logUserAction "fill" (Some elementSelector) (Some value))) ;;
  fun w =>
    match
      retryOperation_default K
        (enterValue_operation element elementSelector value index timeout)
        ("Enter value in " ++ elementSelector) w
    with
    | (inr _, w', _) => (inr tt, w')
    | (inl thrown, w', _) => enterValue_catch element thrown w'
    end.

End Helpers.

(** ** State checks that answer with a boolean *)

(** [catch (error) { console.debug(...); return fallback }]. *)
Definition or_on_error {A : Type} (fallback : A) (c : M A) : M A :=
  try_catch c (fun _ => ret fallback).

(** [page.locator(element)] or the locator itself, with no [nth]. *)
Definition asLocator (element : ElementRef) : Driver.Locator :=
  match element with
  | inl selector => Driver.Loc selector
  | inr locator => locator
  end.

(** [isElementDisplayed]; its [element] is a locator. *)
Definition isElementDisplayed (element : Driver.Locator) (timeout : Z) : M bool :=
  lift (validateParams
          [("element", element_value (inr element)); ("timeout", JS.Num timeout)]) ;;
  or_on_error false
    (query (Driver.waitFor Driver.visible timeout) element ;; ret true).

(** [doesElementExist]. *)
Definition doesElementExist (element : ElementRef) : M bool :=
  lift (validateParams
          [("page", page_value); ("element", element_value element)]) ;;
  or_on_error false
    (fun w => (inr (Nat.ltb 0 (Driver.count (page w) (asLocator element))), w)).

(** [isElementVisible]. *)
Definition isElementVisible (element : ElementRef) (index : Z) : M bool :=
  lift (validateParams
          [("page", page_value); ("element", element_value element);
           ("index", JS.Num index)]) ;;
  or_on_error false (query Driver.isVisible (createLocator element index)).

(** [isElementEnabled]. *)
Definition isElementEnabled (element : ElementRef) (index : Z) : M bool :=
  lift (validateParams
          [("page", page_value); ("element", element_value element);
           ("index", JS.Num index)]) ;;
  or_on_error false (query Driver.isEnabled (createLocator element index)).

(** [getElementCount]. *)
Definition getElementCount (element : ElementRef) : M nat :=
  lift (validateParams
          [("page", page_value); ("element", element_value element)]) ;;
  or_on_error 0%nat
    (fun w => (inr (Driver.count (page w) (asLocator element)), w)).

(** [hasClass]: [classList ? classList.split(' ').includes(className) : false]. *)
Definition hasClass (element : ElementRef) (className : string) (index : Z) : M bool :=
  lift (validateParams
          [("page", page_value); ("element", element_value element);
           ("className", JS.Str className); ("index", JS.Num index)]) ;;
  or_on_error false
    (classList <- query (Driver.getAttribute "class") (createLocator element index) ;;
     ret (match classList with
          | Some classes =>
              if String.eqb classes EmptyString then false
              else existsb (String.eqb className) (JS.split_on " " classes)
          | None => false
          end)).

(** ** Operations over driver calls that the page model does not cover *)

(** [locator.selectOption({ value })] and [locator.selectOption({ label })]:
    what they do to the page is the driver's business; the model takes them
    as given. *)
Record SelectOps := {
  selectOption_value : string -> M unit;
  selectOption_label : string -> M unit
}.

(** [selectOptionValue]. *)
Definition selectOptionValue (select : Driver.Locator -> SelectOps)
  (element : ElementRef) (value : string) (index timeout : Z) : M unit :=
  lift (validateParams
          [("page", page_value); ("element", element_value element);
           ("value", JS.Str value);
           ("index", JS.Num index); ("timeout", JS.Num timeout)]) ;;
  rethrow_as "Select option" element
    (let elementLocator := createLocator element index in
     query (Driver.waitFor Driver.visible timeout) elementLocator ;;
     try_catch (selectOption_value (select elementLocator) value)
       (fun _ => selectOption_label (select elementLocator) value)).

(** [dragAndDrop]; [dragTo] is the driver's [sourceLocator.dragTo(targetLocator)]. *)
Definition dragAndDrop (dragTo : Driver.Locator -> Driver.Locator -> M unit)
  (source target : ElementRef) (sourceIndex targetIndex timeout : Z) : M unit :=
  lift (validateParams
          [("page", page_value); ("source", element_value source);
           ("target", element_value target);
           ("sourceIndex", JS.Num sourceIndex);
           ("targetIndex", JS.Num targetIndex);
           ("timeout", JS.Num timeout)]) ;;
  try_catch
    (let sourceLocator := createLocator source sourceIndex in
     let targetLocator := createLocator target targetIndex in
     query (Driver.waitFor Driver.visible timeout) sourceLocator ;;
     query (Driver.waitFor Driver.visible timeout) targetLocator ;;
     dragTo sourceLocator targetLocator)
    (fun error =>
       let sourceDesc :=
         match source with inl s => s | inr _ => "source Locator" end in
       let targetDesc :=
         match target with inl s => s | inr _ => "target Locator" end in
       throw (new_Error ("Drag and drop failed from " ++ sourceDesc ++ " to "
                         ++ targetDesc ++ ": " ++ err_message error))).

End ElementHelper.

(* ===================================================================== *)
(** * [AIContextManager]                                                   *)
(* ===================================================================== *)

Module AIContextManager.

Record FieldInfo := {
  fld_name : string;
  fld_type : string;
  fld_required : bool;
  fld_placeholder : string
}.

Record FormInfo := {
  frm_index : Z;
  frm_action : string;
  frm_method : string;
  frm_fields : list FieldInfo
}.

Record NavigationInfo := {
  nav_index : Z;
  nav_text : string;
  nav_href : string;
  nav_active : bool
}.

Record ErrorInfo := {
  ei_index : Z;
  ei_text : string;
  ei_visible : bool
}.

(** [PageStructure]; its [content] is not read by the code modelled here. *)
Record PageStructure := {
  forms : list FormInfo;
  navigation : list NavigationInfo;
  errors : list ErrorInfo
}.

(** The part of an [AIContext] that [generateAISuggestions] reads. *)
Record AIContext := {
  operation : string;
  pageStructure : PageStructure
}.

Inductive SuggestionType :=
  form_interaction | navigation_type | error_validation | content_verification.

Inductive Priority := high | medium | low.

(** What [patterns[type] || patterns.text] evaluates to: a text of the
    table, or, for a [type] that names a member of [Object.prototype], that
    member, which is no string. *)
Inductive SampleValue :=
| Text (s : string)
| Inherited (member : string).

Definition patterns : list (string * string) :=
  [("email", "test@example.com");
   ("password", "TestPass123!");
   ("username", "testuser");
   ("phone", "+1234567890");
   ("url", "https://example.com");
   ("date", "2025-01-01");
   ("number", "123");
   ("text", "Sample text")].

Definition object_prototype_members : list string :=
  ["constructor"; "__defineGetter__"; "__defineSetter__"; "hasOwnProperty";
   "__lookupGetter__"; "__lookupSetter__"; "isPrototypeOf";
   "propertyIsEnumerable"; "toString"; "valueOf"; "__proto__"; "toLocaleString"].

(** [generateSampleValue]. *)
Definition generateSampleValue (type name : string) : SampleValue :=
  let lowerName := JS.toLowerCase name in
  if JS.includes lowerName "email" then Text "test@example.com"
  else if JS.includes lowerName "pass" then Text "TestPass123!"
  else if JS.includes lowerName "user" then Text "testuser"
  else if JS.includes lowerName "phone" then Text "+1234567890"
  else if JS.includes lowerName "url" then Text "https://example.com"
  else if JS.includes lowerName "date" then Text "2025-01-01"
  else
    match Driver.assoc type patterns with
    | Some sample => Text sample
    | None =>
        if existsb (String.eqb type) object_prototype_members
        then Inherited type
        else Text "Sample text"
    end.

Record TestDatum := {
  td_field : string;
  td_type : string;
  td_sampleValue : SampleValue
}.

Record AISuggestion := {
  sg_type : SuggestionType;
  sg_priority : Priority;
  sg_description : string;
  sg_selectors : list string;
  sg_testData : option (list TestDatum);
  sg_expectedUrl : option string;
  sg_validation : option string
}.

(** The elements of an array with their indexes, as [forEach] and [map] pass
    them to their callbacks. *)
Definition indexed {A : Type} (l : list A) : list (nat * A) :=
  combine (seq 0 (List.length l)) l.

Definition form_suggestion (entry : nat * FormInfo) : list AISuggestion :=
  let '(index, form) := entry in
  if Nat.ltb 0 (List.length (frm_fields form)) then
    [{| sg_type := form_interaction;
        sg_priority := high;
        sg_description :=
          "Fill and submit form " ++ JS.string_of_nat (index + 1) ++ " with "
          ++ JS.string_of_nat (List.length (frm_fields form)) ++ " fields";
        sg_selectors :=
          map (fun field => "[name=" ++ dquote ++ fld_name field ++ dquote ++ "]")
            (frm_fields form);
        sg_testData :=
          Some (map (fun field =>
                       {| td_field := fld_name field;
                          td_type := fld_type field;
                          td_sampleValue :=
                            generateSampleValue (fld_type field) (fld_name field) |})
                  (frm_fields form));
        sg_expectedUrl := None;
        sg_validation := None |}]
  else [].

Definition navigation_suggestion (nav : NavigationInfo) : list AISuggestion :=
  if nav_active nav then []
  else
    [{| sg_type := navigation_type;
        sg_priority := medium;
        sg_description := "Navigate to " ++ nav_text nav;
        sg_selectors := ["a[href=" ++ dquote ++ nav_href nav ++ dquote ++ "]"];
        sg_testData := None;
        sg_expectedUrl := Some (nav_href nav);
        sg_validation := None |}].

Definition error_suggestion (found : list ErrorInfo) : list AISuggestion :=
  match found with
  | [] => []
  | _ :: _ =>
      [{| sg_type := error_validation;
          sg_priority := high;
          sg_description := "Validate error messages and handling";
          sg_selectors :=
            map (fun entry =>
                   ".error:nth-child(" ++ JS.string_of_nat (fst entry + 1) ++ ")")
              (indexed found);
          sg_testData := None;
          sg_expectedUrl := None;
          sg_validation := Some "error_message_display" |}]
  end.

(** [generateAISuggestions]. *)
Definition generateAISuggestions (context : AIContext) : list AISuggestion :=
  let structure := pageStructure context in
  firstn 10
    (flat_map form_suggestion (indexed (forms structure))
     ++ flat_map navigation_suggestion (navigation structure)
     ++ error_suggestion (errors structure))%list.

End AIContextManager.

(* ===================================================================== *)
(** * [ErrorInspector]: reading the page                                   *)
(* ===================================================================== *)

Module Inspector.

(** [locator.first()]. *)
Definition first (l : Driver.Locator) : Driver.Locator := Driver.Nth l 0.

Definition errorSelectors : list string :=
  [".error"; ".error-message"; ".alert-danger"; ".notice-error"; "#error";
   ("[role=" ++ dquote ++ "alert" ++ dquote ++ "]")%string;
   ".wp-die-message"; ".login-error"; ".message.error"].

Definition loadingSelectors : list string :=
  [".loading"; ".spinner"; ".wp-spinner";
   ("[aria-label*=" ++ dquote ++ "loading" ++ dquote ++ "]")%string;
   ".is-loading"].

Definition commonSelectors : list string :=
  ["body"; "main"; "#wpadminbar"; ".wp-admin"; "form"].

(** What [textContent()] resolves to. *)
Definition text_value (text : option string) : JS.Value :=
  match text with
  | Some s => JS.Str s
  | None => JS.Null
  end.

(** [{ count, visible, text }]. *)
Definition element_data (count : nat) (visible : bool) (text : option string)
  : JS.Value :=
  JS.Obj [("count", JS.Num (Z.of_nat count));
          ("visible", JS.Bool visible);
          ("text", text_value text)].

(** One round of the loop over the error selectors: what it adds to
    [elements].  A throw inside the [try] adds nothing.  [textContent()] is
    called without a timeout, which only shows in the message of an error
    that the [catch] drops. *)
Definition inspect_error (pg : Driver.Page) (selector : string)
  : list (string * JS.Value) :=
  let element := Driver.Loc selector in
  let count := Driver.count pg element in
  if Nat.ltb 0 count then
    match
      (let* visible := Driver.isVisible pg (first element) in
       let* text := Driver.textContent 0 pg (first element) in
       inr (element_data count visible text))
    with
    | inr data => [(selector, data)]
    | inl _ => []
    end
  else [].

(** One round of the loop over the loading selectors. *)
Definition inspect_loading (pg : Driver.Page) (selector : string)
  : list (string * JS.Value) :=
  let element := Driver.Loc selector in
  let count := Driver.count pg element in
  match
    (if Nat.ltb 0 count then Driver.isVisible pg (first element) else inr false)
  with
  | inr true =>
      match Driver.textContent 0 pg (first element) with
      | inr text => [(("loading_" ++ selector)%string, element_data count true text)]
      | inl _ => []
      end
  | _ => []
  end.

(** One round of the loop over the common selectors. *)
Definition inspect_common (pg : Driver.Page) (selector : string)
  : string * JS.Value :=
  (("exists_" ++ selector)%string,
   JS.Bool (Nat.ltb 0 (Driver.count pg (Driver.Loc selector)))).

(** [ErrorInspector.inspectErrorElements]: the entries of the object it
    returns, in insertion order; no two rounds write the same key. *)
Definition inspectErrorElements (pg : Driver.Page) : list (string * JS.Value) :=
  (flat_map (inspect_error pg) errorSelectors
   ++ flat_map (inspect_loading pg) loadingSelectors
   ++ map (inspect_common pg) commonSelectors)%list.

End Inspector.

(* ===================================================================== *)
(** * Reference definitions, written from the specification               *)
(* ===================================================================== *)

Module Spec.

Import ElementHelper.

(** "first retry uses a short fixed delay, subsequent retries use
    baseDelay * 2^(n-2)": the delay before retry [n], the retry that follows
    the n-th failed attempt. *)
Definition backoff (baseDelay n : Z) : Z :=
  if n =? 1 then 100 else baseDelay * 2 ^ (n - 2).

(** The run of an operation that fails every time: attempt [n], then
    [retries] more attempts, each after its delay. *)
Fixpoint schedule (baseDelay : Z) (retries : nat) (n : Z) : list RetryEvent :=
  match retries with
  | O => [Attempt n]
  | S r => Attempt n :: Delay (backoff baseDelay n) :: schedule baseDelay r (n + 1)
  end.

(** How many times the operation was called. *)
Fixpoint attempts (events : list RetryEvent) : nat :=
  match events with
  | [] => O
  | Attempt _ :: rest => S (attempts rest)
  | Delay _ :: rest => attempts rest
  end.

(** The delays between the calls, in order. *)
Fixpoint delays (events : list RetryEvent) : list Z :=
  match events with
  | [] => []
  | Attempt _ :: rest => delays rest
  | Delay d :: rest => d :: delays rest
  end.

(** "fails on each attempt with a recoverable error". *)
Definition always_recoverable {T : Type} (operation : M T) : Prop :=
  forall w, exists e w1, operation w = (inl e, w1) /\ isUnrecoverableError e = false.

(** The unrecoverable patterns as the specification lists them: "element
    not found"; "page/context/browser closed", the wording of the driver
    being "... has been closed"; navigation failure; "DNS/connection
    refused", the two network error codes.  They are written in lower case,
    case being ignored in the comparison. *)
Definition fatal_patterns : list string :=
  ["element not found";
   "page has been closed";
   "context has been closed";
   "browser has been closed";
   "navigation failed";
   "net::err_name_not_resolved";
   "net::err_connection_refused"].

(** "message contains one of the unrecoverable patterns, matched
    case-insensitively". *)
Definition matches_unrecoverable (msg : string) : Prop :=
  exists pattern,
    In pattern fatal_patterns
    /\ JS.includes (JS.toLowerCase msg) pattern = true.

(** "checked in a fixed order: visible, stable, enabled, hasText", the
    stability delay being taken "when explicitly requested": the steps of a
    wait in which nothing fails. *)
Definition planned_steps (K : Constants) (conditions : Conditions) (timeout : Z)
  : list WaitStep :=
  ((if or_default true (visible conditions) then [WaitVisible timeout] else [])
   ++ (if is_true (stable conditions) then [StabilityDelay (ANIMATION_DELAY K)] else [])
   ++ (if or_default false (enabled conditions)
       then [ExpectEnabled (SHORT_TIMEOUT K)] else [])
   ++ (if or_default false (hasText conditions)
       then [ExpectNotEmpty (SHORT_TIMEOUT K)] else []))%list.

(** [l1] is an initial segment of [l2]. *)
Definition initial_segment {A : Type} (l1 l2 : list A) : Prop :=
  exists rest, l2 = (l1 ++ rest)%list.

(** The informational note about several matches. *)
Definition multiple_note (count : nat) : string :=
  "Multiple elements found (" ++ JS.string_of_nat count ++ "), using first one".

Definition is_multiple_note (issue : string) : Prop :=
  exists count, issue = multiple_note count.

(** "the only issues (if any) are the informational multiple-matches note". *)
Definition only_multiple_notes (issues : list string) : Prop :=
  Forall is_multiple_note issues.

(** "matches the sensitive heuristic": contains "password" or is longer than
    the threshold of six characters. *)
Definition sensitive (value : string) : Prop :=
  JS.includes (JS.toLowerCase value) "password" = true
  \/ (6 < String.length value)%nat.




(** The element data of a report are objects or booleans, as
    [inspectErrorElements] stores them: never [null] or [undefined]. *)
Definition elements_present (report : ErrorInspector.PageInspectionReport) : Prop :=
  forall selector data,
    In (selector, data) (ErrorInspector.elements report) ->
    data <> JS.Undefined /\ data <> JS.Null.


(** The integers that the numbers of the source, double-precision floats,
    hold exactly and on which their arithmetic is that of the integers:
    those below [2^53] in magnitude ([Number.MAX_SAFE_INTEGER] is
    [2^53 - 1]). *)
Definition safe_integer (n : Z) : Prop := - 2 ^ 53 < n < 2 ^ 53.

(** A string made of asterisks only. *)
Fixpoint all_asterisks (s : string) : bool :=
  match s with
  | EmptyString => true
  | String c s' => Ascii.eqb c "*"%char && all_asterisks s'
  end.

(** An entry of the object given to [validateParams] that passes its
    checks: not [null] or [undefined], and not a negative number under a key
    that contains [timeout] or [index]. *)
Definition acceptable (entry : string * JS.Value) : Prop :=
  match snd entry with
  | JS.Null | JS.Undefined => False
  | JS.Num n =>
      JS.includes (fst entry) "timeout" = true \/ JS.includes (fst entry) "index" = true ->
      0 <= n
  | _ => True
  end.

(** The operation, in the worlds the retry engine runs it in from attempt
    [attempt] on, fails [failures] times with a recoverable error and is then
    called in the world [w_last], where it returns [v] and leaves [w_end]. *)
Fixpoint fails_then_returns {T : Type} (operationName : string) (baseDelay : Z)
  (operation : M T) (failures : nat) (attempt : Z) (w w_last : World) (v : T)
  (w_end : World) : Prop :=
  match failures with
  | O => w_last = w /\ operation w = (inr v, w_end)
  | S k =>
      exists e w1,
        operation w = (inl e, w1)
        /\ isUnrecoverableError e = false
        /\ fails_then_returns operationName baseDelay operation k (attempt + 1)
             (sleep (retry_delay baseDelay attempt)
                (log_retry operationName attempt (retry_delay baseDelay attempt) w1))
             w_last v w_end
  end.

(** The events of a run that succeeds after [failures] failed attempts. *)
Fixpoint success_schedule (baseDelay : Z) (failures : nat) (n : Z) : list RetryEvent :=
  match failures with
  | O => [Attempt n]
  | S k => Attempt n :: Delay (backoff baseDelay n) :: success_schedule baseDelay k (n + 1)
  end.

(** The buffer [after] holds the entries of [before], in order, followed by
    new ones. *)
Definition extends_logs (before after : World) : Prop :=
  exists added,
    SmartLogger.logs (logger after)
    = (SmartLogger.logs (logger before) ++ added)%list.

(** The node that the [index]-th match of [element] is, when there are that
    many matches. *)
Definition nth_match (pg : Driver.Page) (element : ElementRef) (index : Z)
  : option Driver.Element :=
  match nth_error (Driver.resolve pg (asLocator element)) (Z.to_nat index) with
  | Some p => nth_error (Driver.dom pg) p
  | None => None
  end.

(** The locator denotes one node only, and that node is visible. *)
Definition single_visible (pg : Driver.Page) (l : Driver.Locator) : Prop :=
  exists p e,
    Driver.resolve pg l = [p]
    /\ nth_error (Driver.dom pg) p = Some e
    /\ Driver.el_visible e = true.

(** The character [c] occurs in [s]. *)
Definition contains_char (c : ascii) (s : string) : Prop :=
  exists before after, s = (before ++ String c after)%string.

(** [parts.join(sep)]. *)
Fixpoint join_with (sep : ascii) (parts : list string) : string :=
  match parts with
  | [] => EmptyString
  | [part] => part
  | part :: rest => (part ++ String sep (join_with sep rest))%string
  end.

(** The entries logged under the test [name]. *)
Definition of_test (name : string) (l : list SmartLogger.LogEntry)
  : list SmartLogger.LogEntry :=
  filter (fun e => String.eqb (SmartLogger.testName e) name) l.

(** [acc[k] || 0]. *)
Fixpoint count_of (k : string) (acc : list (string * nat)) : nat :=
  match acc with
  | [] => 0%nat
  | (k', n) :: rest => if String.eqb k k' then n else count_of k rest
  end.

Definition total (acc : list (string * nat)) : nat :=
  fold_right (fun kn sum => (snd kn + sum)%nat) 0%nat acc.

(** The words that [categorizeLog] looks for before it comes to those of
    the PERFORMANCE category. *)
Definition earlier_keywords : list string :=
  ["click"; "type"; "select"; "navigate"; "page"; "url"; "api"; "request";
   "response"; "assert"; "expect"; "verify"; "wait"; "timeout"].

End Spec.

(* ===================================================================== *)
(** * Concrete worlds, pages and reports, for the examples                *)
(* ===================================================================== *)

(** Stamps, a logger with an empty buffer and a world over a given
    document; its page cannot be inspected. *)
Definition example_stamps (n : nat) : SmartLogger.Stamp :=
  {| SmartLogger.stamp_id := "log_" ++ JS.string_of_nat n;
     SmartLogger.stamp_iso := "2025-01-01T00:00:00.000Z" |}.

Definition example_logger (test : string) : SmartLogger.State :=
  {| SmartLogger.logs := [];
     SmartLogger.currentTest := test;
     SmartLogger.emitted := 0;
     SmartLogger.stamps := example_stamps |}.

Definition example_world (nodes : list Driver.Element) : World :=
  {| logger := example_logger "login";
     page := {| Driver.dom := nodes;
                Driver.inspectPageOnError :=
                  fun _ => inl (new_Error "page is not available") |};
     clock := 0 |}.

(** An operation that throws the same error at every call. *)
Definition failing (msg : string) : M unit := throw (new_Error msg).

(** An operation that fails with a timeout until the clock has passed
    [ready], and then returns the time. *)
Definition ready_after (ready : Z) : M Z :=
  fun w =>
    if clock w <? ready
    then (inl (new_Error "locator.waitFor: Timeout 5000ms exceeded."), w)
    else (inr (clock w), w).

(** A visible notice of a failed login. *)
Definition login_error_notice : Driver.Element :=
  {| Driver.el_selectors := [".login-error"; ".notice-error"];
     Driver.el_visible := true;
     Driver.el_enabled := true;
     Driver.el_checked := None;
     Driver.el_value := None;
     Driver.el_onInput := fun text => text;
     Driver.el_textContent := Some "Unknown username";
     Driver.el_attributes := [("class", "login-error notice-error")] |}.

(** A report whose elements are those found on [pg]. *)
Definition report_of (pg : Driver.Page) : ErrorInspector.PageInspectionReport :=
  {| ErrorInspector.timestamp := "2025-01-01T00-00-00-000Z";
     ErrorInspector.errorContext := "locator.click: Timeout 5000ms exceeded.";
     ErrorInspector.url := "http://localhost:3000/wp-admin/";
     ErrorInspector.title := "Dashboard";
     ErrorInspector.viewport := None;
     ErrorInspector.userAgent := "Unknown";
     ErrorInspector.console := [];
     ErrorInspector.network := [];
     ErrorInspector.elements := Inspector.inspectErrorElements pg;
     ErrorInspector.screenshot := EmptyString;
     ErrorInspector.html := EmptyString;
     ErrorInspector.localStorage := [];
     ErrorInspector.cookies := [];
     ErrorInspector.jsErrors := None;
     ErrorInspector.loadState := None;
     ErrorInspector.blockingElements := None;
     ErrorInspector.inspectionError := None |}.

(** A select control whose options have no [value] that matches, so that
    only the selection by label works. *)
Definition by_label_only (l : Driver.Locator) : ElementHelper.SelectOps :=
  {| ElementHelper.selectOption_value :=
       fun _ => throw (new_Error "locator.selectOption: Timeout 5000ms exceeded.");
     ElementHelper.selectOption_label := fun _ => ret tt |}.

(** A button with two classes. *)
Definition primary_button : Driver.Element :=
  {| Driver.el_selectors := [".btn"; "#publish"];
     Driver.el_visible := true;
     Driver.el_enabled := true;
     Driver.el_checked := None;
     Driver.el_value := None;
     Driver.el_onInput := fun text => text;
     Driver.el_textContent := Some "Publish";
     Driver.el_attributes := [("id", "publish"); ("class", "btn btn-primary")] |}.

(** A locator whose page is gone: every call throws. *)
Definition closed_error : Error :=
  new_Error "Target page, context or browser has been closed".

Definition closed_locator : LocatorOps :=
  {| op_waitFor := fun _ _ => throw closed_error;
     op_count := throw closed_error;
     op_isVisible := throw closed_error;
     op_isEnabled := throw closed_error;
     op_toBeEnabled := fun _ => throw closed_error;
     op_notToBeEmpty := fun _ => throw closed_error |}.

(** A locator that answers the same whatever the world. *)
Definition fixed_locator (count : nat) (isVisible isEnabled : bool) : LocatorOps :=
  {| op_waitFor := fun _ _ => ret tt;
     op_count := ret count;
     op_isVisible := ret isVisible;
     op_isEnabled := ret isEnabled;
     op_toBeEnabled := fun _ => ret tt;
     op_notToBeEmpty := fun _ => ret tt |}.

(** The constants of a process started with [DETAILED_HEALTH_CHECKS=true]. *)
Definition detailed_checks : Constants :=
  constants_of (set_env "DETAILED_HEALTH_CHECKS" "true" empty_env).

(** Nodes: a plain one, an unchecked checkbox, an element with no text. *)
Definition plain_node : Driver.Element :=
  {| Driver.el_selectors := [];
     Driver.el_visible := true;
     Driver.el_enabled := true;
     Driver.el_checked := None;
     Driver.el_value := None;
     Driver.el_onInput := fun text => text;
     Driver.el_textContent := None;
     Driver.el_attributes := [] |}.

Definition newsletter_checkbox : Driver.Element :=
  {| Driver.el_selectors := ["#newsletter"; "input[type=checkbox]"];
     Driver.el_visible := true;
     Driver.el_enabled := true;
     Driver.el_checked := Some false;
     Driver.el_value := Some "on";
     Driver.el_onInput := fun text => text;
     Driver.el_textContent := None;
     Driver.el_attributes := [("type", "checkbox"); ("id", "newsletter")] |}.



(** Two tests' entries in one buffer, the second test being the active one. *)
Definition two_tests_logged : SmartLogger.State :=
  SmartLogger.logUserAction "click" (Some "#save") None
    (SmartLogger.initializeTest "categories"
       (SmartLogger.logUserAction "click" (Some "#login") None
          (SmartLogger.initializeTest "login" (example_logger EmptyString)))).

(** The constants of a process started with [VALUE_VERIFICATION=true], and a
    password field whose input handler keeps the first eight characters. *)
Definition value_verification : Constants :=
  constants_of (set_env "VALUE_VERIFICATION" "true" empty_env).

Definition password_input : Driver.Element :=
  {| Driver.el_selectors := ["#user_pass"];
     Driver.el_visible := true;
     Driver.el_enabled := true;
     Driver.el_checked := None;
     Driver.el_value := Some EmptyString;
     Driver.el_onInput := fun text => String.substring 0 8 text;
     Driver.el_textContent := None;
     Driver.el_attributes := [("type", "password")] |}.

(** [enterValue(page, '#user_pass', 'password123456')] on that field. *)
Definition after_fill : Outcome unit * World :=
  ElementHelper.enterValue value_verification (inl "#user_pass") "password123456"
    0 10000 (example_world [password_input]).

(** The entry's message contains [needle]. *)
Definition mentions (needle : string) (e : SmartLogger.LogEntry) : bool :=
  JS.includes (SmartLogger.message e) needle.

(** The report of a page on which nothing stands out. *)
Definition quiet_report : ErrorInspector.PageInspectionReport :=
  {| ErrorInspector.timestamp := "2025-01-01T00-00-00";
     ErrorInspector.errorContext := "locator.click: Timeout 5000ms exceeded.";
     ErrorInspector.url := "https://example.test/wp-admin/edit.php";
     ErrorInspector.title := "Posts";
     ErrorInspector.viewport := Some (1280, 720);
     ErrorInspector.userAgent := "Mozilla/5.0";
     ErrorInspector.console := [];
     ErrorInspector.network := [];
     ErrorInspector.elements :=
       [(".notice-error",
          JS.Obj [("count", JS.Num 1); ("visible", JS.Bool false); ("text", JS.Null)]);
        ("exists_body", JS.Bool true)];
     ErrorInspector.screenshot := "error-2025-01-01T00-00-00.png";
     ErrorInspector.html := "<html></html>";
     ErrorInspector.localStorage := [];
     ErrorInspector.cookies := [];
     ErrorInspector.jsErrors := Some [];
     ErrorInspector.loadState := Some [("readyState", JS.Str "complete")];
     ErrorInspector.blockingElements := Some [];
     ErrorInspector.inspectionError := None |}.


(* ===================================================================== *)
(** * Properties of the retry engine                                       *)
(* ===================================================================== *)

Section RetryFacts.

Import ElementHelper.

Variable K : Constants.
Context {T : Type}.
Variable operation : M T.
Variable operationName : string.
Variable maxRetries baseDelay : Z.

Let loop := retry_loop K operation operationName maxRetries baseDelay.

(** Once past [maxRetries] the loop is over: [throw lastError]. *)
Lemma retry_loop_done (fuel : nat) (attempt startTime : Z) (lastError : Thrown) (w : World) :
  maxRetries < attempt ->
  loop fuel attempt startTime lastError w = (inl lastError, w, []).
Proof.
  intros Hgt. destruct fuel as [|fuel]; [reflexivity|].
  unfold loop; simpl.
  destruct (Z.leb_spec attempt maxRetries) as [Hle|_]; [lia|reflexivity].
Qed.

(** One iteration of the loop. *)
Lemma retry_loop_step (fuel : nat) (attempt startTime : Z) (lastError : Thrown) (w : World) :
  loop (S fuel) attempt startTime lastError w
  = if attempt <=? maxRetries then
      match operation w with
      | (inr result, w1) =>
          (inr result,
           log_success K operationName attempt startTime
             (if ENABLE_PERFORMANCE_MONITORING K then clock w else 0) w1,
           [Attempt attempt])
      | (inl error, w1) =>
          if isUnrecoverableError error then
            (inl (ThrownError error),
             log_unrecoverable operationName error w1, [Attempt attempt])
          else if attempt =? maxRetries then
            (inl (ThrownError error),
             log_exhausted K operationName maxRetries startTime error w1,
             [Attempt attempt])
          else
            let delay := retry_delay baseDelay attempt in
            let w2 := sleep delay (log_retry operationName attempt delay w1) in
            let '(r, w3, events) :=
              loop fuel (attempt + 1) startTime (ThrownError error) w2 in
            (r, w3, Attempt attempt :: Delay delay :: events)
      end
    else (inl lastError, w, []).
Proof. reflexivity. Qed.

(** The fuel given by [retryOperation] is enough: more changes nothing. *)
Lemma retry_loop_fuel (fuel : nat) :
  forall (attempt startTime : Z) (lastError : Thrown) (w : World),
    (Z.to_nat (maxRetries - attempt + 1) <= fuel)%nat ->
    loop (S fuel) attempt startTime lastError w
    = loop fuel attempt startTime lastError w.
Proof.
  induction fuel as [|fuel IH]; intros attempt startTime lastError w Hfuel.
  - rewrite !retry_loop_done by lia. reflexivity.
  - destruct (Z.leb_spec attempt maxRetries) as [Hle|Hgt].
    + rewrite (retry_loop_step (S fuel) attempt startTime lastError w).
      rewrite (retry_loop_step fuel attempt startTime lastError w).
      destruct (attempt <=? maxRetries); [|reflexivity].
      destruct (operation w) as [[error|result] w1]; [|reflexivity].
      destruct (isUnrecoverableError error); [reflexivity|].
      destruct (Z.eqb_spec attempt maxRetries) as [Heq|Hne]; [reflexivity|].
      cbv zeta. rewrite IH by lia. reflexivity.
    + rewrite !retry_loop_done by lia. reflexivity.
Qed.

(** The operation is never called more often than the fuel allows. *)
Lemma retry_loop_attempts (fuel : nat) :
  forall (attempt startTime : Z) (lastError : Thrown) (w : World),
    (Spec.attempts (snd (loop fuel attempt startTime lastError w)) <= fuel)%nat.
Proof.
  induction fuel as [|fuel IH]; intros attempt startTime lastError w.
  - simpl. lia.
  - rewrite retry_loop_step.
    destruct (attempt <=? maxRetries); [|simpl; lia].
    destruct (operation w) as [[error|result] w1]; [|simpl; lia].
    destruct (isUnrecoverableError error); [simpl; lia|].
    destruct (attempt =? maxRetries); [simpl; lia|].
    cbv zeta.
    specialize (IH (attempt + 1) startTime (ThrownError error)
                  (sleep (retry_delay baseDelay attempt)
                     (log_retry operationName attempt (retry_delay baseDelay attempt) w1))).
    destruct (loop fuel _ _ _ _) as [[r w3] events].
    simpl in *. lia.
Qed.

(** Such an operation is called until the attempts run out, with the delays
    of the schedule in between; what is thrown is the error of the call made
    just before the final log line. *)
Lemma retry_loop_exhausts (retries : nat) :
  Spec.always_recoverable operation ->
  forall (attempt startTime : Z) (lastError : Thrown) (w : World),
    attempt + Z.of_nat retries = maxRetries ->
    exists e w_last w_after,
      operation w_last = (inl e, w_after)
      /\ loop (S retries) attempt startTime lastError w
         = (inl (ThrownError e),
            log_exhausted K operationName maxRetries startTime e w_after,
            Spec.schedule baseDelay retries attempt).
Proof.
  intros Hfail.
  induction retries as [|retries IH]; intros attempt startTime lastError w Hsum.
  - destruct (Hfail w) as (e & w1 & Hop & Hrec).
    exists e, w, w1. split; [exact Hop|].
    rewrite retry_loop_step. rewrite Hop, Hrec.
    replace (attempt <=? maxRetries) with true by (symmetry; apply Z.leb_le; lia).
    replace (attempt =? maxRetries) with true by (symmetry; apply Z.eqb_eq; lia).
    reflexivity.
  - destruct (Hfail w) as (e & w1 & Hop & Hrec).
    set (delay := retry_delay baseDelay attempt).
    set (w2 := sleep delay (log_retry operationName attempt delay w1)).
    destruct (IH (attempt + 1) startTime (ThrownError e) w2 ltac:(lia))
      as (e' & w_last & w_after & Hlast & Hrun).
    exists e', w_last, w_after. split; [exact Hlast|].
    rewrite (retry_loop_step (S retries)).
    rewrite Hop, Hrec.
    replace (attempt <=? maxRetries) with true by (symmetry; apply Z.leb_le; lia).
    replace (attempt =? maxRetries) with false by (symmetry; apply Z.eqb_neq; lia).
    cbv zeta. fold delay. fold w2. rewrite Hrun. reflexivity.
Qed.

(** Whatever the operation does, it is called at most [maxRetries] times. *)
Lemma retryOperation_attempts_bounded (w : World) :
  (Spec.attempts
     (snd (retryOperation K operation operationName maxRetries baseDelay w))
   <= Z.to_nat maxRetries)%nat.
Proof. apply retry_loop_attempts. Qed.

(** The loop of [retryOperation] ends by itself: fuel beyond [maxRetries]
    is never used. *)
Lemma retryOperation_fuel_adequate (extra : nat) (w : World) :
  loop (Z.to_nat maxRetries + extra) 1
    (if ENABLE_PERFORMANCE_MONITORING K then clock w else 0) ThrownUndefined w
  = retryOperation K operation operationName maxRetries baseDelay w.
Proof.
  unfold retryOperation. fold loop.
  induction extra as [|extra IH].
  - now rewrite Nat.add_0_r.
  - rewrite Nat.add_succ_r, retry_loop_fuel by lia. exact IH.
Qed.

End RetryFacts.

Section ScheduleFacts.

Import ElementHelper.

Variable baseDelay : Z.

Lemma schedule_attempts (retries : nat) :
  forall n, Spec.attempts (Spec.schedule baseDelay retries n) = S retries.
Proof.
  induction retries as [|r IH]; intros n; simpl; [reflexivity|].
  now rewrite IH.
Qed.

Lemma schedule_delays (retries : nat) :
  forall k : nat,
    Spec.delays (Spec.schedule baseDelay retries (Z.of_nat k))
    = map (fun i => Spec.backoff baseDelay (Z.of_nat i)) (seq k retries).
Proof.
  induction retries as [|r IH]; intros k; simpl; [reflexivity|].
  f_equal. replace (Z.of_nat k + 1) with (Z.of_nat (S k)) by lia. apply IH.
Qed.

(** The code's delay is the specified one. *)
Lemma retry_delay_backoff (n : Z) : retry_delay baseDelay n = Spec.backoff baseDelay n.
Proof. reflexivity. Qed.

End ScheduleFacts.

Lemma isUnrecoverableError_matches (e : Error) :
  ElementHelper.isUnrecoverableError e = true
  <-> Spec.matches_unrecoverable (err_message e).
Proof.
  unfold ElementHelper.isUnrecoverableError, Spec.matches_unrecoverable.
  rewrite existsb_exists.
  change Spec.fatal_patterns
    with (map JS.toLowerCase ElementHelper.unrecoverablePatterns).
  split.
  - intros (pattern & Hin & Hinc).
    exists (JS.toLowerCase pattern). split; [now apply in_map|exact Hinc].
  - intros (lowered & Hin & Hinc).
    apply in_map_iff in Hin. destruct Hin as (pattern & <- & Hin).
    exists pattern. split; [exact Hin|exact Hinc].
Qed.

(** C1 (as amended).  An operation that fails on every attempt with a
    recoverable error is called exactly [maxRetries] times when [maxRetries]
    is at least 1, and not at all when it is 0 or negative; in both cases
    never more than [maxRetries] times.  After the first failure the engine
    sleeps 100 ms, after the n-th failure (n >= 2) it sleeps
    [baseDelay * 2^(n-2)] ms.  With at least one attempt it throws, after the
    last one, the error of that last call; with none, no error was ever
    caught and what it throws is [undefined], the world being left as it
    was.  Called without [maxRetries], the engine uses the configured retry
    count, which is 1 when [TEST_RETRIES] is unset and 3 only when the
    configured count is 0 or not a number; the default [baseDelay] is 500. *)
Theorem retry_exhausts_with_backoff_schedule :
  forall (K : Constants) (T : Type) (operation : M T) (operationName : string)
         (maxRetries baseDelay : Z) (w : World),
    Spec.always_recoverable operation ->
    let run :=
      ElementHelper.retryOperation K operation operationName maxRetries baseDelay w in
    Spec.attempts (snd run) = Z.to_nat maxRetries
    /\ Spec.delays (snd run)
       = map (fun n => Spec.backoff baseDelay (Z.of_nat n))
           (seq 1 (Z.to_nat (maxRetries - 1)))
    /\ (1 <= maxRetries ->
        exists e w_last w_after,
          operation w_last = (inl e, w_after)
          /\ run
             = (inl (ElementHelper.ThrownError e),
                ElementHelper.log_exhausted K operationName maxRetries
                  (if ENABLE_PERFORMANCE_MONITORING K then clock w else 0) e w_after,
                Spec.schedule baseDelay (Z.to_nat (maxRetries - 1)) 1))
    /\ (maxRetries <= 0 -> run = (inl ElementHelper.ThrownUndefined, w, []))
    /\ Spec.backoff baseDelay 1 = 100
    /\ (forall n, 2 <= n -> Spec.backoff baseDelay n = baseDelay * 2 ^ (n - 2))
    /\ ElementHelper.retryOperation_default K operation operationName
       = ElementHelper.retryOperation K operation operationName
           (MAX_RETRIES K) (BASE_RETRY_DELAY K)
    /\ MAX_RETRIES (constants_of empty_env) = 1
    /\ BASE_RETRY_DELAY (constants_of empty_env) = 500
    /\ (forall env,
          MAX_RETRIES (constants_of env) = 3
          <-> (JS.parseInt (JS.str_or (env "TEST_RETRIES") "1") = None
               \/ JS.parseInt (JS.str_or (env "TEST_RETRIES") "1") = Some 0
               \/ JS.parseInt (JS.str_or (env "TEST_RETRIES") "1") = Some 3)).
Proof.
  intros K T operation operationName maxRetries baseDelay w Hfail run.
  set (startTime := if ENABLE_PERFORMANCE_MONITORING K then clock w else 0).
  assert (Hsome : 1 <= maxRetries ->
            exists e w_last w_after,
              operation w_last = (inl e, w_after)
              /\ run
                 = (inl (ElementHelper.ThrownError e),
                    ElementHelper.log_exhausted K operationName maxRetries
                      startTime e w_after,
                    Spec.schedule baseDelay (Z.to_nat (maxRetries - 1)) 1)).
  { intros Hmax. unfold run, ElementHelper.retryOperation. fold startTime.
    destruct (retry_loop_exhausts K operation operationName maxRetries baseDelay
                (Z.to_nat (maxRetries - 1)) Hfail 1 startTime
                ElementHelper.ThrownUndefined w ltac:(lia))
      as (e & w_last & w_after & Hlast & Hrun).
    exists e, w_last, w_after.
    replace (Z.to_nat maxRetries) with (S (Z.to_nat (maxRetries - 1))) by lia.
    split; [exact Hlast|exact Hrun]. }
  assert (Hnone : maxRetries <= 0 ->
            run = (inl ElementHelper.ThrownUndefined, w, [])).
  { intros Hmax. unfold run, ElementHelper.retryOperation.
    apply retry_loop_done. lia. }
  assert (Hevents :
            Spec.attempts (snd run) = Z.to_nat maxRetries
            /\ Spec.delays (snd run)
               = map (fun n => Spec.backoff baseDelay (Z.of_nat n))
                   (seq 1 (Z.to_nat (maxRetries - 1)))).
  { destruct (Z.le_gt_cases 1 maxRetries) as [Hmax|Hmax].
    - destruct (Hsome Hmax) as (e & w_last & w_after & _ & ->).
      cbn [snd]. split.
      + rewrite schedule_attempts. lia.
      + apply (schedule_delays baseDelay (Z.to_nat (maxRetries - 1)) 1).
    - rewrite (Hnone ltac:(lia)). cbn [snd].
      replace (Z.to_nat maxRetries) with O by lia.
      replace (Z.to_nat (maxRetries - 1)) with O by lia.
      split; reflexivity. }
  destruct Hevents as [Hattempts Hdelays].
  split; [exact Hattempts|]. split; [exact Hdelays|].
  split; [exact Hsome|]. split; [exact Hnone|].
  repeat split.
  - intros n Hn. unfold Spec.backoff.
    destruct (Z.eqb_spec n 1); [lia|reflexivity].
  - unfold constants_of, MAX_RETRIES, loadConfiguration, retries.
    destruct (JS.parseInt (JS.str_or (env "TEST_RETRIES") "1")) as [n|]; simpl.
    + destruct (Z.eqb_spec n 0) as [->|Hn]; intros H.
      * right; left; reflexivity.
      * right; right; now subst.
    + intros _. now left.
  - unfold constants_of, MAX_RETRIES, loadConfiguration, retries.
    intros [H|[H|H]]; rewrite H; reflexivity.
Qed.

Lemma retry_exhausts_with_backoff_schedule_witness :
  Spec.always_recoverable (failing "Timeout 10000ms exceeded.")
  /\ snd (ElementHelper.retryOperation (constants_of empty_env)
            (failing "Timeout 10000ms exceeded.") "Click" 3 500 (example_world []))
     = [ElementHelper.Attempt 1; ElementHelper.Delay 100;
        ElementHelper.Attempt 2; ElementHelper.Delay 500;
        ElementHelper.Attempt 3]
  /\ ElementHelper.retryOperation (constants_of empty_env)
       (failing "Timeout 10000ms exceeded.") "Click" (-1) 500 (example_world [])
     = (inl ElementHelper.ThrownUndefined, example_world [], []).
Proof.
  assert (H : Spec.always_recoverable (failing "Timeout 10000ms exceeded.")).
  { intros w. eexists; eexists; split; reflexivity. }
  split; [exact H|]. split.
  - destruct (retry_exhausts_with_backoff_schedule (constants_of empty_env) unit
                (failing "Timeout 10000ms exceeded.") "Click" 3 500
                (example_world []) H)
      as (_ & _ & Hsome & _).
    destruct (Hsome ltac:(lia)) as (e & w_last & w_after & _ & Hrun).
    rewrite Hrun. reflexivity.
  - destruct (retry_exhausts_with_backoff_schedule (constants_of empty_env) unit
                (failing "Timeout 10000ms exceeded.") "Click" (-1) 500
                (example_world []) H)
      as (_ & _ & _ & Hnone & _).
    apply Hnone. lia.
Defined.

(** C1, the claim as stated: with nothing configured the default number of
    attempts is 1, not 3, and a failing operation is called once and never
    retried. *)
Lemma default_attempts_is_one_not_three :
  MAX_RETRIES (constants_of empty_env) <> 3
  /\ snd (ElementHelper.retryOperation_default (constants_of empty_env)
            (failing "Timeout 10000ms exceeded.") "Click" (example_world []))
     = [ElementHelper.Attempt 1].
Proof. split; [discriminate|reflexivity]. Qed.

(** C2 (as amended).  When at least one attempt is allowed and the first
    failure's message contains an unrecoverable pattern, compared without
    regard to case, the engine has called the operation exactly once, logs
    the failure and throws that very error, whatever [maxRetries >= 1] and
    [baseDelay] are. *)
Theorem unrecoverable_error_fails_fast :
  forall (K : Constants) (T : Type) (operation : M T) (operationName : string)
         (maxRetries baseDelay : Z) (w w1 : World) (e : Error),
    1 <= maxRetries ->
    operation w = (inl e, w1) ->
    Spec.matches_unrecoverable (err_message e) ->
    ElementHelper.retryOperation K operation operationName maxRetries baseDelay w
    = (inl (ElementHelper.ThrownError e),
       ElementHelper.log_unrecoverable operationName e w1,
       [ElementHelper.Attempt 1])
    /\ Spec.attempts
         (snd (ElementHelper.retryOperation K operation operationName
                 maxRetries baseDelay w)) = 1%nat.
Proof.
  intros K T operation operationName maxRetries baseDelay w w1 e Hmax Hop Hmatch.
  apply isUnrecoverableError_matches in Hmatch.
  assert (Hrun :
    ElementHelper.retryOperation K operation operationName maxRetries baseDelay w
    = (inl (ElementHelper.ThrownError e),
       ElementHelper.log_unrecoverable operationName e w1,
       [ElementHelper.Attempt 1])).
  { unfold ElementHelper.retryOperation.
    replace (Z.to_nat maxRetries) with (S (Z.to_nat (maxRetries - 1))) by lia.
    rewrite retry_loop_step, Hop, Hmatch.
    replace (1 <=? maxRetries) with true by (symmetry; apply Z.leb_le; lia).
    reflexivity. }
  split; [exact Hrun|]. rewrite Hrun. reflexivity.
Qed.

Lemma unrecoverable_error_fails_fast_witness :
  1 <= 5
  /\ Spec.matches_unrecoverable "locator.click: TARGET PAGE, CONTEXT OR BROWSER HAS BEEN CLOSED"
  /\ Spec.attempts
       (snd (ElementHelper.retryOperation (constants_of empty_env)
               (failing "locator.click: TARGET PAGE, CONTEXT OR BROWSER HAS BEEN CLOSED")
               "Click" 5 500 (example_world []))) = 1%nat.
Proof.
  assert (H1 : 1 <= 5) by lia.
  assert (H2 : Spec.matches_unrecoverable
                 "locator.click: TARGET PAGE, CONTEXT OR BROWSER HAS BEEN CLOSED").
  { exists "browser has been closed". split; [simpl; tauto|reflexivity]. }
  split; [exact H1|]. split; [exact H2|].
  apply (unrecoverable_error_fails_fast (constants_of empty_env) unit
           (failing "locator.click: TARGET PAGE, CONTEXT OR BROWSER HAS BEEN CLOSED")
           "Click" 5 500 (example_world []) (example_world [])
           (new_Error "locator.click: TARGET PAGE, CONTEXT OR BROWSER HAS BEEN CLOSED")
           H1 eq_refl H2).
Defined.

(** C2, the claim as stated: "regardless of the configured maxAttempts"
    does not hold for a count below 1.  With [TEST_RETRIES=-1] the engine is
    given -1 attempts; an operation that would fail with an unrecoverable
    error is then not called even once, and what is thrown is not that error
    but [undefined]. *)
Lemma no_attempt_when_retries_negative :
  MAX_RETRIES (constants_of (set_env "TEST_RETRIES" "-1" empty_env)) = -1
  /\ Spec.matches_unrecoverable "page.goto: net::ERR_CONNECTION_REFUSED at http://localhost/"
  /\ failing "page.goto: net::ERR_CONNECTION_REFUSED at http://localhost/" (example_world [])
     = (inl (new_Error "page.goto: net::ERR_CONNECTION_REFUSED at http://localhost/"),
        example_world [])
  /\ ElementHelper.retryOperation_default
       (constants_of (set_env "TEST_RETRIES" "-1" empty_env))
       (failing "page.goto: net::ERR_CONNECTION_REFUSED at http://localhost/")
       "Navigate" (example_world [])
     = (inl ElementHelper.ThrownUndefined, example_world [], [])
  /\ Spec.attempts
       (snd (ElementHelper.retryOperation_default
               (constants_of (set_env "TEST_RETRIES" "-1" empty_env))
               (failing "page.goto: net::ERR_CONNECTION_REFUSED at http://localhost/")
               "Navigate" (example_world []))) = 0%nat.
Proof.
  split; [reflexivity|]. split; [|repeat split].
  exists "net::err_connection_refused". split; [simpl; tauto|reflexivity].
Qed.

(* ===================================================================== *)
(** * Properties of the health check and of the smart wait                *)
(* ===================================================================== *)

Section HealthFacts.

Import ElementHelper.

Lemma multiple_note_included (count : nat) :
  JS.includes (Spec.multiple_note count) "Multiple elements" = true.
Proof. reflexivity. Qed.

Lemma multiple_note_starts_with_M (issue : string) :
  Spec.is_multiple_note issue -> exists rest, issue = String "M" rest.
Proof. intros [count ->]. eexists. reflexivity. Qed.

Lemma not_found_is_no_note : ~ Spec.is_multiple_note "Element not found in DOM".
Proof. intros H. apply multiple_note_starts_with_M in H as [rest H]. discriminate H. Qed.

Lemma not_visible_is_no_note : ~ Spec.is_multiple_note "Element is not visible".
Proof. intros H. apply multiple_note_starts_with_M in H as [rest H]. discriminate H. Qed.

Lemma disabled_is_no_note : ~ Spec.is_multiple_note "Element is disabled".
Proof. intros H. apply multiple_note_starts_with_M in H as [rest H]. discriminate H. Qed.

Lemma skipped_is_no_note (reason : string) :
  ~ Spec.is_multiple_note ("Health check skipped: " ++ reason).
Proof. intros H. apply multiple_note_starts_with_M in H as [rest H]. discriminate H. Qed.

(** What the [try] block computes when none of its calls throws. *)
Lemma inspect_health_returns (loc : LocatorOps) (ot : OperationType)
  (w w' : World) (r : HealthReport) :
  inspect_health loc ot w = (inr r, w') ->
  healthy r = true <-> Spec.only_multiple_notes (issues r).
Proof.
  unfold inspect_health, bind, ret, Spec.only_multiple_notes.
  intros Hrun.
  destruct (op_count loc w) as [[e|count] w1]; [discriminate Hrun|].
  destruct count as [|[|count]]; cbn [Nat.eqb Nat.ltb Nat.leb] in Hrun.
  - injection Hrun as <- <-. simpl. split; [discriminate|].
    intros H; inversion H; subst. now destruct not_found_is_no_note.
  - destruct (op_isVisible loc w1) as [[e|isVisible] w2]; [discriminate Hrun|].
    destruct isVisible.
    + destruct (interactive ot); cbn [andb] in Hrun.
      * destruct (op_isEnabled loc w2) as [[e|isEnabled] w3]; [discriminate Hrun|].
        destruct isEnabled; injection Hrun as <- <-; simpl.
        -- split; [constructor|reflexivity].
        -- split; [discriminate|].
           intros H; inversion H; subst. now destruct disabled_is_no_note.
      * injection Hrun as <- <-; simpl. split; [constructor|reflexivity].
    + rewrite andb_false_r in Hrun. injection Hrun as <- <-; simpl.
      split; [discriminate|].
      intros H; inversion H; subst. now destruct not_visible_is_no_note.
  - set (n := S (S count)) in *.
    assert (Hnote : Spec.is_multiple_note (Spec.multiple_note n)) by (now exists n).
    fold (Spec.multiple_note n) in Hrun.
    destruct (op_isVisible loc w1) as [[e|isVisible] w2]; [discriminate Hrun|].
    destruct isVisible.
    + destruct (interactive ot); cbn [andb] in Hrun.
      * destruct (op_isEnabled loc w2) as [[e|isEnabled] w3]; [discriminate Hrun|].
        destruct isEnabled; injection Hrun as <- <-;
          cbn [issues healthy app filter]; rewrite ?multiple_note_included;
          cbn [negb filter List.length Nat.eqb].
        -- split; [repeat constructor; exact Hnote|reflexivity].
        -- split; [discriminate|].
           intros H; inversion H as [|? ? _ H2]; subst.
           inversion H2; subst. now destruct disabled_is_no_note.
      * injection Hrun as <- <-;
          cbn [issues healthy app filter]; rewrite ?multiple_note_included;
          cbn [negb filter List.length Nat.eqb].
        split; [repeat constructor; exact Hnote|reflexivity].
    + rewrite andb_false_r in Hrun. injection Hrun as <- <-;
        cbn [issues healthy app filter]; rewrite ?multiple_note_included;
        cbn [negb filter List.length Nat.eqb].
      split; [discriminate|].
      intros H; inversion H as [|? ? _ H2]; subst.
      inversion H2; subst. now destruct not_visible_is_no_note.
Qed.

End HealthFacts.

Section WaitFacts.

Import ElementHelper.

Variable K : Constants.
Variable loc : LocatorOps.
Variable timeout : Z.

(** The steps taken are the planned ones, in the planned order, up to the
    first step that throws; all of them when the wait returns. *)
Lemma smartWaitForElement_steps_planned (conditions : Conditions) (w : World) :
  Spec.initial_segment
    (snd (smartWaitForElement_steps K loc conditions timeout w))
    (Spec.planned_steps K conditions timeout)
  /\ (forall w',
        fst (smartWaitForElement_steps K loc conditions timeout w) = (inr tt, w') ->
        snd (smartWaitForElement_steps K loc conditions timeout w)
        = Spec.planned_steps K conditions timeout).
Proof.
  unfold smartWaitForElement_steps, Spec.planned_steps, Spec.initial_segment,
    tbind, when, step, tret, modify.
  destruct conditions as [[[|]|] [[|]|] [[|]|] [[|]|]];
    destruct (ENABLE_HEALTH_CHECKS K);
    cbn [or_default is_true andb orb visible stable enabled hasText];
    repeat match goal with
      | |- context [op_waitFor loc ?s ?t ?x] =>
          destruct (op_waitFor loc s t x) as [[?e|[]] ?w]
      | |- context [op_toBeEnabled loc ?t ?x] =>
          destruct (op_toBeEnabled loc t x) as [[?e|[]] ?w]
      | |- context [op_notToBeEmpty loc ?t ?x] =>
          destruct (op_notToBeEmpty loc t x) as [[?e|[]] ?w]
      end;
    cbn [fst snd app];
    (split; [eexists; cbn [app]; reflexivity | intros ? [=]; reflexivity])
    || (split; [eexists; cbn [app]; reflexivity | intros ? ?; reflexivity]).
Qed.

(** The stability delay is planned exactly when [stable: true] is passed;
    the detailed-checks flag plays no part. *)
Lemma stability_delay_planned (conditions : Conditions) (d : Z) :
  In (StabilityDelay d) (Spec.planned_steps K conditions timeout)
  <-> stable conditions = Some true /\ d = ANIMATION_DELAY K.
Proof.
  unfold Spec.planned_steps.
  destruct conditions as [[[|]|] [[|]|] [[|]|] [[|]|]];
    cbn [or_default is_true visible stable enabled hasText app In];
    split;
    try (intros [_ ->]; tauto);
    try (intros [H _]; discriminate H);
    intros H;
    repeat match goal with
      | H : _ \/ _ |- _ => destruct H as [H|H]
      | H : False |- _ => destruct H
      | H : _ = StabilityDelay _ |- _ => inversion H; clear H
      end;
    try (split; reflexivity).
Qed.

End WaitFacts.

(** C3.  [checkElementHealth] always returns a report and never throws,
    whatever the locator answers or throws: when the checks are off the
    report is [{healthy: true, issues: []}]; when they are on and one of the
    inspection calls ([count], [isVisible], [isEnabled]) throws, the report
    is [{healthy: true, issues: ["Health check skipped: <message>"]}]. *)
Theorem checkElementHealth_never_raises :
  forall (K : Constants) (loc : LocatorOps) (ot : ElementHelper.OperationType)
         (w : World),
    exists report w',
      ElementHelper.checkElementHealth K loc ot w = (inr report, w')
      /\ (ENABLE_HEALTH_CHECKS K = false ->
          report = {| ElementHelper.healthy := true; ElementHelper.issues := [] |})
      /\ (ENABLE_HEALTH_CHECKS K = true ->
          forall e w1,
            (op_count loc w = (inl e, w1)
             \/ (exists count w0,
                    op_count loc w = (inr (S count), w0)
                    /\ (op_isVisible loc w0 = (inl e, w1)
                        \/ (exists w2,
                               op_isVisible loc w0 = (inr true, w2)
                               /\ ElementHelper.interactive ot = true
                               /\ op_isEnabled loc w2 = (inl e, w1))))) ->
            report
            = {| ElementHelper.healthy := true;
                 ElementHelper.issues := ["Health check skipped: " ++ err_message e] |}
            /\ w' = w1).
Proof.
  intros K loc ot w.
  unfold ElementHelper.checkElementHealth.
  destruct (ENABLE_HEALTH_CHECKS K); cbn [negb].
  - unfold try_catch.
    destruct (ElementHelper.inspect_health loc ot w) as [[e|r] w'] eqn:Hrun.
    + eexists; eexists. split; [reflexivity|]. split; [discriminate|].
      intros _ e' w1 Hthrow.
      unfold ElementHelper.inspect_health, bind, ret in Hrun.
      destruct Hthrow as [Hc|(count & w0 & Hc & [Hv|(w2 & Hv & Hi & He)])];
        rewrite Hc in Hrun; cbn [Nat.eqb] in Hrun.
      * injection Hrun as -> ->. split; reflexivity.
      * rewrite Hv in Hrun. injection Hrun as -> ->. split; reflexivity.
      * rewrite Hv, Hi in Hrun. cbn [andb] in Hrun. rewrite He in Hrun.
        injection Hrun as -> ->. split; reflexivity.
    + eexists; eexists. split; [reflexivity|]. split; [discriminate|].
      intros _ e' w1 Hthrow.
      unfold ElementHelper.inspect_health, bind, ret in Hrun.
      destruct Hthrow as [Hc|(count & w0 & Hc & [Hv|(w2 & Hv & Hi & He)])];
        rewrite Hc in Hrun; cbn [Nat.eqb] in Hrun.
      * discriminate Hrun.
      * rewrite Hv in Hrun. discriminate Hrun.
      * rewrite Hv, Hi in Hrun. cbn [andb] in Hrun. rewrite He in Hrun.
        discriminate Hrun.
  - eexists; eexists. split; [reflexivity|]. split; [reflexivity|discriminate].
Qed.

(** C4, the claim as stated: with the checks on and a locator whose [count]
    throws, the report is healthy although its only issue is not the
    multiple-matches note. *)
Lemma healthy_with_skipped_issue :
  exists report w',
    ENABLE_HEALTH_CHECKS detailed_checks = true
    /\ ElementHelper.checkElementHealth detailed_checks closed_locator
         ElementHelper.click (example_world []) = (inr report, w')
    /\ ElementHelper.healthy report = true
    /\ ElementHelper.issues report
       = ["Health check skipped: Target page, context or browser has been closed"]
    /\ ~ Spec.only_multiple_notes (ElementHelper.issues report).
Proof.
  eexists; eexists. split; [reflexivity|]. split; [reflexivity|].
  split; [reflexivity|]. split; [reflexivity|].
  intros H. inversion H as [|? ? Hnote _]; subst.
  now apply (skipped_is_no_note "Target page, context or browser has been closed").
Qed.

(** C4 (as amended).  With the checks off, [checkElementHealth] returns
    [{healthy: true, issues: []}] and leaves the world as it is, whatever the
    locator.  With the checks on and no inspection call throwing, the report
    is the one the inspection computes, and it is healthy exactly when all
    its issues are multiple-matches notes; a count of zero gives
    [{healthy: false, issues: ["Element not found in DOM"]}]; several matches
    of a visible (and, for click and fill, enabled) element give a healthy
    report whose only issue is the note. *)
Theorem health_flag_ignores_multiplicity :
  forall (K : Constants) (loc : LocatorOps) (ot : ElementHelper.OperationType)
         (w : World),
    (ENABLE_HEALTH_CHECKS K = false ->
     ElementHelper.checkElementHealth K loc ot w
     = (inr {| ElementHelper.healthy := true; ElementHelper.issues := [] |}, w))
    /\ (ENABLE_HEALTH_CHECKS K = true ->
        forall r w',
          ElementHelper.inspect_health loc ot w = (inr r, w') ->
          ElementHelper.checkElementHealth K loc ot w = (inr r, w')
          /\ (ElementHelper.healthy r = true
              <-> Spec.only_multiple_notes (ElementHelper.issues r)))
    /\ (ENABLE_HEALTH_CHECKS K = true ->
        forall w1,
          op_count loc w = (inr 0%nat, w1) ->
          ElementHelper.checkElementHealth K loc ot w
          = (inr {| ElementHelper.healthy := false;
                    ElementHelper.issues := ["Element not found in DOM"] |}, w1))
    /\ (ENABLE_HEALTH_CHECKS K = true ->
        forall count w1 w2 w3,
          (1 < count)%nat ->
          op_count loc w = (inr count, w1) ->
          op_isVisible loc w1 = (inr true, w2) ->
          (if ElementHelper.interactive ot
           then op_isEnabled loc w2 = (inr true, w3)
           else w3 = w2) ->
          ElementHelper.checkElementHealth K loc ot w
          = (inr {| ElementHelper.healthy := true;
                    ElementHelper.issues := [Spec.multiple_note count] |}, w3)).
Proof.
  intros K loc ot w. unfold ElementHelper.checkElementHealth.
  split; [|split; [|split]].
  - intros ->. reflexivity.
  - intros -> r w' Hrun. cbn [negb]. unfold try_catch. rewrite Hrun.
    split; [reflexivity|]. apply (inspect_health_returns loc ot w w' r Hrun).
  - intros -> w1 Hc. cbn [negb].
    unfold try_catch, ElementHelper.inspect_health, bind, ret.
    rewrite Hc. reflexivity.
  - intros -> count w1 w2 w3 Hcount Hc Hv He. cbn [negb].
    unfold try_catch, ElementHelper.inspect_health, bind, ret.
    destruct count as [|[|count]]; [lia|lia|].
    rewrite Hc. cbn [Nat.eqb Nat.ltb Nat.leb]. rewrite Hv.
    fold (Spec.multiple_note (S (S count))).
    destruct (ElementHelper.interactive ot); cbn [andb].
    + rewrite He. cbn [app filter]. rewrite multiple_note_included. reflexivity.
    + subst w3. cbn [app filter]. rewrite multiple_note_included. reflexivity.
Qed.

Lemma health_flag_ignores_multiplicity_witness :
  ENABLE_HEALTH_CHECKS detailed_checks = true
  /\ ElementHelper.checkElementHealth detailed_checks (fixed_locator 2 true true)
       ElementHelper.click (example_world [])
     = (inr {| ElementHelper.healthy := true;
               ElementHelper.issues := ["Multiple elements found (2), using first one"] |},
        example_world []).
Proof.
  split; [reflexivity|].
  destruct (health_flag_ignores_multiplicity detailed_checks (fixed_locator 2 true true)
              ElementHelper.click (example_world [])) as (_ & _ & _ & Hmany).
  apply (Hmany eq_refl 2%nat (example_world []) (example_world []) (example_world []));
    [lia|reflexivity|reflexivity|reflexivity].
Defined.

(** C5, at the failing input: with the detailed-checks flag on and [stable]
    not requested, [smartWaitForElement] waits for visibility and returns; no
    stability delay is among its steps, and the clock has not moved.  When
    [stable: true] is passed the delay is there, after the visibility wait
    and before the enabled and text checks. *)
Theorem stability_delay_needs_explicit_request :
  forall (timeout : Z) (w : World),
    ENABLE_HEALTH_CHECKS detailed_checks = true
    /\ ElementHelper.smartWaitForElement_steps detailed_checks
         (fixed_locator 1 true true) ElementHelper.no_conditions timeout w
       = (inr tt, w, [ElementHelper.WaitVisible timeout])
    /\ ElementHelper.smartWaitForElement_steps detailed_checks
         (fixed_locator 1 true true)
         {| ElementHelper.visible := Some true; ElementHelper.stable := Some true;
            ElementHelper.enabled := Some true; ElementHelper.hasText := Some true |}
         timeout w
       = (inr tt, sleep 100 w,
          [ElementHelper.WaitVisible timeout; ElementHelper.StabilityDelay 100;
           ElementHelper.ExpectEnabled (SHORT_TIMEOUT detailed_checks);
           ElementHelper.ExpectNotEmpty (SHORT_TIMEOUT detailed_checks)]).
Proof.
  intros timeout w. split; [reflexivity|]. split; reflexivity.
Qed.

(* ===================================================================== *)
(** * Properties of the driver model                                       *)
(* ===================================================================== *)

Section DriverFacts.

Import Driver.






(** [locator.nth(0)] of a locator that denotes one node is that node. *)
Lemma resolve_nth_0 (pg : Page) (l : Locator) (p : nat) :
  resolve pg l = [p] -> resolve pg (Nth l 0) = [p].
Proof. intros H. simpl. now rewrite H. Qed.

Lemma target_found (what : string) (timeout : Z) (pg : Page) (l : Locator)
  (p : nat) (e : Element) :
  resolve pg l = [p] ->
  nth_error (dom pg) p = Some e ->
  target what timeout pg l = inr (p, e).
Proof. intros Hr Hn. unfold target. now rewrite Hr, Hn. Qed.




End DriverFacts.

(** The checks of [validateParams] pass for the arguments of the facade
    operations once [index] and [timeout] are not negative. *)
Lemma validateParams_page_element_index_timeout
  (element : ElementHelper.ElementRef) (index timeout : Z) :
  0 <= index -> 0 <= timeout ->
  ElementHelper.validateParams
    [("page", ElementHelper.page_value);
     ("element", ElementHelper.element_value element);
     ("index", JS.Num index); ("timeout", JS.Num timeout)] = inr tt.
Proof.
  intros Hi Ht. destruct element; simpl;
    rewrite ?andb_false_l, ?andb_true_l;
    destruct (Z.ltb_spec index 0); try lia;
    destruct (Z.ltb_spec timeout 0); try lia; reflexivity.
Qed.

(* ===================================================================== *)
(** * Properties of the facade operations                                  *)
(* ===================================================================== *)

Section ToggleFacts.

Import ElementHelper.

Variable w : World.
Variable l : Driver.Locator.
Variable p : nat.
Variable e : Driver.Element.
Hypothesis Hresolve : Driver.resolve (page w) l = [p].
Hypothesis Hnode : nth_error (Driver.dom (page w)) p = Some e.

Lemma waitForDisplayed_visible (timeout : Z) :
  0 <= timeout ->
  Driver.el_visible e = true ->
  waitForDisplayed (inr l) timeout w = (inr true, w).
Proof.
  intros Ht Hv. unfold waitForDisplayed, bind, lift, try_catch, query, ret.
  simpl validateParams. destruct (Z.ltb_spec timeout 0); [lia|].
  unfold Driver.waitFor.
  rewrite (target_found _ _ _ _ _ _ Hresolve Hnode). simpl. now rewrite Hv.
Qed.

Lemma isElementChecked_state (b : bool) :
  Driver.el_checked e = Some b ->
  isElementChecked (inr l) 0 w = (inr b, w).
Proof.
  intros Hc. unfold isElementChecked, bind, lift, try_catch, query, ret.
  simpl validateParams. simpl createLocator.
  unfold Driver.isChecked.
  rewrite (target_found _ _ _ _ _ _ (resolve_nth_0 _ _ _ Hresolve) Hnode).
  simpl. now rewrite Hc.
Qed.


End ToggleFacts.






Section StringFacts.

Lemma prefix_app (a b : string) : String.prefix a (a ++ b) = true.
Proof.
  induction a as [|c a IH]; simpl; [destruct b; reflexivity|].
  destruct (ascii_dec c c) as [_|Hne]; [exact IH|now destruct Hne].
Qed.

Lemma includes_prefix (a b : string) : JS.includes (a ++ b) a = true.
Proof.
  destruct a as [|c a]; [destruct b; reflexivity|].
  cbn [JS.includes String.append].
  change (String c (a ++ b)) with (String c a ++ b).
  now rewrite prefix_app.
Qed.

Lemma includes_app_left (t s sub : string) :
  JS.includes s sub = true -> JS.includes (t ++ s) sub = true.
Proof.
  intros H. induction t as [|c t IH]; [exact H|].
  cbn [JS.includes String.append]. rewrite IH. apply orb_true_r.
Qed.

End StringFacts.

Section ReadFacts.

Import ElementHelper.

Variable element : ElementRef.
Variable index timeout : Z.
Variable w : World.
Hypothesis Hindex : 0 <= index.
Hypothesis Htimeout : 0 <= timeout.

Let l := createLocator element index.






Variable p : nat.
Variable e : Driver.Element.
Hypothesis Hresolve : Driver.resolve (page w) l = [p].
Hypothesis Hnode : nth_error (Driver.dom (page w)) p = Some e.




End ReadFacts.




(* ===================================================================== *)
(** * Properties of the logger and of the failure suggestions              *)
(* ===================================================================== *)

Section LoggerFacts.

Import SmartLogger.

Lemma filter_filter_negb {A : Type} (f : A -> bool) (l : list A) :
  filter f (filter (fun x => negb (f x)) l) = [].
Proof.
  induction l as [|x l IH]; simpl; [reflexivity|].
  destruct (f x) eqn:Hf; simpl; [exact IH|]. now rewrite Hf.
Qed.

Lemma filter_idempotent {A : Type} (f : A -> bool) (l : list A) :
  filter f (filter f l) = filter f l.
Proof.
  induction l as [|x l IH]; simpl; [reflexivity|].
  destruct (f x) eqn:Hf; simpl; [now rewrite Hf, IH|exact IH].
Qed.

(** After [clearTestLogs] the summary of the current test is over no entry. *)
Lemma generateTestSummary_cleared (st : State) :
  generateTestSummary (clearTestLogs st)
  = inr {| sm_testName := currentTest st;
           totalLogs := 0;
           logsByLevel := [];
           logsByCategory := [];
           timeline := [];
           insights := [];
           suggestions := [];
           performance := {| totalMeasurements := 0; measured := []; timeouts := 0 |};
           errors := [];
           warnings := [] |}.
Proof.
  unfold generateTestSummary, clearTestLogs, with_logs. simpl.
  rewrite (filter_filter_negb (fun e => String.eqb (testName e) (currentTest st))).
  reflexivity.
Qed.

End LoggerFacts.

Example clearTestLogs_two_tests :
  map SmartLogger.testName (SmartLogger.logs two_tests_logged)
  = ["login"; "login"; "categories"; "categories"]
  /\ SmartLogger.currentTest two_tests_logged = "categories"
  /\ map SmartLogger.testName
       (SmartLogger.logs (SmartLogger.clearTestLogs two_tests_logged))
     = ["login"; "login"]
  /\ map SmartLogger.message
       (SmartLogger.logs (SmartLogger.clearTestLogs two_tests_logged))
     = ["Test started"; "User click"].
Proof. repeat split. Qed.

(** C8.  [clearTestLogs] keeps the active context name and removes from the
    buffer exactly the entries whose [testName] is that name: an entry is in
    the buffer afterwards if and only if it was there before under another
    name, the entries of other contexts keep their order, and
    [exportForReporting] then returns, with all of them in its first
    attachment, the detailed logs. *)
Theorem clearTestLogs_removes_only_active_context :
  forall st : SmartLogger.State,
    let other := fun e => negb (String.eqb (SmartLogger.testName e) (SmartLogger.currentTest st)) in
    let cleared := SmartLogger.clearTestLogs st in
    SmartLogger.currentTest cleared = SmartLogger.currentTest st
    /\ (forall e, In e (SmartLogger.logs cleared)
                  <-> In e (SmartLogger.logs st)
                      /\ SmartLogger.testName e <> SmartLogger.currentTest st)
    /\ filter other (SmartLogger.logs cleared) = filter other (SmartLogger.logs st)
    /\ filter (fun e => negb (other e)) (SmartLogger.logs cleared) = []
    /\ exists first rest,
         SmartLogger.exportForReporting cleared = inr (first :: rest)
         /\ SmartLogger.att_content first
            = SmartLogger.JsonLogs (filter other (SmartLogger.logs st))
         /\ SmartLogger.att_type first = "application/json".
Proof.
  intros st other cleared.
  split; [reflexivity|]. split; [|split; [|split]].
  - intros e. unfold cleared, SmartLogger.clearTestLogs, SmartLogger.with_logs. simpl.
    rewrite filter_In. split; intros [Hin Hname]; (split; [exact Hin|]).
    + intros Heq. apply String.eqb_eq in Heq. now rewrite Heq in Hname.
    + destruct (String.eqb_spec (SmartLogger.testName e) (SmartLogger.currentTest st));
        [contradiction|reflexivity].
  - apply filter_idempotent.
  - unfold cleared, SmartLogger.clearTestLogs, SmartLogger.with_logs. simpl.
    induction (SmartLogger.logs st) as [|x l IH]; simpl; [reflexivity|].
    unfold other in *. destruct (String.eqb _ _) eqn:Hx; simpl; [exact IH|].
    now rewrite Hx.
  - unfold cleared, SmartLogger.exportForReporting.
    rewrite (generateTestSummary_cleared st). simpl.
    eexists; eexists. split; [reflexivity|]. split; reflexivity.
Qed.

(** C9, at the failing input: value verification is on and the page's input
    handler keeps only the first eight characters.  The user-action entry
    holds the mask, fourteen asterisks, but the verification error carries
    the raw value; it is logged twice, and the detailed logs returned by
    [exportForReporting] contain both entries. *)
Theorem fill_failure_logs_raw_value :
  SmartLogger.sanitizeValue "password123456" = "**************"
  /\ fst after_fill
     = inl (new_Error
              ("Enter value failed for selector " ++ dquote ++ "#user_pass" ++ dquote
               ++ ": Value verification failed. Expected: " ++ dquote
               ++ "password123456" ++ dquote ++ ", Actual: " ++ dquote
               ++ "password" ++ dquote))
  /\ map SmartLogger.message (SmartLogger.logs (logger (snd after_fill)))
     = ["User fill";
        "Enter value in #user_pass failed after 1 attempts in 0.00ms: "
        ++ "Value verification failed. Expected: " ++ dquote ++ "password123456"
        ++ dquote ++ ", Actual: " ++ dquote ++ "password" ++ dquote;
        "Value verification failed. Expected: " ++ dquote ++ "password123456"
        ++ dquote ++ ", Actual: " ++ dquote ++ "password" ++ dquote]
  /\ exists first rest entries,
       SmartLogger.exportForReporting (logger (snd after_fill)) = inr (first :: rest)
       /\ SmartLogger.att_content first = SmartLogger.JsonLogs entries
       /\ List.length (filter (mentions "password123456") entries) = 2%nat.
Proof.
  split; [reflexivity|]. split; [vm_compute; reflexivity|].
  split; [vm_compute; reflexivity|].
  eexists; eexists; eexists. split; [vm_compute; reflexivity|].
  split; vm_compute; reflexivity.
Qed.

(** What the masking does where it is applied: a sensitive value is stored
    as asterisks, one per character. *)
Lemma sanitizeValue_masks (value : string) :
  Spec.sensitive value ->
  SmartLogger.sanitizeValue value = JS.repeat "*" (String.length value)
  /\ String.length (SmartLogger.sanitizeValue value) = String.length value
  /\ Spec.all_asterisks (SmartLogger.sanitizeValue value) = true.
Proof.
  intros Hsens.
  assert (Hmask : SmartLogger.sanitizeValue value = JS.repeat "*" (String.length value)).
  { unfold SmartLogger.sanitizeValue. destruct Hsens as [-> | Hlen]; [reflexivity|].
    replace (6 <? Z.of_nat (String.length value)) with true
      by (symmetry; apply Z.ltb_lt; lia).
    now rewrite orb_true_r. }
  rewrite Hmask. split; [reflexivity|]. clear Hmask Hsens.
  induction (String.length value) as [|n IH]; simpl; [split; reflexivity|].
  destruct IH as [IH1 IH2]. rewrite IH1, IH2. split; reflexivity.
Qed.

Section SuggestionFacts.

Import ErrorInspector.

Lemma member_present (data : JS.Value) (k : string) :
  data <> JS.Undefined -> data <> JS.Null -> member data k = inr (JS.prop data k).
Proof. intros H1 H2. destruct data; try reflexivity; contradiction. Qed.

(** With element data present, the loop over the elements does not throw. *)
Lemma elements_suggestions_returns (entries : list (string * JS.Value)) :
  (forall selector data, In (selector, data) entries ->
                         data <> JS.Undefined /\ data <> JS.Null) ->
  exists l, elements_suggestions entries = inr l.
Proof.
  induction entries as [|[selector data] rest IH]; intros Hpresent; simpl.
  - now exists [].
  - destruct (Hpresent selector data (or_introl eq_refl)) as [H1 H2].
    destruct IH as [l Hl].
    { intros s d Hin. apply (Hpresent s d). now right. }
    rewrite Hl. unfold element_suggestions.
    rewrite !(member_present data _ H1 H2).
    destruct (JS.includes selector "error"), (JS.includes selector "loading");
      simpl; destruct (JS.truthy (JS.prop data "visible")); simpl; eexists; reflexivity.
Qed.

(** With no visible error or loading element, it pushes nothing. *)
Lemma elements_suggestions_none (entries : list (string * JS.Value)) :
  (forall selector data, In (selector, data) entries ->
                         data <> JS.Undefined /\ data <> JS.Null) ->
  (forall selector data,
      In (selector, data) entries ->
      JS.includes selector "error" = true \/ JS.includes selector "loading" = true ->
      JS.truthy (JS.prop data "visible") = false) ->
  elements_suggestions entries = inr [].
Proof.
  induction entries as [|[selector data] rest IH]; intros Hpresent Hquiet; simpl.
  - reflexivity.
  - destruct (Hpresent selector data (or_introl eq_refl)) as [H1 H2].
    rewrite IH.
    + unfold element_suggestions. rewrite !(member_present data _ H1 H2).
      pose proof (Hquiet selector data (or_introl eq_refl)) as Hq.
      destruct (JS.includes selector "error"), (JS.includes selector "loading");
        simpl; try rewrite Hq by tauto; reflexivity.
    + intros s d Hin. apply (Hpresent s d). now right.
    + intros s d Hin. apply (Hquiet s d). now right.
Qed.


End SuggestionFacts.




(* ===================================================================== *)
(** * Further properties: arguments, configuration and masking             *)
(* ===================================================================== *)

Section MoreStringFacts.

Lemma toLowerCase_length (s : string) :
  String.length (JS.toLowerCase s) = String.length s.
Proof. induction s as [|c s IH]; simpl; [reflexivity|now rewrite IH]. Qed.

Lemma toLowerCase_app (a b : string) :
  JS.toLowerCase (a ++ b) = JS.toLowerCase a ++ JS.toLowerCase b.
Proof. induction a as [|c a IH]; simpl; [reflexivity|now rewrite IH]. Qed.

Lemma prefix_length (a s : string) :
  String.prefix a s = true -> (String.length a <= String.length s)%nat.
Proof.
  revert s. induction a as [|c a IH]; intros s H; simpl; [lia|].
  destruct s as [|d s]; simpl in H; [discriminate|].
  destruct (ascii_dec c d); [|discriminate]. simpl. apply IH in H. lia.
Qed.

Lemma includes_length (s sub : string) :
  JS.includes s sub = true -> (String.length sub <= String.length s)%nat.
Proof.
  induction s as [|c s IH]; cbn [JS.includes]; intros H.
  - rewrite orb_false_r in H. now apply prefix_length in H.
  - apply orb_true_iff in H as [H|H].
    + now apply prefix_length in H.
    + apply IH in H. simpl. lia.
Qed.

Lemma prefix_app_right (a s t : string) :
  String.prefix a s = true -> String.prefix a (s ++ t) = true.
Proof.
  revert s. induction a as [|c a IH]; intros s H.
  - destruct (s ++ t); reflexivity.
  - destruct s as [|d s]; simpl in H; [discriminate|]. simpl.
    destruct (ascii_dec c d); [now apply IH|discriminate].
Qed.

Lemma includes_app_right (s t sub : string) :
  JS.includes s sub = true -> JS.includes (s ++ t) sub = true.
Proof.
  induction s as [|c s IH]; cbn [JS.includes]; intros H.
  - rewrite orb_false_r in H. destruct sub; [|discriminate H].
    simpl. destruct t; reflexivity.
  - apply orb_true_iff in H as [H|H].
    + change (String c s ++ t) with (String c (s ++ t)). cbn [JS.includes].
      change (String c (s ++ t)) with (String c s ++ t).
      now rewrite (prefix_app_right _ _ t H).
    + change (String c s ++ t) with (String c (s ++ t)). cbn [JS.includes].
      rewrite (IH H). apply orb_true_r.
Qed.

End MoreStringFacts.

(** X1.  [validateParams] accepts an argument object exactly when none of
    its values is [null] or [undefined] and no number under a key containing
    [timeout] or [index] is negative; zero passes.  Whatever it throws is an
    [Error] whose message starts with "Invalid parameter provided". *)
Theorem validateParams_accepts_iff :
  forall params : list (string * JS.Value),
    (ElementHelper.validateParams params = inr tt <-> Forall Spec.acceptable params)
    /\ (forall e, ElementHelper.validateParams params = inl e ->
                  err_name e = "Error"
                  /\ String.prefix INVALID_PARAMETER (err_message e) = true).
Proof.
  induction params as [|[key value] rest [IHok IHerr]].
  - split; [split; [constructor|reflexivity]|discriminate].
  - destruct value as [| |b|n|str|items|fields]; cbn [ElementHelper.validateParams].
    + split; [split; [discriminate|]|].
      * intros H. inversion H as [|? ? Hbad _]. destruct Hbad.
      * intros e [= <-]. split; reflexivity.
    + split; [split; [discriminate|]|].
      * intros H. inversion H as [|? ? Hbad _]. destruct Hbad.
      * intros e [= <-]. split; reflexivity.
    + split; [|exact IHerr]. rewrite IHok. split.
      * intros H. constructor; [exact I|exact H].
      * intros H. now inversion H.
    + destruct (JS.includes key "timeout") eqn:Ht;
        destruct (JS.includes key "index") eqn:Hi;
        destruct (Z.ltb_spec n 0) as [Hneg|Hpos]; cbn [andb];
        try (split; [split; [discriminate|]|];
             [intros H; inversion H as [|? ? Hbad _];
              unfold Spec.acceptable in Hbad; cbn [fst snd] in Hbad;
              rewrite ?Ht, ?Hi in Hbad; assert (0 <= n) by (apply Hbad; tauto); lia
             |intros e [= <-]; split; reflexivity]);
        (split; [|exact IHerr]; rewrite IHok; split;
         [intros H; constructor;
          [unfold Spec.acceptable; cbn [fst snd]; rewrite ?Ht, ?Hi;
           intros [Hbad|Hbad]; (discriminate Hbad || exact Hpos)
          |exact H]
         |intros H; now inversion H]).
    + split; [|exact IHerr]. rewrite IHok. split.
      * intros H. constructor; [exact I|exact H].
      * intros H. now inversion H.
    + split; [|exact IHerr]. rewrite IHok. split.
      * intros H. constructor; [exact I|exact H].
      * intros H. now inversion H.
    + split; [|exact IHerr]. rewrite IHok. split.
      * intros H. constructor; [exact I|exact H].
      * intros H. now inversion H.
Qed.

Lemma repeat_star_length (n : nat) : String.length (JS.repeat "*" n) = n.
Proof. induction n as [|n IH]; simpl; [reflexivity|now rewrite IH]. Qed.

Lemma sanitizeValue_length_rule (value : string) :
  SmartLogger.sanitizeValue value
  = (if (6 <? Z.of_nat (String.length value))
     then JS.repeat "*" (String.length value) else value).
Proof.
  unfold SmartLogger.sanitizeValue.
  destruct (JS.includes (JS.toLowerCase value) "password") eqn:Hp; [|reflexivity].
  apply includes_length in Hp. rewrite toLowerCase_length in Hp. simpl in Hp.
  replace (6 <? Z.of_nat (String.length value)) with true
    by (symmetry; apply Z.ltb_lt; lia).
  reflexivity.
Qed.

(** X2.  [sanitizeValue] is decided by the length alone: a value of more
    than six characters becomes as many asterisks, any other value is kept
    (a value containing "password" has at least eight characters, so that
    test never decides).  The result always has the length of the value, and
    sanitizing twice is sanitizing once. *)
Theorem sanitizeValue_by_length :
  forall value : string,
    SmartLogger.sanitizeValue value
    = (if (6 <? Z.of_nat (String.length value))
       then JS.repeat "*" (String.length value) else value)
    /\ String.length (SmartLogger.sanitizeValue value) = String.length value
    /\ SmartLogger.sanitizeValue (SmartLogger.sanitizeValue value)
       = SmartLogger.sanitizeValue value.
Proof.
  intros value.
  assert (Hlen : String.length (SmartLogger.sanitizeValue value) = String.length value).
  { rewrite sanitizeValue_length_rule.
    destruct (6 <? _); [apply repeat_star_length|reflexivity]. }
  split; [apply sanitizeValue_length_rule|]. split; [exact Hlen|].
  rewrite (sanitizeValue_length_rule (SmartLogger.sanitizeValue value)), Hlen.
  rewrite (sanitizeValue_length_rule value).
  destruct (6 <? Z.of_nat (String.length value)) eqn:Hlong; reflexivity.
Qed.

(** X3.  [MAX_RETRIES] and [DEFAULT_TIMEOUT] are never 0, whatever the
    environment holds: a configured 0, like a value [parseInt] cannot read,
    is replaced by 3 attempts and by 10000 ms (a number that is not 0 stays
    so when it is rounded to a float).  As long as three times the default
    timeout is a safe integer, the shorter and the longer timeout are half
    of it, rounded down, and three times it; beyond that range the floats of
    the source round, and nothing is stated. *)
Theorem configured_zero_is_replaced :
  forall env : Env,
    MAX_RETRIES (constants_of env) <> 0
    /\ DEFAULT_TIMEOUT (constants_of env) <> 0
    /\ (JS.parseInt (JS.str_or (env "TEST_RETRIES") "1") = Some 0 ->
        MAX_RETRIES (constants_of env) = 3)
    /\ (JS.parseInt (JS.str_or (env "TEST_TIMEOUT") "30000") = Some 0 ->
        DEFAULT_TIMEOUT (constants_of env) = 10000)
    /\ (Spec.safe_integer (3 * DEFAULT_TIMEOUT (constants_of env)) ->
        2 * SHORT_TIMEOUT (constants_of env) <= DEFAULT_TIMEOUT (constants_of env)
        < 2 * SHORT_TIMEOUT (constants_of env) + 2
        /\ LONG_TIMEOUT (constants_of env) = 3 * DEFAULT_TIMEOUT (constants_of env)
        /\ Spec.safe_integer (DEFAULT_TIMEOUT (constants_of env))
        /\ Spec.safe_integer (SHORT_TIMEOUT (constants_of env))
        /\ Spec.safe_integer (LONG_TIMEOUT (constants_of env))).
Proof.
  intros env.
  unfold constants_of, MAX_RETRIES, DEFAULT_TIMEOUT, SHORT_TIMEOUT, LONG_TIMEOUT,
    loadConfiguration, retries, timeout, JS.num_or, Spec.safe_integer.
  set (r := JS.parseInt (JS.str_or (env "TEST_RETRIES") "1")).
  set (t := JS.parseInt (JS.str_or (env "TEST_TIMEOUT") "30000")).
  split; [|split; [|split; [|split]]].
  - destruct r as [n|]; [|discriminate].
    destruct (Z.eqb_spec n 0); [discriminate|assumption].
  - destruct t as [n|]; [|discriminate].
    destruct (Z.eqb_spec n 0); [discriminate|assumption].
  - intros ->. reflexivity.
  - intros ->. reflexivity.
  - match goal with |- _ < 3 * ?x < _ -> _ => generalize x end.
    intros d Hsafe.
    pose proof (Z.div_mod d 2 ltac:(lia)) as Hdiv.
    pose proof (Z.mod_pos_bound d 2 ltac:(lia)) as Hmod.
    repeat split; lia.
Qed.

Lemma configured_zero_is_replaced_witness :
  DEFAULT_TIMEOUT (constants_of (set_env "TEST_TIMEOUT" "0" empty_env)) = 10000
  /\ SHORT_TIMEOUT (constants_of (set_env "TEST_TIMEOUT" "15001" empty_env)) = 7500
  /\ LONG_TIMEOUT (constants_of (set_env "TEST_TIMEOUT" "15001" empty_env)) = 45003.
Proof.
  split.
  - apply (configured_zero_is_replaced (set_env "TEST_TIMEOUT" "0" empty_env)).
    reflexivity.
  - pose proof (configured_zero_is_replaced (set_env "TEST_TIMEOUT" "15001" empty_env))
      as (_ & _ & _ & _ & Hsafe).
    assert (Hrange : Spec.safe_integer
                       (3 * DEFAULT_TIMEOUT
                              (constants_of (set_env "TEST_TIMEOUT" "15001" empty_env))))
      by (vm_compute; split; reflexivity).
    destruct (Hsafe Hrange) as (Hshort & Hlong & _).
    change (DEFAULT_TIMEOUT (constants_of (set_env "TEST_TIMEOUT" "15001" empty_env)))
      with 15001 in Hshort, Hlong.
    split; lia.
Defined.

(* ===================================================================== *)
(** * Further properties of the retry engine                               *)
(* ===================================================================== *)

Section MoreRetryFacts.

Import ElementHelper.

Variable K : Constants.
Context {T : Type}.
Variable operation : M T.
Variable operationName : string.
Variable maxRetries baseDelay : Z.

Let run := retry_loop K operation operationName maxRetries baseDelay.

Lemma retry_loop_succeeds_after (failures extra : nat) :
  forall (attempt startTime : Z) (lastError : Thrown) (w w_last w_end : World) (v : T),
    Spec.fails_then_returns operationName baseDelay operation failures attempt
      w w_last v w_end ->
    attempt + Z.of_nat failures <= maxRetries ->
    run (S failures + extra)%nat attempt startTime lastError w
    = (inr v,
       log_success K operationName (attempt + Z.of_nat failures) startTime
         (if ENABLE_PERFORMANCE_MONITORING K then clock w_last else 0) w_end,
       Spec.success_schedule baseDelay failures attempt).
Proof.
  induction failures as [|k IH];
    intros attempt startTime lastError w w_last w_end v Hrun Hle; unfold run in *.
  - destruct Hrun as [-> Hop].
    cbn [Nat.add]. rewrite retry_loop_step, Hop.
    replace (attempt <=? maxRetries) with true by (symmetry; apply Z.leb_le; lia).
    now rewrite Z.add_0_r.
  - destruct Hrun as (e & w1 & Hop & Hrec & Hrest).
    cbn [Nat.add].
    rewrite (retry_loop_step K operation operationName maxRetries baseDelay
               (S (k + extra))), Hop, Hrec.
    replace (attempt <=? maxRetries) with true by (symmetry; apply Z.leb_le; lia).
    replace (attempt =? maxRetries) with false by (symmetry; apply Z.eqb_neq; lia).
    cbv zeta.
    change (S (k + extra)) with (S k + extra)%nat.
    rewrite (IH (attempt + 1) startTime (ThrownError e) _ w_last w_end v Hrest)
      by lia.
    replace (attempt + 1 + Z.of_nat k) with (attempt + Z.of_nat (S k)) by lia.
    reflexivity.
Qed.

Lemma success_schedule_counts (failures : nat) :
  forall k : nat,
    Spec.attempts (Spec.success_schedule baseDelay failures (Z.of_nat k)) = S failures
    /\ Spec.delays (Spec.success_schedule baseDelay failures (Z.of_nat k))
       = map (fun n => Spec.backoff baseDelay (Z.of_nat n)) (seq k failures).
Proof.
  induction failures as [|f IH]; intros k; simpl; [split; reflexivity|].
  replace (Z.of_nat k + 1) with (Z.of_nat (S k)) by lia.
  destruct (IH (S k)) as [Ha Hd]. rewrite Ha, Hd. split; reflexivity.
Qed.

(** The engine only appends to the log buffer when the operation does. *)
Lemma retry_loop_extends_logs (fuel : nat) :
  (forall w w' r, operation w = (r, w') -> Spec.extends_logs w w') ->
  forall (attempt startTime : Z) (lastError : Thrown) (w w' : World) r events,
    run fuel attempt startTime lastError w = (r, w', events) ->
    Spec.extends_logs w w'.
Proof.
  intros Hop. unfold run.
  assert (Hrefl : forall w, Spec.extends_logs w w).
  { intros w. exists []. now rewrite app_nil_r. }
  assert (Hlog : forall w0 w1 level msg ctx,
             Spec.extends_logs w0 w1 ->
             Spec.extends_logs w0 (with_logger (SmartLogger.log level msg ctx) w1)).
  { intros w0 w1 level msg ctx [added H]. eexists. simpl. rewrite H.
    rewrite <- app_assoc. reflexivity. }
  induction fuel as [|fuel IH]; intros attempt startTime lastError w w' r events Hrun.
  - injection Hrun as <- <- <-. apply Hrefl.
  - rewrite retry_loop_step in Hrun.
    destruct (attempt <=? maxRetries); [|injection Hrun as <- <- <-; apply Hrefl].
    destruct (operation w) as [[error|result] w1] eqn:Hcall;
      pose proof (Hop _ _ _ Hcall) as Hext.
    + destruct (isUnrecoverableError error).
      { injection Hrun as <- <- <-. now apply Hlog. }
      destruct (attempt =? maxRetries).
      { injection Hrun as <- <- <-. unfold log_exhausted. now apply Hlog. }
      cbv zeta in Hrun.
      destruct (retry_loop K operation operationName maxRetries baseDelay fuel
                  (attempt + 1) startTime (ThrownError error) _)
        as [[r3 w3] events3] eqn:Hrest.
      injection Hrun as <- <- <-.
      apply IH in Hrest. destruct Hrest as [added3 H3].
      assert (Hmid : Spec.extends_logs w
                       (log_retry operationName attempt
                          (retry_delay baseDelay attempt) w1)).
      { unfold log_retry. now apply Hlog. }
      destruct Hmid as [added1 H1]. cbn [sleep logger] in H3.
      exists (added1 ++ added3)%list. rewrite H3, H1, <- app_assoc. reflexivity.
    + injection Hrun as <- <- <-. unfold log_success.
      destruct (ENABLE_PERFORMANCE_MONITORING K); [|exact Hext].
      destruct (_ || _); [now apply Hlog|exact Hext].
Qed.

End MoreRetryFacts.

(** X4.  With [maxRetries] zero or negative the loop body never runs: the
    operation is not called, nothing is logged, no delay is taken, and what
    is thrown is [undefined], the unassigned [lastError]. *)
Theorem retry_without_attempts_throws_undefined :
  forall (K : Constants) (T : Type) (operation : M T) (operationName : string)
         (maxRetries baseDelay : Z) (w : World),
    maxRetries <= 0 ->
    ElementHelper.retryOperation K operation operationName maxRetries baseDelay w
    = (inl ElementHelper.ThrownUndefined, w, []).
Proof.
  intros K T operation operationName maxRetries baseDelay w Hmax.
  unfold ElementHelper.retryOperation.
  now rewrite retry_loop_done by lia.
Qed.

Lemma retry_without_attempts_throws_undefined_witness :
  -1 <= 0
  /\ MAX_RETRIES (constants_of (set_env "TEST_RETRIES" "-1" empty_env)) = -1
  /\ ElementHelper.retryOperation_default
       (constants_of (set_env "TEST_RETRIES" "-1" empty_env))
       (ready_after 0) "Click" (example_world [])
     = (inl ElementHelper.ThrownUndefined, example_world [], []).
Proof.
  assert (H : -1 <= 0) by lia.
  split; [exact H|]. split; [reflexivity|].
  apply (retry_without_attempts_throws_undefined
           (constants_of (set_env "TEST_RETRIES" "-1" empty_env)) Z
           (ready_after 0) "Click" (-1) 500 (example_world []) H).
Defined.

(** X5.  An operation that fails [failures] times with a recoverable error
    and then returns [v], with [failures < maxRetries], makes the engine
    return [v] after [failures + 1] calls and the first [failures] delays of
    the backoff schedule.  Without performance monitoring the engine adds no
    success entry; with it, it adds one INFO entry when a retry was needed
    or the run took more than a second, and none on a first-attempt success
    within a second. *)
Theorem retry_returns_after_recoverable_failures :
  forall (K : Constants) (T : Type) (operation : M T) (operationName : string)
         (maxRetries baseDelay : Z) (failures : nat)
         (w w_last w_end : World) (v : T),
    Spec.fails_then_returns operationName baseDelay operation failures 1
      w w_last v w_end ->
    Z.of_nat failures < maxRetries ->
    let startTime := if ENABLE_PERFORMANCE_MONITORING K then clock w else 0 in
    let final :=
      ElementHelper.log_success K operationName (1 + Z.of_nat failures) startTime
        (if ENABLE_PERFORMANCE_MONITORING K then clock w_last else 0) w_end in
    ElementHelper.retryOperation K operation operationName maxRetries baseDelay w
    = (inr v, final, Spec.success_schedule baseDelay failures 1)
    /\ Spec.attempts (Spec.success_schedule baseDelay failures 1) = S failures
    /\ Spec.delays (Spec.success_schedule baseDelay failures 1)
       = map (fun n => Spec.backoff baseDelay (Z.of_nat n)) (seq 1 failures)
    /\ (ENABLE_PERFORMANCE_MONITORING K = false -> final = w_end)
    /\ (failures = 0%nat -> clock w_end - clock w <= 1000 -> final = w_end)
    /\ (ENABLE_PERFORMANCE_MONITORING K = true ->
        (0 < failures)%nat \/ 1000 < clock w_end - clock w ->
        exists entry,
          SmartLogger.logs (logger final)
          = (SmartLogger.logs (logger w_end) ++ [entry])%list
          /\ SmartLogger.level entry = Level.INFO
          /\ SmartLogger.message entry
             = operationName ++ " completed ("
               ++ (if (0 <? Z.of_nat failures) then "with retries" else "slow operation")
               ++ ")").
Proof.
  intros K T operation operationName maxRetries baseDelay failures
    w w_last w_end v Hrun Hlt startTime final.
  split; [|split; [|split; [|split; [|split]]]].
  - unfold ElementHelper.retryOperation. fold startTime.
    replace (Z.to_nat maxRetries)
      with (S failures + (Z.to_nat maxRetries - S failures))%nat by lia.
    apply (retry_loop_succeeds_after K operation operationName maxRetries
             baseDelay failures (Z.to_nat maxRetries - S failures) 1 startTime
             ElementHelper.ThrownUndefined w w_last w_end v Hrun).
    lia.
  - apply (success_schedule_counts baseDelay failures 1).
  - apply (success_schedule_counts baseDelay failures 1).
  - intros Hoff. unfold final, ElementHelper.log_success. now rewrite Hoff.
  - intros -> Hfast. unfold final, ElementHelper.log_success, startTime.
    destruct (ENABLE_PERFORMANCE_MONITORING K); [|reflexivity].
    replace (1000 <? clock w_end - clock w) with false
      by (symmetry; apply Z.ltb_ge; lia).
    reflexivity.
  - intros Hon Hslow. unfold final, ElementHelper.log_success, startTime.
    rewrite Hon.
    assert (Hcond : ((1 <? 1 + Z.of_nat failures)
                     || (1000 <? clock w_end - clock w))%bool = true).
    { destruct Hslow as [Hf|Hs].
      - replace (1 <? 1 + Z.of_nat failures) with true
          by (symmetry; apply Z.ltb_lt; lia). reflexivity.
      - replace (1000 <? clock w_end - clock w) with true
          by (symmetry; apply Z.ltb_lt; lia). apply orb_true_r. }
    rewrite Hcond. eexists. split; [reflexivity|]. split; [reflexivity|].
    cbn [SmartLogger.message].
    replace (1 <? 1 + Z.of_nat failures) with (0 <? Z.of_nat failures)
      by (destruct (Z.ltb_spec 0 (Z.of_nat failures)),
            (Z.ltb_spec 1 (1 + Z.of_nat failures)); lia || reflexivity).
    reflexivity.
Qed.

Lemma retry_returns_after_recoverable_failures_witness :
  exists w_last,
    Spec.fails_then_returns "Click" 500 (ready_after 50) 1 1
      (example_world []) w_last 100 w_last
    /\ Z.of_nat 1 < 3
    /\ fst (fst (ElementHelper.retryOperation
                   (constants_of (set_env "TEST_RETRIES" "3" empty_env))
                   (ready_after 50) "Click" 3 500 (example_world [])))
       = inr 100
    /\ snd (ElementHelper.retryOperation
              (constants_of (set_env "TEST_RETRIES" "3" empty_env))
              (ready_after 50) "Click" 3 500 (example_world []))
       = [ElementHelper.Attempt 1; ElementHelper.Delay 100; ElementHelper.Attempt 2].
Proof.
  set (w_last := sleep 100 (ElementHelper.log_retry "Click" 1 100 (example_world []))).
  assert (Hrun : Spec.fails_then_returns "Click" 500 (ready_after 50) 1 1
                   (example_world []) w_last 100 w_last).
  { exists (new_Error "locator.waitFor: Timeout 5000ms exceeded."), (example_world []).
    split; [reflexivity|]. split; [reflexivity|]. split; reflexivity. }
  assert (Hlt : Z.of_nat 1 < 3) by reflexivity.
  exists w_last. split; [exact Hrun|]. split; [exact Hlt|].
  rewrite (proj1 (retry_returns_after_recoverable_failures
                    (constants_of (set_env "TEST_RETRIES" "3" empty_env)) Z
                    (ready_after 50) "Click" 3 500 1
                    (example_world []) w_last w_last 100 Hrun Hlt)).
  split; vm_compute; reflexivity.
Defined.

(** X6.  The retry engine never removes or rewrites a log entry: when each
    call of the operation only appends to the log buffer, so does the whole
    run, whatever its outcome. *)
Theorem retryOperation_only_appends_to_log :
  forall (K : Constants) (T : Type) (operation : M T) (operationName : string)
         (maxRetries baseDelay : Z) (w w' : World)
         (r : ElementHelper.Thrown + T) (events : list ElementHelper.RetryEvent),
    (forall w0 w1 r0, operation w0 = (r0, w1) -> Spec.extends_logs w0 w1) ->
    ElementHelper.retryOperation K operation operationName maxRetries baseDelay w
    = (r, w', events) ->
    Spec.extends_logs w w'.
Proof.
  intros K T operation operationName maxRetries baseDelay w w' r events Hop Hrun.
  unfold ElementHelper.retryOperation in Hrun.
  exact (retry_loop_extends_logs K operation operationName maxRetries baseDelay
           _ Hop _ _ _ _ _ _ _ Hrun).
Qed.

Lemma retryOperation_only_appends_to_log_witness :
  (forall w0 w1 r0, ready_after 50 w0 = (r0, w1) -> Spec.extends_logs w0 w1)
  /\ Spec.extends_logs (example_world [])
       (snd (fst (ElementHelper.retryOperation
                    (constants_of (set_env "TEST_RETRIES" "3" empty_env))
                    (ready_after 50) "Click" 3 500 (example_world [])))).
Proof.
  assert (Hop : forall w0 w1 (r0 : Outcome Z),
             ready_after 50 w0 = (r0, w1) -> Spec.extends_logs w0 w1).
  { intros w0 w1 r0. unfold ready_after.
    destruct (clock w0 <? 50); intros [= <- <-]; exists [];
      symmetry; apply app_nil_r. }
  split; [exact Hop|].
  apply (retryOperation_only_appends_to_log
           (constants_of (set_env "TEST_RETRIES" "3" empty_env)) Z
           (ready_after 50) "Click" 3 500 (example_world []) _
           (fst (fst (ElementHelper.retryOperation
                        (constants_of (set_env "TEST_RETRIES" "3" empty_env))
                        (ready_after 50) "Click" 3 500 (example_world []))))
           (snd (ElementHelper.retryOperation
                   (constants_of (set_env "TEST_RETRIES" "3" empty_env))
                   (ready_after 50) "Click" 3 500 (example_world [])))
           Hop).
  vm_compute. reflexivity.
Defined.

Lemma append_assoc (a b c : string) : ((a ++ b) ++ c)%string = (a ++ b ++ c)%string.
Proof. induction a as [|x a IH]; simpl; [reflexivity|now rewrite IH]. Qed.

Lemma append_empty_r (a : string) : (a ++ EmptyString)%string = a.
Proof. induction a as [|x a IH]; simpl; [reflexivity|now rewrite IH]. Qed.

Lemma lower_char_idempotent (c : ascii) : JS.lower_char (JS.lower_char c) = JS.lower_char c.
Proof.
  destruct c as [[] [] [] [] [] [] [] []]; reflexivity.
Qed.

Lemma toLowerCase_idempotent (s : string) :
  JS.toLowerCase (JS.toLowerCase s) = JS.toLowerCase s.
Proof.
  induction s as [|c s IH]; simpl; [reflexivity|].
  now rewrite lower_char_idempotent, IH.
Qed.

(** X7.  Whether an error is unrecoverable depends only on the letters of its
    message, not on their case, on the error's name, or on where in the
    message the pattern stands: an unrecoverable message stays unrecoverable
    when lower-cased, when text is put before and after it, and when
    [createErrorMessage] wraps it. *)
Theorem unrecoverable_by_content_in_any_case :
  forall (e : Error),
    ElementHelper.isUnrecoverableError e = true ->
    (forall e' before after,
        err_message e' = before ++ err_message e ++ after ->
        ElementHelper.isUnrecoverableError e' = true)
    /\ (forall e',
           JS.toLowerCase (err_message e') = JS.toLowerCase (err_message e) ->
           ElementHelper.isUnrecoverableError e' = true)
    /\ ElementHelper.isUnrecoverableError
         (new_TypeError (JS.toLowerCase (err_message e))) = true
    /\ (forall operation element,
           ElementHelper.isUnrecoverableError
             (new_Error (ElementHelper.createErrorMessage operation element
                           (Some (err_message e)))) = true).
Proof.
  intros e He.
  assert (Hembed : forall e' before after,
             err_message e' = before ++ err_message e ++ after ->
             ElementHelper.isUnrecoverableError e' = true).
  { intros e' before after Hmsg.
    unfold ElementHelper.isUnrecoverableError in *.
    apply existsb_exists in He as (pattern & Hin & Hinc).
    apply existsb_exists. exists pattern. split; [exact Hin|].
    rewrite Hmsg, !toLowerCase_app.
    apply includes_app_left, includes_app_right, Hinc. }
  split; [exact Hembed|]. split; [|split].
  - intros e' Hsame. unfold ElementHelper.isUnrecoverableError in *.
    now rewrite Hsame.
  - unfold ElementHelper.isUnrecoverableError in *. cbn [new_TypeError err_message].
    now rewrite toLowerCase_idempotent.
  - intros operation element.
    destruct (String.eqb (err_message e) EmptyString) eqn:Hempty.
    + apply String.eqb_eq in Hempty.
      unfold ElementHelper.isUnrecoverableError in He. rewrite Hempty in He.
      discriminate He.
    + apply (Hembed _ (operation ++ " failed for "
                       ++ ElementHelper.elementDesc element ++ ": ") EmptyString).
      cbn [new_Error err_message]. unfold ElementHelper.createErrorMessage.
      rewrite Hempty.
      now rewrite append_empty_r, !append_assoc.
Qed.

Lemma unrecoverable_by_content_in_any_case_witness :
  ElementHelper.isUnrecoverableError closed_error = true
  /\ ElementHelper.isUnrecoverableError
       (new_Error (ElementHelper.createErrorMessage "Click element" (inl "#publish")
                     (Some (err_message closed_error)))) = true.
Proof.
  assert (H : ElementHelper.isUnrecoverableError closed_error = true) by reflexivity.
  split; [exact H|].
  apply (proj2 (proj2 (proj2 (unrecoverable_by_content_in_any_case closed_error H)))).
Defined.

(* ===================================================================== *)
(** * Further properties of the state checks                               *)
(* ===================================================================== *)

Section StateCheckFacts.

Import ElementHelper.

Lemma positions_in_range (selector : string) (nodes : list Driver.Element) :
  forall i p,
    In p (Driver.positions selector i nodes) ->
    (i <= p)%nat /\ nth_error nodes (p - i) <> None.
Proof.
  induction nodes as [|x rest IH]; intros i p Hin; simpl in Hin; [contradiction|].
  destruct (existsb _ _).
  - destruct Hin as [<-|Hin].
    + split; [lia|]. rewrite Nat.sub_diag. discriminate.
    + apply IH in Hin as [Hle Hn]. split; [lia|].
      replace (p - i)%nat with (S (p - S i)) by lia. exact Hn.
  - apply IH in Hin as [Hle Hn]. split; [lia|].
    replace (p - i)%nat with (S (p - S i)) by lia. exact Hn.
Qed.

Lemma resolve_in_range (pg : Driver.Page) (l : Driver.Locator) :
  forall p, In p (Driver.resolve pg l) -> nth_error (Driver.dom pg) p <> None.
Proof.
  induction l as [selector|l IH index]; intros p Hin; cbn [Driver.resolve] in Hin.
  - apply positions_in_range in Hin as [_ Hn]. now rewrite Nat.sub_0_r in Hn.
  - cbv zeta in Hin.
    destruct (if 0 <=? index then _ else _) as [n|]; [|contradiction].
    destruct (nth_error (Driver.resolve pg l) n) as [q|] eqn:Hn; [|contradiction].
    destruct Hin as [<-|[]]. apply IH. now apply nth_error_In with n.
Qed.

Lemma createLocator_asLocator (element : ElementRef) (index : Z) :
  createLocator element index = Driver.Nth (asLocator element) index.
Proof. destruct element; reflexivity. Qed.

Lemma resolve_createLocator (pg : Driver.Page) (element : ElementRef) (index : Z) :
  0 <= index ->
  Driver.resolve pg (createLocator element index)
  = match nth_error (Driver.resolve pg (asLocator element)) (Z.to_nat index) with
    | Some p => [p]
    | None => []
    end.
Proof.
  intros Hi. rewrite createLocator_asLocator. cbn [Driver.resolve]. cbv zeta.
  replace (0 <=? index) with true by (symmetry; apply Z.leb_le; lia).
  reflexivity.
Qed.

Lemma target_createLocator (what : string) (timeout : Z) (pg : Driver.Page)
  (element : ElementRef) (index : Z) :
  0 <= index ->
  match Spec.nth_match pg element index with
  | Some e =>
      exists p,
        Driver.resolve pg (createLocator element index) = [p]
        /\ Driver.target what timeout pg (createLocator element index) = inr (p, e)
  | None =>
      Driver.resolve pg (createLocator element index) = []
      /\ Driver.target what timeout pg (createLocator element index)
         = inl (Driver.TimeoutError what timeout)
      /\ (Driver.count pg (asLocator element) <= Z.to_nat index)%nat
  end.
Proof.
  intros Hi. unfold Spec.nth_match, Driver.target.
  rewrite (resolve_createLocator pg element index Hi).
  destruct (nth_error (Driver.resolve pg (asLocator element)) (Z.to_nat index))
    as [p|] eqn:Hn.
  - pose proof (resolve_in_range pg _ p (nth_error_In _ _ Hn)) as Hr.
    destruct (nth_error (Driver.dom pg) p) as [e|] eqn:He; [|contradiction].
    exists p. split; reflexivity.
  - split; [reflexivity|]. split; [reflexivity|].
    now apply nth_error_None in Hn.
Qed.

Lemma validateParams_page_element_index (element : ElementRef) (index : Z) :
  validateParams
    [("page", page_value); ("element", element_value element);
     ("index", JS.Num index)]
  = if index <? 0
    then inl (new_Error "Invalid parameter provided: index must be non-negative")
    else inr tt.
Proof. destruct element; simpl; destruct (index <? 0); reflexivity. Qed.

End StateCheckFacts.

(** X8.  For a non-negative index the immediate state checks never throw and
    leave the world as it is; they answer for the [index]-th match of the
    element: its visibility, its enabledness, its checked state (false for a
    node that is no checkbox), and false when there are not that many
    matches.  [getElementCount] is the number of matches and
    [doesElementExist] says whether it is positive. *)
Theorem state_checks_answer_for_nth_match :
  forall (element : ElementHelper.ElementRef) (index : Z) (w : World),
    0 <= index ->
    let found := Spec.nth_match (page w) element index in
    let matches := Driver.count (page w) (ElementHelper.asLocator element) in
    ElementHelper.isElementVisible element index w
    = (inr match found with Some e => Driver.el_visible e | None => false end, w)
    /\ ElementHelper.isElementEnabled element index w
       = (inr match found with Some e => Driver.el_enabled e | None => false end, w)
    /\ ElementHelper.isElementChecked element index w
       = (inr match found with
              | Some e => match Driver.el_checked e with Some b => b | None => false end
              | None => false
              end, w)
    /\ ElementHelper.getElementCount element w = (inr matches, w)
    /\ ElementHelper.doesElementExist element w = (inr (Nat.ltb 0 matches), w)
    /\ (found = None <-> (matches <= Z.to_nat index)%nat).
Proof.
  intros element index w Hi found matches.
  assert (Hvalid : ElementHelper.validateParams
                     [("page", ElementHelper.page_value);
                      ("element", ElementHelper.element_value element);
                      ("index", JS.Num index)] = inr tt).
  { rewrite validateParams_page_element_index.
    now replace (index <? 0) with false by (symmetry; apply Z.ltb_ge; lia). }
  assert (Hvalid2 : ElementHelper.validateParams
                      [("page", ElementHelper.page_value);
                       ("element", ElementHelper.element_value element)] = inr tt).
  { destruct element; reflexivity. }
  pose proof (target_createLocator "locator.isVisible" 0 (page w) element index Hi) as Hv.
  pose proof (target_createLocator "locator.isEnabled" 0 (page w) element index Hi) as He.
  pose proof (target_createLocator "locator.isChecked" 0 (page w) element index Hi) as Hc.
  fold found in Hv, He, Hc.
  split; [|split; [|split; [|split; [|split]]]].
  - unfold ElementHelper.isElementVisible, ElementHelper.or_on_error, bind, lift,
      try_catch, query, ret, Driver.isVisible.
    rewrite Hvalid. destruct found as [e|].
    + destruct Hv as (p & Hr & Ht). now rewrite Hr, Ht.
    + destruct Hv as (Hr & _). now rewrite Hr.
  - unfold ElementHelper.isElementEnabled, ElementHelper.or_on_error, bind, lift,
      try_catch, query, ret, Driver.isEnabled.
    rewrite Hvalid. destruct found as [e|].
    + destruct He as (p & Hr & Ht). now rewrite Ht.
    + destruct He as (_ & Ht & _). now rewrite Ht.
  - unfold ElementHelper.isElementChecked, bind, lift, try_catch, query, ret,
      Driver.isChecked.
    rewrite Hvalid. destruct found as [e|].
    + destruct Hc as (p & Hr & Ht). rewrite Ht. cbn.
      destruct (Driver.el_checked e); reflexivity.
    + destruct Hc as (_ & Ht & _). now rewrite Ht.
  - unfold ElementHelper.getElementCount, ElementHelper.or_on_error, bind, lift,
      try_catch. now rewrite Hvalid2.
  - unfold ElementHelper.doesElementExist, ElementHelper.or_on_error, bind, lift,
      try_catch. now rewrite Hvalid2.
  - split.
    + intros Hnone. rewrite Hnone in Hv. now destruct Hv as (_ & _ & Hle).
    + intros Hle. unfold found, Spec.nth_match.
      now replace (nth_error _ (Z.to_nat index)) with (@None nat)
        by (symmetry; apply nth_error_None; exact Hle).
Qed.

Lemma state_checks_answer_for_nth_match_witness :
  0 <= 0
  /\ ElementHelper.isElementEnabled (inl "#newsletter") 0
       (example_world [newsletter_checkbox])
     = (inr true, example_world [newsletter_checkbox])
  /\ ElementHelper.isElementVisible (inl "#missing") 0
       (example_world [newsletter_checkbox])
     = (inr false, example_world [newsletter_checkbox]).
Proof.
  assert (H : 0 <= 0) by lia.
  split; [exact H|]. split.
  - apply (proj1 (proj2 (state_checks_answer_for_nth_match
                           (inl "#newsletter") 0
                           (example_world [newsletter_checkbox]) H))).
  - apply (proj1 (state_checks_answer_for_nth_match (inl "#missing") 0
                    (example_world [newsletter_checkbox]) H)).
Defined.

(** X9.  A negative index is rejected by [validateParams], which stands
    before the [try] block: the state checks documented as never throwing,
    [hasClass], [toggleCheckbox] and [selectOptionValue] all throw the same
    parameter error, whatever the page and the other arguments are, and
    leave the world untouched. *)
Theorem negative_index_is_rejected :
  forall (element : ElementHelper.ElementRef) (className value : string)
         (select : Driver.Locator -> ElementHelper.SelectOps)
         (index timeout : Z) (w : World),
    index < 0 ->
    let e := new_Error "Invalid parameter provided: index must be non-negative" in
    ElementHelper.isElementVisible element index w = (inl e, w)
    /\ ElementHelper.isElementEnabled element index w = (inl e, w)
    /\ ElementHelper.isElementChecked element index w = (inl e, w)
    /\ ElementHelper.hasClass element className index w = (inl e, w)
    /\ ElementHelper.toggleCheckbox element index timeout w = (inl e, w)
    /\ ElementHelper.selectOptionValue select element value index timeout w = (inl e, w).
Proof.
  intros element className value select index timeout w Hneg e.
  assert (Hlt : (index <? 0) = true) by (apply Z.ltb_lt; lia).
  unfold ElementHelper.isElementVisible, ElementHelper.isElementEnabled,
    ElementHelper.isElementChecked, ElementHelper.hasClass,
    ElementHelper.toggleCheckbox, ElementHelper.selectOptionValue, bind, lift.
  repeat split; destruct element; simpl; rewrite Hlt; reflexivity.
Qed.

Lemma negative_index_is_rejected_witness :
  -1 < 0
  /\ ElementHelper.isElementVisible (inl "#newsletter") (-1)
       (example_world [newsletter_checkbox])
     = (inl (new_Error "Invalid parameter provided: index must be non-negative"),
        example_world [newsletter_checkbox]).
Proof.
  assert (H : -1 < 0) by lia.
  split; [exact H|].
  apply (proj1 (negative_index_is_rejected (inl "#newsletter") "on" "on"
                  (fun _ => {| ElementHelper.selectOption_value := fun _ => ret tt;
                               ElementHelper.selectOption_label := fun _ => ret tt |})
                  (-1) 0 (example_world [newsletter_checkbox]) H)).
Defined.

(** X10.  [dragAndDrop] names its indexes [sourceIndex] and [targetIndex],
    which the case-sensitive key test of [validateParams] does not take for
    indexes: with a non-negative timeout no index, negative ones included,
    is rejected.  The drag is the driver's, on the two indexed locators, when
    both are visible; every error comes out wrapped in the drag-and-drop
    message. *)
Theorem dragAndDrop_accepts_any_index :
  forall (dragTo : Driver.Locator -> Driver.Locator -> M unit)
         (source target : ElementHelper.ElementRef)
         (sourceIndex targetIndex timeout : Z) (w : World),
    0 <= timeout ->
    let sourceLocator := ElementHelper.createLocator source sourceIndex in
    let targetLocator := ElementHelper.createLocator target targetIndex in
    (Spec.single_visible (page w) sourceLocator ->
     Spec.single_visible (page w) targetLocator ->
     forall w', dragTo sourceLocator targetLocator w = (inr tt, w') ->
                ElementHelper.dragAndDrop dragTo source target sourceIndex
                  targetIndex timeout w = (inr tt, w'))
    /\ (forall e w',
           ElementHelper.dragAndDrop dragTo source target sourceIndex
             targetIndex timeout w = (inl e, w') ->
           exists cause,
             err_message e
             = "Drag and drop failed from "
               ++ match source with inl s => s | inr _ => "source Locator" end
               ++ " to "
               ++ match target with inl s => s | inr _ => "target Locator" end
               ++ ": " ++ cause).
Proof.
  intros dragTo source target sourceIndex targetIndex timeout w Ht
    sourceLocator targetLocator.
  assert (Hvalid : ElementHelper.validateParams
                     [("page", ElementHelper.page_value);
                      ("source", ElementHelper.element_value source);
                      ("target", ElementHelper.element_value target);
                      ("sourceIndex", JS.Num sourceIndex);
                      ("targetIndex", JS.Num targetIndex);
                      ("timeout", JS.Num timeout)] = inr tt).
  { destruct source, target; simpl;
      now replace (timeout <? 0) with false by (symmetry; apply Z.ltb_ge; lia). }
  unfold ElementHelper.dragAndDrop, bind, lift. rewrite Hvalid.
  fold sourceLocator targetLocator. unfold try_catch, query.
  split.
  - intros (ps & es & Hrs & Hns & Hvs) (pt & et & Hrt & Hnt & Hvt) w' Hdrag.
    unfold Driver.waitFor.
    rewrite (target_found _ _ _ _ _ _ Hrs Hns), (target_found _ _ _ _ _ _ Hrt Hnt).
    cbn. rewrite Hvs, Hvt. now rewrite Hdrag.
  - intros e w'.
    destruct (Driver.waitFor Driver.visible timeout (page w) sourceLocator)
      as [error|[]].
    { intros [= <- <-]. now exists (err_message error). }
    destruct (Driver.waitFor Driver.visible timeout (page w) targetLocator)
      as [error|[]].
    { intros [= <- <-]. now exists (err_message error). }
    destruct (dragTo sourceLocator targetLocator w) as [[error|[]] w1].
    + intros [= <- <-]. now exists (err_message error).
    + discriminate.
Qed.

Lemma dragAndDrop_accepts_any_index_witness :
  0 <= 5000
  /\ ElementHelper.dragAndDrop (fun _ _ => ret tt)
       (inl "#newsletter") (inl "#newsletter") (-1) 0 5000
       (example_world [newsletter_checkbox; newsletter_checkbox])
     = (inr tt, example_world [newsletter_checkbox; newsletter_checkbox]).
Proof.
  assert (H : 0 <= 5000) by lia.
  split; [exact H|].
  apply (proj1 (dragAndDrop_accepts_any_index (fun _ _ => ret tt)
                  (inl "#newsletter") (inl "#newsletter") (-1) 0 5000
                  (example_world [newsletter_checkbox; newsletter_checkbox]) H)).
  - exists 1%nat, newsletter_checkbox. repeat split; reflexivity.
  - exists 0%nat, newsletter_checkbox. repeat split; reflexivity.
  - reflexivity.
Defined.

(** X11.  [waitForDisplayed] and [isElementDisplayed] work on the locator
    as it is, without [nth]: for a positive timeout they never throw, leave
    page and log as they are, and answer true exactly when the locator
    denotes a single node and that node is visible.  No match, a hidden
    node, and several matches all give false. *)
Theorem displayed_checks_need_single_visible_match :
  forall (element : ElementHelper.ElementRef) (timeout : Z) (w : World),
    0 < timeout ->
    exists (b : bool) (w1 w2 : World),
      ElementHelper.waitForDisplayed element timeout w = (inr b, w1)
      /\ ElementHelper.isElementDisplayed (ElementHelper.asLocator element) timeout w
         = (inr b, w2)
      /\ page w1 = page w /\ logger w1 = logger w
      /\ page w2 = page w /\ logger w2 = logger w
      /\ (b = true
          <-> Spec.single_visible (page w) (ElementHelper.asLocator element)).
Proof.
  intros element timeout w Ht.
  assert (Hlt : (timeout <? 0) = false) by (apply Z.ltb_ge; lia).
  assert (Hv1 : ElementHelper.validateParams
                  [("page", ElementHelper.page_value);
                   ("element", ElementHelper.element_value element);
                   ("timeout", JS.Num timeout)] = inr tt).
  { destruct element; simpl; now rewrite Hlt. }
  assert (Hv2 : ElementHelper.validateParams
                  [("element",
                    ElementHelper.element_value (inr (ElementHelper.asLocator element)));
                   ("timeout", JS.Num timeout)] = inr tt).
  { simpl; now rewrite Hlt. }
  unfold ElementHelper.waitForDisplayed, ElementHelper.isElementDisplayed,
    ElementHelper.or_on_error, bind, lift, try_catch, query, ret.
  rewrite Hv1, Hv2.
  change (match element with
          | inl selector => Driver.Loc selector
          | inr locator => locator
          end) with (ElementHelper.asLocator element).
  unfold Driver.waitFor, Driver.target, Spec.single_visible.
  destruct (Driver.resolve (page w) (ElementHelper.asLocator element))
    as [|p [|q rest]] eqn:Hr.
  - exists false, w, w. repeat (split; [reflexivity|]).
    split; [discriminate|]. intros (p & e & Hp & _). discriminate Hp.
  - assert (Hin : In p (Driver.resolve (page w) (ElementHelper.asLocator element)))
      by (rewrite Hr; now left).
    apply resolve_in_range in Hin.
    destruct (nth_error (Driver.dom (page w)) p) as [e|] eqn:He; [|contradiction].
    cbn. exists (Driver.el_visible e), w, w.
    destruct (Driver.el_visible e) eqn:Hvis.
    + repeat (split; [reflexivity|]).
      split; [|reflexivity]. intros _. exists p, e. now rewrite He.
    + repeat (split; [reflexivity|]).
      split; [discriminate|]. intros (p' & e' & [= <-] & He' & Hvis').
      rewrite He in He'. injection He' as <-. rewrite Hvis in Hvis'. discriminate.
  - exists false, w, w. repeat (split; [reflexivity|]).
    split; [discriminate|]. intros (p' & e' & Hp & _). discriminate Hp.
Qed.

Lemma displayed_checks_need_single_visible_match_witness :
  0 < 5000
  /\ fst (ElementHelper.waitForDisplayed (inl "#newsletter") 5000
            (example_world [newsletter_checkbox; newsletter_checkbox]))
     = inr false
  /\ fst (ElementHelper.waitForDisplayed (inl "#newsletter") 5000
            (example_world [plain_node; newsletter_checkbox]))
     = inr true.
Proof.
  assert (H : 0 < 5000) by lia.
  split; [exact H|]. split.
  - destruct (displayed_checks_need_single_visible_match (inl "#newsletter") 5000
                (example_world [newsletter_checkbox; newsletter_checkbox]) H)
      as (b & w1 & w2 & Hrun & _ & _ & _ & _ & _ & Hiff).
    rewrite Hrun. cbn [fst]. destruct b; [|reflexivity].
    destruct (proj1 Hiff eq_refl) as (p & e & Hp & _). discriminate Hp.
  - destruct (displayed_checks_need_single_visible_match (inl "#newsletter") 5000
                (example_world [plain_node; newsletter_checkbox]) H)
      as (b & w1 & w2 & Hrun & _ & _ & _ & _ & _ & Hiff).
    rewrite Hrun. cbn [fst]. f_equal. apply Hiff.
    exists 1%nat, newsletter_checkbox. repeat split; reflexivity.
Defined.

Section SplitFacts.

Variable sep : ascii.

Lemma contains_char_empty : ~ Spec.contains_char sep EmptyString.
Proof. intros ([|x before] & after & H); discriminate H. Qed.

Lemma contains_char_cons (x : ascii) (s : string) :
  Spec.contains_char sep (String x s) <-> x = sep \/ Spec.contains_char sep s.
Proof.
  split.
  - intros ([|y before] & after & H); injection H as -> ->.
    + now left.
    + right. now exists before, after.
  - intros [->|(before & after & ->)].
    + now exists EmptyString, s.
    + now exists (String x before), after.
Qed.

Lemma contains_char_app (a b : string) :
  Spec.contains_char sep (a ++ b)
  <-> Spec.contains_char sep a \/ Spec.contains_char sep b.
Proof.
  induction a as [|x a IH]; cbn [append].
  - split; [now right|]. intros [H|H]; [|exact H]. now apply contains_char_empty in H.
  - rewrite !contains_char_cons, IH. tauto.
Qed.

Lemma split_on_aux_tokens (s : string) :
  forall cur t,
    In t (JS.split_on_aux sep cur s) ->
    (~ Spec.contains_char sep cur -> ~ Spec.contains_char sep t)
    /\ exists before after, (cur ++ s = before ++ t ++ after)%string.
Proof.
  induction s as [|c s IH]; intros cur t Hin; cbn [JS.split_on_aux] in Hin.
  - destruct Hin as [<-|[]]. split; [tauto|].
    exists EmptyString, EmptyString. reflexivity.
  - destruct (Ascii.eqb c sep) eqn:Hc.
    + destruct Hin as [<-|Hin].
      * split; [tauto|]. exists EmptyString, (String c s). reflexivity.
      * apply IH in Hin as [Hno (before & after & Heq)]. split.
        -- intros _. apply Hno, contains_char_empty.
        -- exists (cur ++ String c before)%string, after.
           cbn [append] in Heq. rewrite Heq, append_assoc. reflexivity.
    + apply IH in Hin as [Hno (before & after & Heq)]. split.
      * intros Hcur. apply Hno. rewrite contains_char_app, contains_char_cons.
        intros [H|[H|H]]; [tauto| |now apply contains_char_empty in H].
        subst c. now rewrite Ascii.eqb_refl in Hc.
      * exists before, after. rewrite <- Heq, append_assoc. reflexivity.
Qed.

(** Joining the parts with the separator gives the text back. *)
Lemma split_on_aux_join (s : string) :
  forall cur, Spec.join_with sep (JS.split_on_aux sep cur s) = (cur ++ s)%string.
Proof.
  induction s as [|c s IH]; intros cur; cbn [JS.split_on_aux].
  - cbn. now rewrite append_empty_r.
  - destruct (Ascii.eqb c sep) eqn:Hc.
    + apply Ascii.eqb_eq in Hc. subst c.
      assert (Hne : JS.split_on_aux sep EmptyString s <> []).
      { destruct s as [|d s]; cbn; [discriminate|]. destruct (Ascii.eqb d sep); [discriminate|].
        clear. generalize (String d EmptyString). induction s as [|x s IHs]; intros cur; cbn;
          [discriminate|]. destruct (Ascii.eqb x sep); [discriminate|apply IHs]. }
      cbn [Spec.join_with].
      destruct (JS.split_on_aux sep EmptyString s) as [|part rest] eqn:Hs;
        [contradiction|].
      now rewrite <- Hs, IH.
    + rewrite IH, append_assoc. reflexivity.
Qed.

End SplitFacts.

(** X12.  [hasClass] looks for the class name among the space-separated
    parts of the [class] attribute of the [index]-th match.  For a
    non-negative index it never throws and leaves the world as it is; it is
    false when there is no such match, no attribute, or an empty one.  A
    true answer means that the name has no space in it and stands in the
    attribute's text, so a space-separated list of classes is never found
    as a whole, whatever the attribute holds. *)
Theorem hasClass_finds_single_class_names :
  forall (element : ElementHelper.ElementRef) (className : string)
         (index : Z) (w : World),
    0 <= index ->
    exists b : bool,
      ElementHelper.hasClass element className index w = (inr b, w)
      /\ (b = true
          <-> exists e classes,
                Spec.nth_match (page w) element index = Some e
                /\ Driver.assoc "class" (Driver.el_attributes e) = Some classes
                /\ classes <> EmptyString
                /\ In className (JS.split_on " " classes))
      /\ (b = true ->
          ~ Spec.contains_char " " className
          /\ exists e classes before after,
               Spec.nth_match (page w) element index = Some e
               /\ Driver.assoc "class" (Driver.el_attributes e) = Some classes
               /\ classes = before ++ className ++ after).
Proof.
  intros element className index w Hi.
  assert (Hlt : (index <? 0) = false) by (apply Z.ltb_ge; lia).
  assert (Hvalid : ElementHelper.validateParams
                     [("page", ElementHelper.page_value);
                      ("element", ElementHelper.element_value element);
                      ("className", JS.Str className);
                      ("index", JS.Num index)] = inr tt).
  { destruct element; simpl; now rewrite Hlt. }
  pose proof (target_createLocator "locator.getAttribute" 0 (page w) element index Hi)
    as Ht.
  assert (Hmain :
    exists b : bool,
      ElementHelper.hasClass element className index w = (inr b, w)
      /\ (b = true
          <-> exists e classes,
                Spec.nth_match (page w) element index = Some e
                /\ Driver.assoc "class" (Driver.el_attributes e) = Some classes
                /\ classes <> EmptyString
                /\ In className (JS.split_on " " classes))).
  { unfold ElementHelper.hasClass, ElementHelper.or_on_error, bind, lift, try_catch,
      query, ret, Driver.getAttribute.
    rewrite Hvalid.
    destruct (Spec.nth_match (page w) element index) as [e|].
    - destruct Ht as (p & _ & Ht). rewrite Ht. cbn.
      destruct (Driver.assoc "class" (Driver.el_attributes e)) as [classes|] eqn:Ha.
      + destruct (String.eqb classes EmptyString) eqn:Hempty.
        * apply String.eqb_eq in Hempty. exists false. split; [reflexivity|].
          split; [discriminate|].
          intros (e' & classes' & [= <-] & Ha' & Hne & _).
          rewrite Ha in Ha'. injection Ha' as <-. contradiction.
        * apply String.eqb_neq in Hempty.
          exists (existsb (String.eqb className) (JS.split_on " " classes)).
          split; [reflexivity|]. rewrite existsb_exists. split.
          -- intros (t & Hin & Heq). apply String.eqb_eq in Heq. subst t.
             now exists e, classes.
          -- intros (e' & classes' & [= <-] & Ha' & _ & Hin).
             rewrite Ha in Ha'. injection Ha' as <-.
             exists className. split; [exact Hin|apply String.eqb_refl].
      + exists false. split; [reflexivity|]. split; [discriminate|].
        intros (e' & classes' & [= <-] & Hnone & _).
        rewrite Ha in Hnone. discriminate Hnone.
    - destruct Ht as (_ & Ht & _). rewrite Ht. cbn.
      exists false. split; [reflexivity|]. split; [discriminate|].
      intros (e' & classes' & Hnone & _). discriminate Hnone. }
  destruct Hmain as (b & Hrun & Hiff).
  exists b. split; [exact Hrun|]. split; [exact Hiff|].
  intros Hb. apply Hiff in Hb as (e & classes & Hm & Ha & _ & Hin).
  apply split_on_aux_tokens in Hin as [Hno (before & after & Heq)].
  split; [apply Hno, contains_char_empty|].
  exists e, classes, before, after. repeat split; assumption.
Qed.

Lemma hasClass_finds_single_class_names_witness :
  0 <= 0
  /\ exists b : bool,
      ElementHelper.hasClass (inl "#publish") "btn-primary" 0
        (example_world [primary_button])
      = (inr b, example_world [primary_button])
      /\ (b = true
          <-> exists e classes,
                Spec.nth_match (page (example_world [primary_button]))
                  (inl "#publish") 0 = Some e
                /\ Driver.assoc "class" (Driver.el_attributes e) = Some classes
                /\ classes <> EmptyString
                /\ In "btn-primary" (JS.split_on " " classes))
      /\ (b = true ->
          ~ Spec.contains_char " " "btn-primary"
          /\ exists e classes before after,
               Spec.nth_match (page (example_world [primary_button]))
                 (inl "#publish") 0 = Some e
               /\ Driver.assoc "class" (Driver.el_attributes e) = Some classes
               /\ classes = before ++ "btn-primary" ++ after).
Proof.
  assert (H : 0 <= 0) by lia.
  split; [exact H|].
  apply (hasClass_finds_single_class_names (inl "#publish") "btn-primary" 0
           (example_world [primary_button]) H).
Defined.

(* ===================================================================== *)
(** * Further properties of the logger                                     *)
(* ===================================================================== *)

Section MoreLoggerFacts.

Import SmartLogger.

Lemma log_appends (lv : Level.t) (msg : string) (ctx : JS.Value) (st : State) :
  exists entry,
    logs (log lv msg ctx st) = (logs st ++ [entry])%list
    /\ level entry = lv
    /\ message entry = msg
    /\ testName entry = currentTest st
    /\ context entry = JS.or_else ctx (JS.Obj [])
    /\ category entry = categorizeLog msg lv
    /\ tags entry = generateTags msg lv ctx.
Proof. eexists. repeat split; reflexivity. Qed.

Lemma of_test_app (name : string) (l1 l2 : list LogEntry) :
  Spec.of_test name (l1 ++ l2) = (Spec.of_test name l1 ++ Spec.of_test name l2)%list.
Proof. apply filter_app. Qed.

Lemma generateTestSummary_inv (st : State) (s : TestSummary) :
  generateTestSummary st = inr s ->
  exists suggested,
    generateSuggestions (Spec.of_test (currentTest st) (logs st)) = inr suggested
    /\ s = {| sm_testName := currentTest st;
              totalLogs := List.length (Spec.of_test (currentTest st) (logs st));
              logsByLevel := groupLogsByLevel (Spec.of_test (currentTest st) (logs st));
              logsByCategory :=
                groupLogsByCategory (Spec.of_test (currentTest st) (logs st));
              timeline := generateTimeline (Spec.of_test (currentTest st) (logs st));
              insights := generateInsights (Spec.of_test (currentTest st) (logs st));
              suggestions := suggested;
              performance :=
                summarizePerformance (Spec.of_test (currentTest st) (logs st));
              errors := with_level Level.ERROR (Spec.of_test (currentTest st) (logs st));
              warnings := with_level Level.WARN (Spec.of_test (currentTest st) (logs st)) |}.
Proof.
  unfold generateTestSummary. fold (Spec.of_test (currentTest st) (logs st)).
  destruct (generateSuggestions _) as [e|suggested]; cbn; [discriminate|].
  intros [= <-]. now exists suggested.
Qed.

Lemma level_name_injective (a b : Level.t) : Level.name a = Level.name b -> a = b.
Proof. destruct a, b; cbn; intros H; try reflexivity; discriminate H. Qed.

Lemma level_eqb_eq (a b : Level.t) : Level.eqb a b = true <-> a = b.
Proof.
  unfold Level.eqb. rewrite String.eqb_eq. split; [apply level_name_injective|now intros ->].
Qed.

Lemma category_name_injective (a b : Category.t) :
  Category.name a = Category.name b -> a = b.
Proof. destruct a, b; cbn; intros H; try reflexivity; discriminate H. Qed.

Lemma category_eqb_eq (a b : Category.t) : Category.eqb a b = true <-> a = b.
Proof.
  unfold Category.eqb. rewrite String.eqb_eq.
  split; [apply category_name_injective|now intros ->].
Qed.

(** ** Counting by key *)

Lemma bump_count_same (k : string) (acc : list (string * nat)) :
  Spec.count_of k (bump k acc) = S (Spec.count_of k acc).
Proof.
  induction acc as [|[k' n] rest IH]; cbn.
  - now rewrite String.eqb_refl.
  - destruct (String.eqb k k') eqn:Hk; cbn; rewrite Hk; [reflexivity|exact IH].
Qed.

Lemma bump_count_other (k k' : string) (acc : list (string * nat)) :
  k <> k' -> Spec.count_of k' (bump k acc) = Spec.count_of k' acc.
Proof.
  intros Hne. induction acc as [|[k0 n] rest IH]; cbn.
  - destruct (String.eqb k' k) eqn:Hk; [|reflexivity].
    apply String.eqb_eq in Hk. congruence.
  - destruct (String.eqb k k0) eqn:Hk; cbn.
    + apply String.eqb_eq in Hk. subst k0.
      destruct (String.eqb k' k) eqn:Hk'; [|reflexivity].
      apply String.eqb_eq in Hk'. congruence.
    + now rewrite IH.
Qed.

Lemma bump_total (k : string) (acc : list (string * nat)) :
  Spec.total (bump k acc) = S (Spec.total acc).
Proof.
  unfold Spec.total.
  induction acc as [|[k' n] rest IH]; cbn; [reflexivity|].
  destruct (String.eqb k k'); cbn; [reflexivity|]. rewrite IH. lia.
Qed.

Lemma bump_keys (k : string) (acc : list (string * nat)) :
  map fst (bump k acc)
  = if existsb (String.eqb k) (map fst acc) then map fst acc
    else (map fst acc ++ [k])%list.
Proof.
  induction acc as [|[k' n] rest IH]; cbn; [reflexivity|].
  destruct (String.eqb k k'); cbn; [reflexivity|].
  rewrite IH. now destruct (existsb _ _).
Qed.

Lemma bump_keys_NoDup (k : string) (acc : list (string * nat)) :
  NoDup (map fst acc) -> NoDup (map fst (bump k acc)).
Proof.
  intros Hnd. rewrite bump_keys.
  destruct (existsb (String.eqb k) (map fst acc)) eqn:Hk; [exact Hnd|].
  apply NoDup_app; [exact Hnd|repeat constructor; intros []|].
  intros x Hin [Hx|[]]. subst x.
  assert (existsb (String.eqb k) (map fst acc) = true)
    by (apply existsb_exists; exists k; split; [exact Hin|apply String.eqb_refl]).
  congruence.
Qed.

Lemma bump_positive (k : string) (acc : list (string * nat)) :
  Forall (fun kn => (0 < snd kn)%nat) acc ->
  Forall (fun kn => (0 < snd kn)%nat) (bump k acc).
Proof.
  induction acc as [|[k' n] rest IH]; cbn; intros H.
  - repeat constructor.
  - inversion H as [|? ? Hn Hrest]; subst.
    destruct (String.eqb k k'); constructor; cbn in *; auto; lia.
Qed.

Section Grouping.

Variable key : LogEntry -> string.

Let group (l : list LogEntry) (acc : list (string * nat)) :=
  fold_left (fun acc e => bump (key e) acc) l acc.

Lemma group_total (l : list LogEntry) :
  forall acc, Spec.total (group l acc) = (Spec.total acc + List.length l)%nat.
Proof.
  unfold group.
  induction l as [|e l IH]; intros acc; cbn [fold_left List.length]; [lia|].
  rewrite IH, bump_total. lia.
Qed.

Lemma group_count (l : list LogEntry) (k : string) :
  forall acc,
    Spec.count_of k (group l acc)
    = (Spec.count_of k acc
       + List.length (filter (fun e => String.eqb (key e) k) l))%nat.
Proof.
  unfold group.
  induction l as [|e l IH]; intros acc; cbn [fold_left filter List.length]; [lia|].
  rewrite IH.
  destruct (String.eqb (key e) k) eqn:Hk; cbn [List.length].
  - apply String.eqb_eq in Hk. subst k. rewrite bump_count_same. lia.
  - apply String.eqb_neq in Hk. now rewrite bump_count_other.
Qed.

Lemma group_NoDup (l : list LogEntry) :
  forall acc, NoDup (map fst acc) -> NoDup (map fst (group l acc)).
Proof.
  unfold group.
  induction l as [|e l IH]; intros acc Hnd; cbn [fold_left]; [exact Hnd|].
  apply IH, bump_keys_NoDup, Hnd.
Qed.

Lemma group_positive (l : list LogEntry) :
  forall acc,
    Forall (fun kn => (0 < snd kn)%nat) acc ->
    Forall (fun kn => (0 < snd kn)%nat) (group l acc).
Proof.
  unfold group.
  induction l as [|e l IH]; intros acc H; cbn [fold_left]; [exact H|].
  apply IH, bump_positive, H.
Qed.

End Grouping.

(** ** Categories *)

Lemma categorizeLog_earlier_keyword (msg : string) (lv : Level.t) (keyword : string) :
  In keyword Spec.earlier_keywords ->
  JS.includes (JS.toLowerCase msg) keyword = true ->
  categorizeLog msg lv <> Category.PERFORMANCE
  /\ categorizeLog msg lv <> Category.ERROR
  /\ categorizeLog msg lv <> Category.GENERAL.
Proof.
  intros Hin Hinc. unfold categorizeLog. cbv zeta.
  set (m := JS.toLowerCase msg) in *.
  destruct (JS.includes m "click" || JS.includes m "type" || JS.includes m "select")
    eqn:H1; [repeat split; discriminate|].
  destruct (JS.includes m "navigate" || JS.includes m "page" || JS.includes m "url")
    eqn:H2; [repeat split; discriminate|].
  destruct (JS.includes m "api" || JS.includes m "request" || JS.includes m "response")
    eqn:H3; [repeat split; discriminate|].
  destruct (JS.includes m "assert" || JS.includes m "expect" || JS.includes m "verify")
    eqn:H4; [repeat split; discriminate|].
  destruct (JS.includes m "wait" || JS.includes m "timeout")
    eqn:H5; [repeat split; discriminate|].
  exfalso.
  repeat match goal with
         | H : (_ || _)%bool = false |- _ => apply orb_false_iff in H as [? ?]
         end.
  cbn in Hin.
  repeat (destruct Hin as [<-|Hin]; [congruence|]). exact Hin.
Qed.

(** ** Members of a [Set] *)

Lemma same_value_eq (a b : JS.Value) : same_value a b = true -> a = b.
Proof.
  destruct a, b; cbn; intros H; try discriminate H; try reflexivity.
  - apply Bool.eqb_prop in H. now subst.
  - apply Z.eqb_eq in H. now subst.
  - apply String.eqb_eq in H. now subst.
Qed.

Lemma dedupe_In (l : list JS.Value) :
  forall seen v,
    In v (dedupe seen l) <-> In v l /\ existsb (same_value v) seen = false.
Proof.
  induction l as [|x l IH]; intros seen v; cbn [dedupe].
  - cbn. tauto.
  - destruct (existsb (same_value x) seen) eqn:Hx.
    + rewrite IH. cbn [In]. split; [tauto|].
      intros [[<-|Hin] Hv]; [congruence|tauto].
    + cbn [In]. rewrite IH. cbn [existsb]. rewrite orb_false_iff. split.
      * intros [<-|[Hin [_ Hv]]]; tauto.
      * intros [[<-|Hin] Hv]; [now left|].
        destruct (same_value v x) eqn:Hvx; [left; symmetry; now apply same_value_eq|].
        right. tauto.
Qed.

Lemma dedupe_distinct (l : list JS.Value) :
  forall seen,
    ForallOrdPairs (fun earlier later => same_value later earlier = false)
      (dedupe seen l).
Proof.
  induction l as [|x l IH]; intros seen; cbn [dedupe]; [constructor|].
  destruct (existsb (same_value x) seen); [apply IH|].
  constructor; [|apply IH].
  apply Forall_forall. intros v Hin. apply dedupe_In in Hin as [_ Hv].
  cbn [existsb] in Hv. now apply orb_false_iff in Hv as [Hv _].
Qed.

Lemma dedupe_length (l : list JS.Value) :
  forall seen, (List.length (dedupe seen l) <= List.length l)%nat.
Proof.
  induction l as [|x l IH]; intros seen; cbn [dedupe]; [reflexivity|].
  destruct (existsb _ _); cbn [List.length]; [specialize (IH seen)|specialize (IH (x :: seen))]; lia.
Qed.

End MoreLoggerFacts.

(** X13.  The counts of a test summary agree with one another: the counts
    by level and the counts by category each add up to [totalLogs], which is
    also the length of the timeline; the count under a level's name is the
    number of entries of that level, so that the ERROR and WARN counts are
    the lengths of [errors] and [warnings], and the PERFORMANCE count is
    [totalMeasurements]; no key is listed twice or with a count of zero; and
    the summary never counts more entries than the buffer holds. *)
Theorem summary_counts_are_consistent :
  forall (st : SmartLogger.State) (s : SmartLogger.TestSummary),
    SmartLogger.generateTestSummary st = inr s ->
    Spec.total (SmartLogger.logsByLevel s) = SmartLogger.totalLogs s
    /\ Spec.total (SmartLogger.logsByCategory s) = SmartLogger.totalLogs s
    /\ List.length (SmartLogger.timeline s) = SmartLogger.totalLogs s
    /\ (forall lv,
           Spec.count_of (Level.name lv) (SmartLogger.logsByLevel s)
           = List.length
               (SmartLogger.with_level lv
                  (Spec.of_test (SmartLogger.currentTest st) (SmartLogger.logs st))))
    /\ Spec.count_of "ERROR" (SmartLogger.logsByLevel s)
       = List.length (SmartLogger.errors s)
    /\ Spec.count_of "WARN" (SmartLogger.logsByLevel s)
       = List.length (SmartLogger.warnings s)
    /\ Spec.count_of "PERFORMANCE" (SmartLogger.logsByCategory s)
       = SmartLogger.totalMeasurements (SmartLogger.performance s)
    /\ NoDup (map fst (SmartLogger.logsByLevel s))
    /\ NoDup (map fst (SmartLogger.logsByCategory s))
    /\ Forall (fun kn => (0 < snd kn)%nat) (SmartLogger.logsByLevel s)
    /\ Forall (fun kn => (0 < snd kn)%nat) (SmartLogger.logsByCategory s)
    /\ (SmartLogger.totalLogs s <= List.length (SmartLogger.logs st))%nat.
Proof.
  intros st s Hs. apply generateTestSummary_inv in Hs as (suggested & _ & ->).
  cbn [SmartLogger.logsByLevel SmartLogger.logsByCategory SmartLogger.totalLogs
       SmartLogger.timeline SmartLogger.errors SmartLogger.warnings
       SmartLogger.performance].
  set (testLogs := Spec.of_test (SmartLogger.currentTest st) (SmartLogger.logs st)).
  unfold SmartLogger.groupLogsByLevel, SmartLogger.groupLogsByCategory.
  assert (Hlevel : forall lv,
             Spec.count_of (Level.name lv)
               (fold_left
                  (fun acc e => SmartLogger.bump (Level.name (SmartLogger.level e)) acc)
                  testLogs [])
             = List.length (SmartLogger.with_level lv testLogs)).
  { intros lv.
    rewrite (group_count (fun e => Level.name (SmartLogger.level e)) testLogs
               (Level.name lv) []).
    reflexivity. }
  repeat split.
  - now rewrite (group_total (fun e => Level.name (SmartLogger.level e))).
  - now rewrite (group_total (fun e => Category.name (SmartLogger.category e))).
  - unfold SmartLogger.generateTimeline. apply length_map.
  - exact Hlevel.
  - exact (Hlevel Level.ERROR).
  - exact (Hlevel Level.WARN).
  - rewrite (group_count (fun e => Category.name (SmartLogger.category e)) testLogs
               "PERFORMANCE" []).
    reflexivity.
  - apply group_NoDup. constructor.
  - apply group_NoDup. constructor.
  - apply group_positive. constructor.
  - apply group_positive. constructor.
  - unfold testLogs, Spec.of_test. apply filter_length_le.
Qed.

Lemma summary_counts_are_consistent_witness :
  exists s,
    SmartLogger.generateTestSummary two_tests_logged = inr s
    /\ Spec.total (SmartLogger.logsByLevel s) = SmartLogger.totalLogs s
    /\ Spec.count_of "ERROR" (SmartLogger.logsByLevel s)
       = List.length (SmartLogger.errors s).
Proof.
  assert (H : {s | SmartLogger.generateTestSummary two_tests_logged = inr s}).
  { vm_compute. eexists. reflexivity. }
  destruct H as [s Hs]. exists s. split; [exact Hs|].
  pose proof (summary_counts_are_consistent two_tests_logged s Hs) as Hall.
  split; [exact (proj1 Hall)|].
  exact (proj1 (proj2 (proj2 (proj2 (proj2 Hall))))).
Defined.

(** X14.  A measurement logged by [logPerformance] is filed under
    PERFORMANCE only when no earlier category claims its message: when the
    metric's name contains, in any case, one of the words tested before
    (click, type, select, navigate, page, url, api, request, response,
    assert, expect, verify, wait, timeout), the entry gets another category,
    the performance summary of the test counts and measures nothing more
    than before, and the entry carries no [performance] tag. *)
Theorem logPerformance_keyword_in_metric_escapes_summary :
  forall (metric : string) (value : Z) (threshold : option Z)
         (st : SmartLogger.State) (keyword : string),
    In keyword Spec.earlier_keywords ->
    JS.includes (JS.toLowerCase metric) keyword = true ->
    let st' := SmartLogger.logPerformance metric value threshold st in
    let before :=
      SmartLogger.summarizePerformance
        (Spec.of_test (SmartLogger.currentTest st) (SmartLogger.logs st)) in
    let after :=
      SmartLogger.summarizePerformance
        (Spec.of_test (SmartLogger.currentTest st') (SmartLogger.logs st')) in
    (exists entry,
        SmartLogger.logs st' = (SmartLogger.logs st ++ [entry])%list
        /\ SmartLogger.testName entry = SmartLogger.currentTest st
        /\ SmartLogger.category entry <> Category.PERFORMANCE
        /\ ~ In "performance" (SmartLogger.tags entry))
    /\ SmartLogger.totalMeasurements after = SmartLogger.totalMeasurements before
    /\ SmartLogger.measured after = SmartLogger.measured before.
Proof.
  intros metric value threshold st keyword Hin Hinc st' before after.
  set (msg := "Performance: " ++ metric ++ " = " ++ JS.string_of_Z value ++ "ms").
  set (lv := match SmartLogger.has_threshold threshold with
             | Some t => if t <? value then Level.WARN else Level.INFO
             | None => Level.INFO
             end).
  assert (Hmsg : JS.includes (JS.toLowerCase msg) keyword = true).
  { unfold msg. rewrite !toLowerCase_app.
    now apply includes_app_left, includes_app_right. }
  destruct (categorizeLog_earlier_keyword msg lv keyword Hin Hmsg) as (Hcat & _ & _).
  assert (Heqb : Category.eqb (SmartLogger.categorizeLog msg lv) Category.PERFORMANCE
                 = false).
  { destruct (Category.eqb _ _) eqn:Heq; [|reflexivity].
    apply category_eqb_eq in Heq. contradiction. }
  split; [|split].
  - eexists. split; [reflexivity|]. split; [reflexivity|]. split; [exact Hcat|].
    cbn [SmartLogger.tags]. unfold SmartLogger.generateTags.
    cbn [JS.prop JS.lookup JS.truthy String.eqb Ascii.eqb Bool.eqb app].
    destruct (SmartLogger.has_threshold threshold) as [t|];
      [destruct (t <? value)|];
      destruct (JS.includes _ "screenshot"); cbn;
      intros H; repeat (destruct H as [H|H]; [discriminate H|]); exact H.
  - unfold after, before, st', SmartLogger.logPerformance, SmartLogger.log.
    cbn [SmartLogger.logs SmartLogger.currentTest].
    rewrite of_test_app. unfold SmartLogger.summarizePerformance.
    cbn [SmartLogger.totalMeasurements]. rewrite filter_app, length_app.
    cbn [Spec.of_test filter SmartLogger.testName].
    rewrite String.eqb_refl. cbn [filter SmartLogger.category].
    fold msg lv. rewrite Heqb. cbn. lia.
  - unfold after, before, st', SmartLogger.logPerformance, SmartLogger.log.
    cbn [SmartLogger.logs SmartLogger.currentTest].
    rewrite of_test_app. unfold SmartLogger.summarizePerformance.
    cbn [SmartLogger.measured]. rewrite filter_app, map_app.
    cbn [Spec.of_test filter SmartLogger.testName].
    rewrite String.eqb_refl. cbn [filter SmartLogger.category].
    fold msg lv. rewrite Heqb. cbn [map]. apply app_nil_r.
Qed.

Lemma logPerformance_keyword_in_metric_escapes_summary_witness :
  In "page" Spec.earlier_keywords
  /\ JS.includes (JS.toLowerCase "page_load") "page" = true
  /\ SmartLogger.totalMeasurements
       (SmartLogger.summarizePerformance
          (Spec.of_test "categories"
             (SmartLogger.logs
                (SmartLogger.logPerformance "page_load" 1200 (Some 5000)
                   (example_logger "categories")))))
     = 0%nat.
Proof.
  assert (Hin : In "page" Spec.earlier_keywords) by (cbn; tauto).
  assert (Hinc : JS.includes (JS.toLowerCase "page_load") "page" = true)
    by reflexivity.
  split; [exact Hin|]. split; [exact Hinc|].
  exact (proj1 (proj2 (logPerformance_keyword_in_metric_escapes_summary
                         "page_load" 1200 (Some 5000)
                         (example_logger "categories") "page" Hin Hinc))).
Defined.

(** X15.  The suggestions of a summary are the suggestions collected from
    the entries with each value kept once: a value is among them exactly
    when it was collected, no two of them are the same value, and there are
    no more of them than were collected. *)
Theorem generateSuggestions_keeps_each_value_once :
  forall (l : list SmartLogger.LogEntry) (result : list JS.Value),
    SmartLogger.generateSuggestions l = inr result ->
    exists collected,
      SmartLogger.collect_suggestions l = inr collected
      /\ (forall v, In v result <-> In v collected)
      /\ ForallOrdPairs
           (fun earlier later => SmartLogger.same_value later earlier = false) result
      /\ (List.length result <= List.length collected)%nat.
Proof.
  intros l result. unfold SmartLogger.generateSuggestions.
  destruct (SmartLogger.collect_suggestions l) as [e|collected]; cbn;
    [discriminate|].
  intros [= <-]. exists collected. split; [reflexivity|]. split; [|split].
  - intros v. rewrite dedupe_In. cbn. tauto.
  - apply dedupe_distinct.
  - apply dedupe_length.
Qed.

Lemma generateSuggestions_keeps_each_value_once_witness :
  exists result collected,
    SmartLogger.generateSuggestions
      (SmartLogger.logs
         (SmartLogger.logError closed_error (Some (inr quiet_report))
            (SmartLogger.logError closed_error (Some (inr quiet_report))
               (example_logger "login")))) = inr result
    /\ SmartLogger.collect_suggestions
         (SmartLogger.logs
            (SmartLogger.logError closed_error (Some (inr quiet_report))
               (SmartLogger.logError closed_error (Some (inr quiet_report))
                  (example_logger "login")))) = inr collected
    /\ (forall v, In v result <-> In v collected)
    /\ List.length collected = 6%nat
    /\ List.length result = 3%nat.
Proof.
  assert (H : {result |
               SmartLogger.generateSuggestions
                 (SmartLogger.logs
                    (SmartLogger.logError closed_error (Some (inr quiet_report))
                       (SmartLogger.logError closed_error (Some (inr quiet_report))
                          (example_logger "login")))) = inr result
               /\ List.length result = 3%nat}).
  { vm_compute. eexists. split; reflexivity. }
  destruct H as [result [Hr Hlen]].
  destruct (generateSuggestions_keeps_each_value_once _ result Hr)
    as (collected & Hc & Hiff & _ & _).
  exists result, collected. split; [exact Hr|]. split; [exact Hc|].
  split; [exact Hiff|]. split; [|exact Hlen].
  revert Hc. vm_compute. intros [= <-]. reflexivity.
Defined.

(** X16.  The step number that [logUserAction] records is one more than the
    number of ACTION entries logged under the active test's name: it grows
    by one with each user action, entries of other levels do not move it,
    and [clearTestLogs] sets it back to 1.  [initializeTest] does not set it
    back: a test started under a name that the buffer already holds goes on
    from the number of that name's actions. *)
Theorem step_numbers_count_actions_of_active_test :
  forall (st : SmartLogger.State) (action : string) (element value : option string),
    (exists entry,
        SmartLogger.logs (SmartLogger.logUserAction action element value st)
        = (SmartLogger.logs st ++ [entry])%list
        /\ SmartLogger.level entry = Level.ACTION
        /\ SmartLogger.testName entry = SmartLogger.currentTest st
        /\ JS.prop (SmartLogger.context entry) "step"
           = JS.Num (Z.of_nat (SmartLogger.getCurrentStepNumber st)))
    /\ SmartLogger.getCurrentStepNumber
         (SmartLogger.logUserAction action element value st)
       = S (SmartLogger.getCurrentStepNumber st)
    /\ (forall lv msg ctx,
           lv <> Level.ACTION ->
           SmartLogger.getCurrentStepNumber (SmartLogger.log lv msg ctx st)
           = SmartLogger.getCurrentStepNumber st)
    /\ SmartLogger.getCurrentStepNumber (SmartLogger.clearTestLogs st) = 1%nat
    /\ (forall name,
           SmartLogger.getCurrentStepNumber (SmartLogger.initializeTest name st)
           = S (List.length
                  (SmartLogger.with_level Level.ACTION
                     (Spec.of_test name (SmartLogger.logs st))))).
Proof.
  intros st action element value.
  assert (Hstep : forall lv msg ctx st0,
             SmartLogger.getCurrentStepNumber (SmartLogger.log lv msg ctx st0)
             = (SmartLogger.getCurrentStepNumber st0
                + if Level.eqb lv Level.ACTION then 1 else 0)%nat).
  { intros lv msg ctx st0. unfold SmartLogger.getCurrentStepNumber, SmartLogger.log.
    cbn [SmartLogger.logs SmartLogger.currentTest].
    rewrite filter_app, length_app.
    cbn [filter SmartLogger.testName SmartLogger.level].
    rewrite String.eqb_refl. cbn [andb].
    destruct (Level.eqb lv Level.ACTION); cbn [List.length]; lia. }
  split; [|split; [|split; [|split]]].
  - eexists. split; [reflexivity|]. split; [reflexivity|]. split; [reflexivity|].
    reflexivity.
  - unfold SmartLogger.logUserAction. rewrite Hstep.
    change (Level.eqb Level.ACTION Level.ACTION) with true. cbv iota. lia.
  - intros lv msg ctx Hlv. rewrite Hstep.
    destruct (Level.eqb lv Level.ACTION) eqn:Heq; [|lia].
    apply level_eqb_eq in Heq. contradiction.
  - unfold SmartLogger.getCurrentStepNumber, SmartLogger.clearTestLogs,
      SmartLogger.with_logs.
    cbn [SmartLogger.logs SmartLogger.currentTest].
    assert (Hnone : forall l,
               filter (fun e => String.eqb (SmartLogger.testName e)
                                  (SmartLogger.currentTest st)
                                && Level.eqb (SmartLogger.level e) Level.ACTION)
                 (filter (fun e => negb (String.eqb (SmartLogger.testName e)
                                           (SmartLogger.currentTest st))) l) = []).
    { induction l as [|e l IH]; cbn; [reflexivity|].
      destruct (String.eqb (SmartLogger.testName e) (SmartLogger.currentTest st))
        eqn:He; cbn; [exact IH|]. now rewrite He. }
    now rewrite Hnone.
  - intros name. unfold SmartLogger.initializeTest. rewrite Hstep.
    change (Level.eqb Level.INFO Level.ACTION) with false. cbv iota.
    unfold SmartLogger.getCurrentStepNumber. cbn [SmartLogger.logs SmartLogger.currentTest].
    rewrite Nat.add_0_r. f_equal. f_equal.
    unfold SmartLogger.with_level, Spec.of_test.
    induction (SmartLogger.logs st) as [|e l IH]; cbn; [reflexivity|].
    destruct (String.eqb (SmartLogger.testName e) name); cbn;
      [destruct (Level.eqb _ _); now rewrite IH|exact IH].
Qed.

(** X17.  What an export takes from the whole buffer and what from the
    active test only: an entry logged under another test's name is in the
    detailed logs, and in the user actions log when it is an action, but in
    no timeline, no error analysis and no list of the summary; the timeline
    has one item for each entry of the active test. *)
Theorem exportForReporting_mixes_buffer_and_active_test :
  forall (st : SmartLogger.State) (attachments : list SmartLogger.AllureAttachment)
         (other : SmartLogger.LogEntry),
    SmartLogger.exportForReporting st = inr attachments ->
    In other (SmartLogger.logs st) ->
    SmartLogger.testName other <> SmartLogger.currentTest st ->
    (exists a, In a attachments
               /\ SmartLogger.att_content a = SmartLogger.JsonLogs (SmartLogger.logs st))
    /\ (exists a actions,
           In a attachments
           /\ SmartLogger.att_content a = SmartLogger.ActionSteps actions
           /\ (SmartLogger.level other = Level.ACTION -> In other actions))
    /\ (forall a found,
           In a attachments ->
           SmartLogger.att_content a = SmartLogger.ErrorAnalysis found ->
           ~ In other found)
    /\ (forall a summary,
           In a attachments ->
           SmartLogger.att_content a = SmartLogger.JsonSummary summary ->
           ~ In other (SmartLogger.errors summary)
           /\ ~ In other (SmartLogger.warnings summary)
           /\ (SmartLogger.totalLogs summary < List.length (SmartLogger.logs st))%nat)
    /\ (forall a items,
           In a attachments ->
           SmartLogger.att_content a = SmartLogger.TimelineHTML items ->
           List.length items
           = List.length
               (Spec.of_test (SmartLogger.currentTest st) (SmartLogger.logs st))).
Proof.
  intros st attachments other Hexport Hin Hother.
  unfold SmartLogger.exportForReporting in Hexport.
  destruct (SmartLogger.generateTestSummary st) as [e|summary] eqn:Hsum;
    cbn [bindO] in Hexport; [discriminate Hexport|].
  apply generateTestSummary_inv in Hsum as (suggested & _ & Hsummary).
  set (testLogs := Spec.of_test (SmartLogger.currentTest st) (SmartLogger.logs st))
    in *.
  assert (Hnot : ~ In other testLogs).
  { unfold testLogs, Spec.of_test. rewrite filter_In. intros [_ Heq].
    apply String.eqb_eq in Heq. contradiction. }
  assert (Hshort : (List.length testLogs < List.length (SmartLogger.logs st))%nat).
  { unfold testLogs, Spec.of_test.
    clear - Hin Hother. induction (SmartLogger.logs st) as [|x l IH]; [destruct Hin|].
    cbn [filter]. destruct Hin as [->|Hin].
    - replace (String.eqb (SmartLogger.testName other) (SmartLogger.currentTest st))
        with false by (symmetry; now apply String.eqb_neq).
      pose proof (filter_length_le
                    (fun e => String.eqb (SmartLogger.testName e)
                                (SmartLogger.currentTest st)) l).
      cbn [List.length]. lia.
    - specialize (IH Hin).
      destruct (String.eqb _ _); cbn [List.length]; lia. }
  injection Hexport as <-.
  assert (Herrors : SmartLogger.errors summary
                    = SmartLogger.with_level Level.ERROR testLogs)
    by now rewrite Hsummary.
  assert (Hcases : forall a,
             In a ([{| SmartLogger.att_name := "🔍 Error Analysis & Suggestions";
                       SmartLogger.att_content :=
                         SmartLogger.ErrorAnalysis (SmartLogger.errors summary);
                       SmartLogger.att_type := "text/markdown" |}]) ->
             SmartLogger.att_content a
             = SmartLogger.ErrorAnalysis (SmartLogger.errors summary)).
  { intros a [<-|[]]. reflexivity. }
  split; [|split; [|split; [|split]]].
  - eexists. split; [left; reflexivity|reflexivity].
  - eexists. eexists. split; [do 3 right; left; reflexivity|].
    split; [reflexivity|].
    intros Hlevel. unfold SmartLogger.with_level. apply filter_In.
    split; [exact Hin|]. now apply level_eqb_eq.
  - intros a found Ha Hcontent.
    assert (Hfound : found = SmartLogger.errors summary).
    { cbn [app In] in Ha.
      destruct Ha as [<-|[<-|[<-|[<-|Ha]]]]; try discriminate Hcontent.
      apply in_app_or in Ha as [Ha|Ha].
      - destruct (SmartLogger.errors summary); [destruct Ha|].
        apply Hcases in Ha. congruence.
      - destruct (Nat.ltb _ _); [|destruct Ha].
        destruct Ha as [<-|[]]. discriminate Hcontent. }
    rewrite Hfound, Herrors. unfold SmartLogger.with_level. rewrite filter_In.
    tauto.
  - intros a summary' Ha Hcontent.
    assert (Hsame : summary' = summary).
    { cbn [app In] in Ha.
      destruct Ha as [<-|[<-|[<-|[<-|Ha]]]]; try discriminate Hcontent.
      - now injection Hcontent as <-.
      - apply in_app_or in Ha as [Ha|Ha].
        + destruct (SmartLogger.errors summary); [destruct Ha|].
          apply Hcases in Ha. congruence.
        + destruct (Nat.ltb _ _); [|destruct Ha].
          destruct Ha as [<-|[]]. discriminate Hcontent. }
    rewrite Hsame, Hsummary.
    cbn [SmartLogger.errors SmartLogger.warnings SmartLogger.totalLogs].
    unfold SmartLogger.with_level. rewrite !filter_In. tauto.
  - intros a items Ha Hcontent.
    assert (Hitems : items = SmartLogger.timeline summary).
    { cbn [app In] in Ha.
      destruct Ha as [<-|[<-|[<-|[<-|Ha]]]]; try discriminate Hcontent.
      - now injection Hcontent as <-.
      - apply in_app_or in Ha as [Ha|Ha].
        + destruct (SmartLogger.errors summary); [destruct Ha|].
          apply Hcases in Ha. congruence.
        + destruct (Nat.ltb _ _); [|destruct Ha].
          destruct Ha as [<-|[]]. discriminate Hcontent. }
    rewrite Hitems, Hsummary. cbn [SmartLogger.timeline].
    unfold SmartLogger.generateTimeline. apply length_map.
Qed.

Lemma exportForReporting_mixes_buffer_and_active_test_witness :
  exists attachments other,
    SmartLogger.exportForReporting two_tests_logged = inr attachments
    /\ In other (SmartLogger.logs two_tests_logged)
    /\ SmartLogger.testName other <> SmartLogger.currentTest two_tests_logged
    /\ SmartLogger.level other = Level.ACTION
    /\ exists a actions,
         In a attachments
         /\ SmartLogger.att_content a = SmartLogger.ActionSteps actions
         /\ (SmartLogger.level other = Level.ACTION -> In other actions).
Proof.
  assert (Ha : {attachments |
                SmartLogger.exportForReporting two_tests_logged = inr attachments}).
  { vm_compute. eexists. reflexivity. }
  destruct Ha as [attachments Ha].
  assert (Ho : {other |
                In other (SmartLogger.logs two_tests_logged)
                /\ SmartLogger.testName other <> SmartLogger.currentTest two_tests_logged
                /\ SmartLogger.level other = Level.ACTION}).
  { vm_compute. eexists. split; [right; left; reflexivity|].
    split; [discriminate|reflexivity]. }
  destruct Ho as [other (Hin & Hname & Hlevel)].
  exists attachments, other.
  split; [exact Ha|]. split; [exact Hin|]. split; [exact Hname|].
  split; [exact Hlevel|].
  exact (proj1 (proj2 (exportForReporting_mixes_buffer_and_active_test
                         two_tests_logged attachments other Ha Hin Hname))).
Defined.

(** X18.  An error logged by [logError] is in the next export's error
    analysis: whatever the inspection gave, the buffer gains one ERROR entry
    of the active test with the error's message, and an export that returns
    has an error analysis attachment holding it.  The entry is tagged
    [auto-diagnosed] exactly when the page was inspected and suggestions
    were generated. *)
Theorem logged_error_reaches_error_analysis :
  forall (error : Error)
         (inspection : option (Outcome ErrorInspector.PageInspectionReport))
         (st : SmartLogger.State)
         (attachments : list SmartLogger.AllureAttachment),
    SmartLogger.exportForReporting (SmartLogger.logError error inspection st)
    = inr attachments ->
    exists entry a found,
      SmartLogger.logs (SmartLogger.logError error inspection st)
      = (SmartLogger.logs st ++ [entry])%list
      /\ SmartLogger.level entry = Level.ERROR
      /\ SmartLogger.message entry = err_message error
      /\ SmartLogger.testName entry = SmartLogger.currentTest st
      /\ In a attachments
      /\ SmartLogger.att_content a = SmartLogger.ErrorAnalysis found
      /\ In entry found
      /\ (In "auto-diagnosed" (SmartLogger.tags entry)
          <-> exists report suggestions,
                inspection = Some (inr report)
                /\ ErrorInspector.generateFailureSuggestions report = inr suggestions).
Proof.
  intros error inspection st attachments Hexport.
  unfold SmartLogger.exportForReporting in Hexport.
  destruct (SmartLogger.generateTestSummary _) as [e|summary] eqn:Hsum;
    cbn [bindO] in Hexport; [discriminate Hexport|].
  apply generateTestSummary_inv in Hsum as (suggested & _ & Hsummary).
  injection Hexport as <-.
  destruct (log_appends Level.ERROR (err_message error)
              (JS.Obj
                 ([("name", JS.Str (err_name error));
                   ("message", JS.Str (err_message error));
                   ("stack",
                     match err_stack error with
                     | Some text =>
                         JS.Arr (map JS.Str (firstn 5 (JS.split_lines text)))
                     | None => JS.Undefined
                     end);
                   ("testName", JS.Str (SmartLogger.currentTest st))]
                  ++ SmartLogger.inspection_fields inspection)%list) st)
    as (entry & Hlogs & Hlevel & Hmessage & Hname & _ & _ & Htags).
  fold (SmartLogger.logError error inspection st) in Hlogs.
  assert (Hfound : In entry (SmartLogger.errors summary)).
  { rewrite Hsummary. cbn [SmartLogger.errors].
    unfold SmartLogger.with_level, Spec.of_test. rewrite !filter_In.
    split; [split|].
    - rewrite Hlogs. apply in_or_app. right. now left.
    - rewrite Hname. apply String.eqb_refl.
    - rewrite Hlevel. reflexivity. }
  exists entry,
    {| SmartLogger.att_name := "🔍 Error Analysis & Suggestions";
       SmartLogger.att_content := SmartLogger.ErrorAnalysis (SmartLogger.errors summary);
       SmartLogger.att_type := "text/markdown" |},
    (SmartLogger.errors summary).
  split; [exact Hlogs|]. split; [exact Hlevel|]. split; [exact Hmessage|].
  split; [exact Hname|]. split; [|split; [reflexivity|split; [exact Hfound|]]].
  - cbn [app In]. do 4 right. apply in_or_app. left.
    destruct (SmartLogger.errors summary); [destruct Hfound|now left].
  - rewrite Htags. unfold SmartLogger.generateTags.
    cbn [JS.prop JS.lookup app String.eqb Ascii.eqb Bool.eqb Level.name JS.toLowerCase
         JS.truthy].
    assert (Hvisual : forall l : list string,
               (forall x, In x l -> x = "visual") -> ~ In "auto-diagnosed" l).
    { intros l Hl Hin. apply Hl in Hin. discriminate Hin. }
    assert (Hv : ~ In "auto-diagnosed"
                   (if JS.includes (err_message error) "screenshot"
                    then ["visual"] else [])).
    { apply Hvisual. intros x. destruct (JS.includes _ _); cbn; intuition. }
    destruct inspection as [[e|report]|]; cbn.
    + split; [intros [H|H]; [discriminate H|contradiction]|].
      intros (report & suggestions & H & _). discriminate H.
    + unfold SmartLogger.inspection_fields.
      destruct (ErrorInspector.generateFailureSuggestions report)
        as [e|suggestions] eqn:Hgen; cbn.
      * split; [intros [H|H]; [discriminate H|contradiction]|].
        intros (report' & suggestions' & [= <-] & Hgen'). congruence.
      * destruct (SmartLogger.errorElements report); cbn;
          (split; [intros _; now exists report, suggestions|intros _; right; now left]).
    + split; [intros [H|H]; [discriminate H|contradiction]|].
      intros (report & suggestions & H & _). discriminate H.
Qed.

Lemma logged_error_reaches_error_analysis_witness :
  exists attachments entry a found,
    SmartLogger.exportForReporting
      (SmartLogger.logError closed_error (Some (inr quiet_report))
         (example_logger "login")) = inr attachments
    /\ In a attachments
    /\ SmartLogger.att_content a = SmartLogger.ErrorAnalysis found
    /\ In entry found
    /\ SmartLogger.level entry = Level.ERROR
    /\ SmartLogger.message entry = err_message closed_error.
Proof.
  assert (H : {attachments |
               SmartLogger.exportForReporting
                 (SmartLogger.logError closed_error (Some (inr quiet_report))
                    (example_logger "login")) = inr attachments}).
  { vm_compute. eexists. reflexivity. }
  destruct H as [attachments Ha].
  destruct (logged_error_reaches_error_analysis closed_error
              (Some (inr quiet_report)) (example_logger "login") attachments Ha)
    as (entry & a & found & _ & Hlevel & Hmessage & _ & Hin & Hcontent & Hfound & _).
  exists attachments, entry, a, found.
  split; [exact Ha|]. split; [exact Hin|]. split; [exact Hcontent|].
  split; [exact Hfound|]. split; [exact Hlevel|exact Hmessage].
Defined.

(* ===================================================================== *)
(** * Further properties of [enterValue]                                   *)
(* ===================================================================== *)





(* ===================================================================== *)
(** * From the inspected page to the suggestions                           *)
(* ===================================================================== *)

Section InspectionFacts.

Import ErrorInspector.

Variable pg : Driver.Page.

Lemma first_match (selector : string) :
  match Spec.nth_match pg (inl selector) 0 with
  | Some e =>
      (0 < Driver.count pg (Driver.Loc selector))%nat
      /\ Driver.isVisible pg (Inspector.first (Driver.Loc selector))
         = inr (Driver.el_visible e)
      /\ Driver.textContent 0 pg (Inspector.first (Driver.Loc selector))
         = inr (Driver.el_textContent e)
  | None => Driver.count pg (Driver.Loc selector) = 0%nat
  end.
Proof.
  pose proof (target_createLocator "locator.isVisible" 0 pg (inl selector) 0
                (Z.le_refl 0)) as Hv.
  pose proof (target_createLocator "locator.textContent" 0 pg (inl selector) 0
                (Z.le_refl 0)) as Ht.
  change (ElementHelper.createLocator (inl selector) 0)
    with (Inspector.first (Driver.Loc selector)) in Hv, Ht.
  change (ElementHelper.asLocator (inl selector)) with (Driver.Loc selector) in Hv, Ht.
  destruct (Spec.nth_match pg (inl selector) 0) as [e|] eqn:Hm.
  - destruct Hv as (p & Hr & Hv), Ht as (q & _ & Ht). split; [|split].
    + unfold Spec.nth_match in Hm. cbn [ElementHelper.asLocator] in Hm.
      unfold Driver.count.
      destruct (Driver.resolve pg (Driver.Loc selector)); [discriminate Hm|cbn; lia].
    + unfold Driver.isVisible. rewrite Hr, Hv. reflexivity.
    + unfold Driver.textContent. rewrite Ht. reflexivity.
  - destruct Hv as (_ & _ & Hle). cbn in Hle. lia.
Qed.

Lemma inspect_error_entry (selector : string) :
  Inspector.inspect_error pg selector
  = match Spec.nth_match pg (inl selector) 0 with
    | Some e =>
        [(selector,
          Inspector.element_data (Driver.count pg (Driver.Loc selector))
            (Driver.el_visible e) (Driver.el_textContent e))]
    | None => []
    end.
Proof.
  unfold Inspector.inspect_error. pose proof (first_match selector) as H.
  destruct (Spec.nth_match pg (inl selector) 0) as [e|].
  - destruct H as (Hc & Hv & Ht). rewrite Hv, Ht.
    apply Nat.ltb_lt in Hc. now rewrite Hc.
  - now rewrite H.
Qed.

Lemma inspect_loading_entry (selector : string) :
  Inspector.inspect_loading pg selector
  = match Spec.nth_match pg (inl selector) 0 with
    | Some e =>
        if Driver.el_visible e
        then [("loading_" ++ selector,
               Inspector.element_data (Driver.count pg (Driver.Loc selector))
                 true (Driver.el_textContent e))]
        else []
    | None => []
    end.
Proof.
  unfold Inspector.inspect_loading. pose proof (first_match selector) as H.
  destruct (Spec.nth_match pg (inl selector) 0) as [e|].
  - destruct H as (Hc & Hv & Ht). rewrite Hv, Ht.
    apply Nat.ltb_lt in Hc. rewrite Hc. now destruct (Driver.el_visible e).
  - now rewrite H.
Qed.

(** Every datum is an object or a boolean. *)
Lemma inspectErrorElements_present :
  forall selector data,
    In (selector, data) (Inspector.inspectErrorElements pg) ->
    data <> JS.Undefined /\ data <> JS.Null.
Proof.
  intros selector data Hin. unfold Inspector.inspectErrorElements in Hin.
  apply in_app_or in Hin as [Hin|Hin]; [|apply in_app_or in Hin as [Hin|Hin]].
  - apply in_flat_map in Hin as (s & _ & Hin). rewrite inspect_error_entry in Hin.
    destruct (Spec.nth_match pg (inl s) 0); [|destruct Hin].
    destruct Hin as [[= <- <-]|[]]. split; discriminate.
  - apply in_flat_map in Hin as (s & _ & Hin). rewrite inspect_loading_entry in Hin.
    destruct (Spec.nth_match pg (inl s) 0) as [e|]; [|destruct Hin].
    destruct (Driver.el_visible e); [|destruct Hin].
    destruct Hin as [[= <- <-]|[]]. split; discriminate.
  - apply in_map_iff in Hin as (s & [= <- <-] & _). split; discriminate.
Qed.

Lemma elements_suggestions_In (entries : list (string * JS.Value)) :
  forall l entry here s,
    elements_suggestions entries = inr l ->
    In entry entries ->
    element_suggestions entry = inr here ->
    In s here ->
    In s l.
Proof.
  induction entries as [|x rest IH]; intros l entry here s Hl Hin Hhere Hs;
    [destruct Hin|].
  cbn [elements_suggestions] in Hl.
  destruct (element_suggestions x) as [e|hx] eqn:Hx; cbn [bindO] in Hl;
    [discriminate Hl|].
  destruct (elements_suggestions rest) as [e|lr] eqn:Hr; cbn [bindO] in Hl;
    [discriminate Hl|].
  injection Hl as <-. apply in_or_app. destruct Hin as [->|Hin].
  - left. rewrite Hhere in Hx. now injection Hx as <-.
  - right. now apply (IH lr entry here s).
Qed.

Lemma error_selectors_are_not_loading :
  forall selector,
    In selector Inspector.errorSelectors -> JS.includes selector "loading" = false.
Proof.
  intros selector Hin. cbn in Hin.
  repeat (destruct Hin as [<-|Hin]; [reflexivity|]). destruct Hin.
Qed.

Lemma common_keys_are_quiet :
  forall selector,
    In selector Inspector.commonSelectors ->
    JS.includes ("exists_" ++ selector) "error" = false
    /\ JS.includes ("exists_" ++ selector) "loading" = false.
Proof.
  intros selector Hin. cbn in Hin.
  repeat (destruct Hin as [<-|Hin]; [split; reflexivity|]). destruct Hin.
Qed.

Lemma loading_keys_are_loading (selector : string) :
  JS.includes ("loading_" ++ selector) "loading" = true.
Proof. apply (includes_prefix "loading" ("_" ++ selector)). Qed.

Lemma error_entry_suggestions (selector : string) (count : nat) (text : option string) :
  JS.includes selector "error" = true ->
  exists rest,
    element_suggestions (selector, Inspector.element_data count true text)
    = inr (SUGGEST_ERROR_ELEMENT
             match text with Some t => t | None => "null" end :: rest).
Proof.
  intros Herr. unfold element_suggestions. rewrite Herr. cbn.
  destruct (JS.includes selector "loading"); destruct text; cbn; eexists; reflexivity.
Qed.

Lemma loading_entry_suggestions (selector : string) (count : nat) (text : option string) :
  exists before,
    element_suggestions
      ("loading_" ++ selector, Inspector.element_data count true text)
    = inr (before ++ [SUGGEST_LOADING])%list.
Proof.
  unfold element_suggestions. rewrite loading_keys_are_loading.
  destruct (JS.includes ("loading_" ++ selector) "error"); cbn.
  - eexists [_]. reflexivity.
  - now exists [].
Qed.

Lemma generateFailureSuggestions_specific (report : PageInspectionReport)
  (from_elements : list string) :
  elements_suggestions (elements report) = inr from_elements ->
  exists specific,
    specific_suggestions report = inr specific
    /\ (forall s, In s from_elements -> In s specific)
    /\ (specific <> [] -> generateFailureSuggestions report = inr specific)
    /\ exists l, generateFailureSuggestions report = inr l /\ l <> [].
Proof.
  intros Hel. unfold generateFailureSuggestions, specific_suggestions.
  rewrite Hel. cbn [bindO]. eexists. split; [reflexivity|].
  match goal with |- context [match ?l with [] => _ | _ :: _ => _ end] =>
    set (specific := l) end.
  split; [|split].
  - intros s Hs. unfold specific. apply in_or_app. right. apply in_or_app. now left.
  - intros Hne. destruct specific; [contradiction|reflexivity].
  - destruct specific; eexists; (split; [reflexivity|discriminate]).
Qed.

End InspectionFacts.

(** X20.  What [inspectErrorElements] stores is always safe for
    [generateFailureSuggestions]: every datum is an object or a boolean, so
    on a report whose elements it collected the suggestions are returned and
    are not empty.  Each error selector has an entry exactly when it matches
    a node, holding the count and the visibility and text of the first match,
    and each common selector has its [exists_] entry. *)
Theorem inspected_elements_never_break_suggestions :
  forall (pg : Driver.Page) (report : ErrorInspector.PageInspectionReport),
    ErrorInspector.elements report = Inspector.inspectErrorElements pg ->
    Spec.elements_present report
    /\ (exists suggestions,
           ErrorInspector.generateFailureSuggestions report = inr suggestions
           /\ suggestions <> [])
    /\ (forall selector,
           In selector Inspector.errorSelectors ->
           match Spec.nth_match pg (inl selector) 0 with
           | Some e =>
               In (selector,
                   Inspector.element_data (Driver.count pg (Driver.Loc selector))
                     (Driver.el_visible e) (Driver.el_textContent e))
                 (ErrorInspector.elements report)
           | None =>
               forall data, ~ In (selector, data) (ErrorInspector.elements report)
           end)
    /\ (forall selector,
           In selector Inspector.commonSelectors ->
           In ("exists_" ++ selector,
               JS.Bool (Nat.ltb 0 (Driver.count pg (Driver.Loc selector))))
             (ErrorInspector.elements report)).
Proof.
  intros pg report Hel.
  assert (Hpresent : Spec.elements_present report).
  { unfold Spec.elements_present. rewrite Hel. apply inspectErrorElements_present. }
  split; [exact Hpresent|]. split; [|split].
  - destruct (elements_suggestions_returns _ Hpresent) as [from_elements Hfrom].
    now destruct (generateFailureSuggestions_specific report from_elements Hfrom)
      as (_ & _ & _ & _ & Hl).
  - intros selector Hin. rewrite Hel. unfold Inspector.inspectErrorElements.
    destruct (Spec.nth_match pg (inl selector) 0) as [e|] eqn:Hm.
    + apply in_or_app. left. apply in_flat_map. exists selector.
      split; [exact Hin|]. rewrite inspect_error_entry, Hm. now left.
    + intros data Hdata.
      apply in_app_or in Hdata as [Hd|Hd]; [|apply in_app_or in Hd as [Hd|Hd]].
      * apply in_flat_map in Hd as (s & _ & Hd). rewrite inspect_error_entry in Hd.
        destruct (Spec.nth_match pg (inl s) 0) as [e|] eqn:Hs; [|destruct Hd].
        destruct Hd as [[= -> _]|[]]. congruence.
      * apply in_flat_map in Hd as (s & _ & Hd). rewrite inspect_loading_entry in Hd.
        destruct (Spec.nth_match pg (inl s) 0) as [e|]; [|destruct Hd].
        destruct (Driver.el_visible e); [|destruct Hd].
        destruct Hd as [[= Hkey _]|[]].
        pose proof (error_selectors_are_not_loading selector Hin) as Hn.
        rewrite <- Hkey in Hn.
        exact (eq_true_false_abs _ (loading_keys_are_loading s) Hn).
      * apply in_map_iff in Hd as (s & [= Hkey _] & Hs).
        clear - Hin Hkey. cbn in Hin.
        repeat (destruct Hin as [<-|Hin]; [discriminate Hkey|]). destruct Hin.
  - intros selector Hin. rewrite Hel. unfold Inspector.inspectErrorElements.
    apply in_or_app. right. apply in_or_app. right.
    apply in_map_iff. exists selector. split; [reflexivity|exact Hin].
Qed.

(** X21.  From the page to the suggestions: when the first match of an
    error selector whose name contains [error] is visible, the suggestions
    quote its text (or [null] when it has none); when the first match of a
    loading selector is visible, they hold the loading suggestion; in both
    cases the generic fallback is not used.  When no such first match is
    visible the elements give no suggestion at all: a visible
    [.alert-danger], [[role=alert]] or [.wp-die-message] is recorded in the
    report but never suggested. *)
Theorem visible_error_element_is_quoted :
  forall (pg : Driver.Page) (report : ErrorInspector.PageInspectionReport),
    ErrorInspector.elements report = Inspector.inspectErrorElements pg ->
    (forall selector e,
        In selector Inspector.errorSelectors ->
        JS.includes selector "error" = true ->
        Spec.nth_match pg (inl selector) 0 = Some e ->
        Driver.el_visible e = true ->
        exists suggestions,
          ErrorInspector.specific_suggestions report = inr suggestions
          /\ ErrorInspector.generateFailureSuggestions report = inr suggestions
          /\ In (ErrorInspector.SUGGEST_ERROR_ELEMENT
                   match Driver.el_textContent e with
                   | Some text => text
                   | None => "null"
                   end) suggestions)
    /\ (forall selector e,
           In selector Inspector.loadingSelectors ->
           Spec.nth_match pg (inl selector) 0 = Some e ->
           Driver.el_visible e = true ->
           exists suggestions,
             ErrorInspector.specific_suggestions report = inr suggestions
             /\ ErrorInspector.generateFailureSuggestions report = inr suggestions
             /\ In ErrorInspector.SUGGEST_LOADING suggestions)
    /\ ((forall selector e,
            In selector Inspector.errorSelectors ->
            JS.includes selector "error" = true ->
            Spec.nth_match pg (inl selector) 0 = Some e ->
            Driver.el_visible e = false)
        -> (forall selector e,
               In selector Inspector.loadingSelectors ->
               Spec.nth_match pg (inl selector) 0 = Some e ->
               Driver.el_visible e = false)
        -> ErrorInspector.elements_suggestions (ErrorInspector.elements report)
           = inr []).
Proof.
  intros pg report Hel.
  assert (Hpresent : Spec.elements_present report).
  { unfold Spec.elements_present. rewrite Hel. apply inspectErrorElements_present. }
  destruct (elements_suggestions_returns _ Hpresent) as [from_elements Hfrom].
  destruct (generateFailureSuggestions_specific report from_elements Hfrom)
    as (specific & Hspec & Hsub & Hgen & _).
  split; [|split].
  - intros selector e Hin Herr Hm Hvis.
    destruct (error_entry_suggestions selector
                (Driver.count pg (Driver.Loc selector)) (Driver.el_textContent e) Herr)
      as [rest Hhere].
    assert (Hs : In (ErrorInspector.SUGGEST_ERROR_ELEMENT
                       match Driver.el_textContent e with
                       | Some text => text
                       | None => "null"
                       end) specific).
    { apply Hsub.
      apply (elements_suggestions_In (ErrorInspector.elements report) from_elements
               _ _ _ Hfrom) with (3 := or_introl eq_refl) (2 := Hhere).
      rewrite Hel. unfold Inspector.inspectErrorElements.
      apply in_or_app. left. apply in_flat_map. exists selector.
      split; [exact Hin|]. rewrite inspect_error_entry, Hm, Hvis. now left. }
    exists specific. split; [exact Hspec|]. split; [|exact Hs].
    apply Hgen. intros ->. destruct Hs.
  - intros selector e Hin Hm Hvis.
    destruct (loading_entry_suggestions selector
                (Driver.count pg (Driver.Loc selector)) (Driver.el_textContent e))
      as [before Hhere].
    assert (Hs : In ErrorInspector.SUGGEST_LOADING specific).
    { apply Hsub.
      apply (elements_suggestions_In (ErrorInspector.elements report) from_elements
               _ _ _ Hfrom) with (2 := Hhere).
      - rewrite Hel. unfold Inspector.inspectErrorElements.
        apply in_or_app. right. apply in_or_app. left.
        apply in_flat_map. exists selector.
        split; [exact Hin|]. rewrite inspect_loading_entry, Hm, Hvis. now left.
      - apply in_or_app. right. now left. }
    exists specific. split; [exact Hspec|]. split; [|exact Hs].
    apply Hgen. intros ->. destruct Hs.
  - intros Herrors Hloading.
    apply elements_suggestions_none; [exact Hpresent|].
    intros key data Hin Hkey. rewrite Hel in Hin.
    unfold Inspector.inspectErrorElements in Hin.
    apply in_app_or in Hin as [Hd|Hd]; [|apply in_app_or in Hd as [Hd|Hd]].
    + apply in_flat_map in Hd as (s & Hs & Hd). rewrite inspect_error_entry in Hd.
      destruct (Spec.nth_match pg (inl s) 0) as [e|] eqn:Hm; [|destruct Hd].
      destruct Hd as [[= <- <-]|[]].
      destruct Hkey as [Hkey|Hkey].
      * now rewrite (Herrors s e Hs Hkey Hm).
      * rewrite (error_selectors_are_not_loading s Hs) in Hkey. discriminate Hkey.
    + apply in_flat_map in Hd as (s & Hs & Hd). rewrite inspect_loading_entry in Hd.
      destruct (Spec.nth_match pg (inl s) 0) as [e|] eqn:Hm; [|destruct Hd].
      rewrite (Hloading s e Hs Hm) in Hd. destruct Hd.
    + apply in_map_iff in Hd as (s & [= <- <-] & Hs).
      destruct (common_keys_are_quiet s Hs) as [He Hl].
      exfalso. destruct Hkey as [Hkey|Hkey];
        [exact (eq_true_false_abs _ Hkey He)|exact (eq_true_false_abs _ Hkey Hl)].
Qed.

Lemma visible_error_element_is_quoted_witness :
  exists suggestions,
    ErrorInspector.elements (report_of (page (example_world [login_error_notice])))
    = Inspector.inspectErrorElements (page (example_world [login_error_notice]))
    /\ ErrorInspector.generateFailureSuggestions
         (report_of (page (example_world [login_error_notice]))) = inr suggestions
    /\ In (ErrorInspector.SUGGEST_ERROR_ELEMENT "Unknown username") suggestions.
Proof.
  assert (Hel : ErrorInspector.elements
                  (report_of (page (example_world [login_error_notice])))
                = Inspector.inspectErrorElements
                    (page (example_world [login_error_notice]))) by reflexivity.
  assert (Hin : In ".login-error" Inspector.errorSelectors) by (cbn; tauto).
  assert (Herr : JS.includes ".login-error" "error" = true) by reflexivity.
  assert (Hm : Spec.nth_match (page (example_world [login_error_notice]))
                 (inl ".login-error") 0 = Some login_error_notice) by reflexivity.
  assert (Hvis : Driver.el_visible login_error_notice = true) by reflexivity.
  destruct (proj1 (visible_error_element_is_quoted _ _ Hel)
              ".login-error" login_error_notice Hin Herr Hm Hvis)
    as (suggestions & _ & Hgen & Hs).
  exists suggestions. split; [exact Hel|]. split; [exact Hgen|exact Hs].
Defined.

Lemma inspected_elements_never_break_suggestions_witness :
  ErrorInspector.elements (report_of (page (example_world [login_error_notice])))
  = Inspector.inspectErrorElements (page (example_world [login_error_notice]))
  /\ Spec.elements_present (report_of (page (example_world [login_error_notice]))).
Proof.
  assert (Hel : ErrorInspector.elements
                  (report_of (page (example_world [login_error_notice])))
                = Inspector.inspectErrorElements
                    (page (example_world [login_error_notice]))) by reflexivity.
  split; [exact Hel|].
  exact (proj1 (inspected_elements_never_break_suggestions _ _ Hel)).
Defined.

(* ===================================================================== *)
(** * Further properties of the checkbox and select operations            *)
(* ===================================================================== *)

Lemma nth_match_node (pg : Driver.Page) (element : ElementHelper.ElementRef)
  (index : Z) (e : Driver.Element) :
  0 <= index ->
  Spec.nth_match pg element index = Some e ->
  exists p,
    Driver.resolve pg (ElementHelper.createLocator element index) = [p]
    /\ nth_error (Driver.dom pg) p = Some e.
Proof.
  intros Hi. unfold Spec.nth_match. rewrite (resolve_createLocator pg element index Hi).
  destruct (nth_error (Driver.resolve pg (ElementHelper.asLocator element))
              (Z.to_nat index)) as [p|]; [|discriminate].
  intros Hn. now exists p.
Qed.

Lemma nth_match_none (pg : Driver.Page) (element : ElementHelper.ElementRef)
  (index : Z) :
  0 <= index ->
  Spec.nth_match pg element index = None ->
  Driver.resolve pg (ElementHelper.createLocator element index) = [].
Proof.
  intros Hi Hm.
  pose proof (target_createLocator "" 0 pg element index Hi) as H.
  rewrite Hm in H. now destruct H.
Qed.

Lemma waitForDisplayed_not_visible (w : World) (l : Driver.Locator) (timeout : Z) :
  0 <= timeout ->
  ~ Spec.single_visible (page w) l ->
  ElementHelper.waitForDisplayed (inr l) timeout w = (inr false, w).
Proof.
  intros Ht Hnot.
  unfold ElementHelper.waitForDisplayed, bind, lift, try_catch, query, ret.
  simpl ElementHelper.validateParams.
  replace (timeout <? 0) with false by (symmetry; apply Z.ltb_ge; lia).
  unfold Driver.waitFor, Driver.target.
  destruct (Driver.resolve (page w) l) as [|p [|q rest]] eqn:Hr; cbn; try reflexivity.
  destruct (nth_error (Driver.dom (page w)) p) as [e|] eqn:Hn; cbn; [|reflexivity].
  destruct (Driver.el_visible e) eqn:Hv; [|reflexivity].
  exfalso. apply Hnot. now exists p, e.
Qed.

Lemma isElementChecked_not_checkbox (w : World) (l : Driver.Locator) (p : nat)
  (e : Driver.Element) :
  Driver.resolve (page w) l = [p] ->
  nth_error (Driver.dom (page w)) p = Some e ->
  Driver.el_checked e = None ->
  ElementHelper.isElementChecked (inr l) 0 w = (inr false, w).
Proof.
  intros Hr Hn Hc.
  unfold ElementHelper.isElementChecked, bind, lift, try_catch, query, ret.
  simpl ElementHelper.validateParams. simpl ElementHelper.createLocator.
  unfold Driver.isChecked.
  rewrite (target_found _ _ _ _ _ _ (resolve_nth_0 _ _ _ Hr) Hn).
  simpl. now rewrite Hc.
Qed.

(** X22.  What [toggleCheckbox] does in every case, for a non-negative
    index and a positive timeout.  When the [index]-th match does not exist
    or stays hidden until the timeout, it throws the not-visible error with
    the index.  On a visible node it calls [uncheck()] when the node is a
    ticked checkbox and [check()] otherwise, a node that is no checkbox
    being taken for unticked because [isElementChecked] answers false on its
    error; the call's outcome is the outcome of [toggleCheckbox], the page
    being the one the driver's call leaves and its error coming out wrapped
    in the toggle message.  The log is never written to, and a failure
    leaves the page as it was. *)
Theorem toggleCheckbox_outcomes :
  forall (element : ElementHelper.ElementRef) (index timeout : Z) (w : World),
    0 <= index -> 0 < timeout ->
    let loc := ElementHelper.createLocator element index in
    let run := ElementHelper.toggleCheckbox element index timeout w in
    let fails (cause : string) :=
      fst run
      = inl (new_Error (ElementHelper.createErrorMessage "Toggle checkbox" element
                          (Some cause)))
      /\ page (snd run) = page w in
    let hidden := ELEMENT_NOT_VISIBLE ++ " at index " ++ JS.string_of_Z index in
    logger (snd run) = logger w
    /\ match Spec.nth_match (page w) element index with
       | None => fails hidden
       | Some e =>
           if Driver.el_visible e then
             let ticked :=
               match Driver.el_checked e with Some b => b | None => false end in
             match (if ticked then Driver.uncheck else Driver.check) (page w) loc with
             | inr pg => fst run = inr tt /\ page (snd run) = pg
             | inl cause => fails (err_message cause)
             end
           else fails hidden
       end.
Proof.
  intros element index timeout w Hi Ht loc run fails hidden.
  assert (Ht0 : 0 <= timeout) by lia.
  assert (Hstart :
             run
             = ElementHelper.rethrow_as "Toggle checkbox" element
                 (isVisible <- ElementHelper.waitForDisplayed (inr loc) timeout ;;
                  (if isVisible then ret tt
                   else throw (new_Error hidden)) ;;
                  isChecked <- ElementHelper.isElementChecked (inr loc) 0 ;;
                  if isChecked then action Driver.uncheck loc
                  else action Driver.check loc) w).
  { unfold run, ElementHelper.toggleCheckbox, bind at 1, lift.
    now rewrite (validateParams_page_element_index_timeout element index timeout Hi Ht0). }
  assert (Hhidden : ~ Spec.single_visible (page w) loc ->
                    run
                    = (inl (new_Error
                              (ElementHelper.createErrorMessage "Toggle checkbox" element
                                 (Some hidden))), w)).
  { intros Hnot. rewrite Hstart.
    unfold ElementHelper.rethrow_as, try_catch, bind.
    now rewrite (waitForDisplayed_not_visible w loc timeout Ht0 Hnot). }
  destruct (Spec.nth_match (page w) element index) as [e|] eqn:Hm.
  - destruct (nth_match_node _ _ _ _ Hi Hm) as (p & Hr & Hn). fold loc in Hr.
    destruct (Driver.el_visible e) eqn:Hv.
    + set (ticked := match Driver.el_checked e with Some b => b | None => false end).
      assert (Hchecked :
                ElementHelper.isElementChecked (inr loc) 0 w = (inr ticked, w)).
      { unfold ticked. destruct (Driver.el_checked e) as [b|] eqn:Hc.
        - exact (isElementChecked_state w loc p e Hr Hn b Hc).
        - exact (isElementChecked_not_checkbox w loc p e Hr Hn Hc). }
      assert (Hrun :
                run
                = match (if ticked then Driver.uncheck else Driver.check) (page w) loc with
                  | inr pg => (inr tt, with_page pg w)
                  | inl cause =>
                      (inl (new_Error
                              (ElementHelper.createErrorMessage "Toggle checkbox" element
                                 (Some (err_message cause)))), w)
                  end).
      { rewrite Hstart.
        unfold ElementHelper.rethrow_as, try_catch, bind.
        rewrite (waitForDisplayed_visible w loc p e Hr Hn timeout Ht0 Hv).
        unfold ret at 1. rewrite Hchecked. unfold action.
        destruct ticked.
        - destruct (Driver.uncheck (page w) loc); reflexivity.
        - destruct (Driver.check (page w) loc); reflexivity. }
      cbv zeta. fold ticked. rewrite Hrun.
      destruct ((if ticked then Driver.uncheck else Driver.check) (page w) loc)
        as [cause|pg]; unfold fails; rewrite ?Hrun; cbn; repeat split; reflexivity.
    + rewrite Hhidden.
      * unfold fails. rewrite Hhidden; [repeat split; reflexivity|].
        intros (p' & e' & Hr' & Hn' & Hv').
        rewrite Hr in Hr'. injection Hr' as <-. rewrite Hn in Hn'. injection Hn' as <-.
        congruence.
      * intros (p' & e' & Hr' & Hn' & Hv').
        rewrite Hr in Hr'. injection Hr' as <-. rewrite Hn in Hn'. injection Hn' as <-.
        congruence.
  - assert (Hnot : ~ Spec.single_visible (page w) loc).
    { intros (p' & e' & Hr' & _).
      pose proof (nth_match_none _ _ _ Hi Hm) as Hr. fold loc in Hr.
      rewrite Hr in Hr'. discriminate Hr'. }
    unfold fails. rewrite (Hhidden Hnot). repeat split; reflexivity.
Qed.

Lemma toggleCheckbox_outcomes_witness :
  0 <= 0 /\ 0 < 5000
  /\ fst (ElementHelper.toggleCheckbox (inl "#missing") 0 5000
            (example_world [newsletter_checkbox]))
     = inl (new_Error
              (ElementHelper.createErrorMessage "Toggle checkbox" (inl "#missing")
                 (Some "Element not visible at index 0")))
  /\ fst (ElementHelper.toggleCheckbox (inl "#newsletter") 0 5000
            (example_world [newsletter_checkbox]))
     = inr tt.
Proof.
  assert (Hi : 0 <= 0) by lia.
  assert (Ht : 0 < 5000) by lia.
  split; [exact Hi|]. split; [exact Ht|]. split.
  - exact (proj1 (proj2 (toggleCheckbox_outcomes (inl "#missing") 0 5000
                           (example_world [newsletter_checkbox]) Hi Ht))).
  - exact (proj1 (proj2 (toggleCheckbox_outcomes (inl "#newsletter") 0 5000
                           (example_world [newsletter_checkbox]) Hi Ht))).
Defined.

(** X23.  What [selectOptionValue] does in every case, for a non-negative
    index and timeout.  Unless the indexed locator denotes a single visible
    node, the wait, given a positive timeout, fails: no option is selected,
    page and log are as they were, and the error of the wait comes out
    wrapped in the select message.  Otherwise the selection by value decides
    when it succeeds; when it fails, its error is dropped and the selection
    by label runs in the world the first attempt left, and an error thrown
    then is the only one reported. *)
Theorem selectOptionValue_outcomes :
  forall (select : Driver.Locator -> ElementHelper.SelectOps)
         (element : ElementHelper.ElementRef) (value : string)
         (index timeout : Z) (w : World),
    0 <= index -> 0 <= timeout ->
    let elementLocator := ElementHelper.createLocator element index in
    let run := ElementHelper.selectOptionValue select element value index timeout w in
    let wrapped (cause : Error) :=
      new_Error (ElementHelper.createErrorMessage "Select option" element
                   (Some (err_message cause))) in
    (0 < timeout ->
     ~ Spec.single_visible (page w) elementLocator ->
     exists cause,
       fst run = inl (wrapped cause)
       /\ page (snd run) = page w /\ logger (snd run) = logger w)
    /\ (Spec.single_visible (page w) elementLocator ->
        match ElementHelper.selectOption_value (select elementLocator) value w with
        | (inr _, w1) => run = (inr tt, w1)
        | (inl _, w1) =>
            match ElementHelper.selectOption_label (select elementLocator) value w1 with
            | (inr _, w2) => run = (inr tt, w2)
            | (inl by_label, w2) => run = (inl (wrapped by_label), w2)
            end
        end).
Proof.
  intros select element value index timeout w Hi Ht elementLocator run wrapped.
  assert (Hvalid : ElementHelper.validateParams
                     [("page", ElementHelper.page_value);
                      ("element", ElementHelper.element_value element);
                      ("value", JS.Str value);
                      ("index", JS.Num index); ("timeout", JS.Num timeout)] = inr tt).
  { destruct element; simpl;
      replace (index <? 0) with false by (symmetry; apply Z.ltb_ge; lia);
      replace (timeout <? 0) with false by (symmetry; apply Z.ltb_ge; lia);
      reflexivity. }
  unfold run, ElementHelper.selectOptionValue, bind at 1, lift. rewrite Hvalid.
  fold elementLocator.
  unfold ElementHelper.rethrow_as, try_catch, bind, query, Driver.waitFor, Driver.target.
  split.
  - intros _ Hnot.
    destruct (Driver.resolve (page w) elementLocator) as [|p [|q rest]] eqn:Hr.
    + exists (Driver.TimeoutError "locator.waitFor" timeout). repeat split.
    + destruct (nth_error (Driver.dom (page w)) p) as [e|] eqn:Hn;
        [|exists (Driver.TimeoutError "locator.waitFor" timeout); repeat split].
      cbn [bindO snd].
      destruct (Driver.el_visible e) eqn:Hv;
        [|exists (Driver.TimeoutError "locator.waitFor" timeout); repeat split].
      exfalso. apply Hnot. now exists p, e.
    + exists (Driver.StrictModeViolation "locator.waitFor"). repeat split.
  - intros (p & e & Hr & Hn & Hv). rewrite Hr, Hn. cbn. rewrite Hv.
    destruct (ElementHelper.selectOption_value (select elementLocator) value w)
      as [[by_value|[]] w1]; [|reflexivity].
    destruct (ElementHelper.selectOption_label (select elementLocator) value w1)
      as [[by_label|[]] w2]; reflexivity.
Qed.

Lemma selectOptionValue_outcomes_witness :
  0 <= 0 /\ 0 <= 5000
  /\ Spec.single_visible (page (example_world [primary_button]))
       (ElementHelper.createLocator (inl "#publish") 0)
  /\ ElementHelper.selectOptionValue by_label_only (inl "#publish") "Draft" 0 5000
       (example_world [primary_button])
     = (inr tt, example_world [primary_button])
  /\ (exists cause,
        fst (ElementHelper.selectOptionValue by_label_only (inl "#missing") "Draft"
               0 5000 (example_world [primary_button]))
        = inl (new_Error
                 (ElementHelper.createErrorMessage "Select option" (inl "#missing")
                    (Some (err_message cause))))).
Proof.
  assert (Hi : 0 <= 0) by lia.
  assert (Ht : 0 <= 5000) by lia.
  assert (Hv : Spec.single_visible (page (example_world [primary_button]))
                 (ElementHelper.createLocator (inl "#publish") 0)).
  { exists 0%nat, primary_button. repeat split; reflexivity. }
  split; [exact Hi|]. split; [exact Ht|]. split; [exact Hv|]. split.
  - exact (proj2 (selectOptionValue_outcomes by_label_only (inl "#publish") "Draft"
                    0 5000 (example_world [primary_button]) Hi Ht) Hv).
  - destruct (proj1 (selectOptionValue_outcomes by_label_only (inl "#missing") "Draft"
                       0 5000 (example_world [primary_button]) Hi Ht))
      as (cause & Hrun & _).
    + lia.
    + intros (p & e & Hr & _). discriminate Hr.
    + exists cause. exact Hrun.
Defined.

(* ===================================================================== *)
(** * The tags of the logger's entry points                                *)
(* ===================================================================== *)

Ltac tag_cases :=
  repeat match goal with
         | |- context [if ?b then _ else _] => destruct b eqn:?
         | |- context [match ?o with Some _ => _ | None => _ end] => destruct o eqn:?
         end.

Ltac not_in :=
  intros Hin; cbn in Hin; repeat (destruct Hin as [Hin|Hin]; [discriminate Hin|]);
  destruct Hin.

(** X24.  The tags that the entry points of the logger can produce.  An
    entry of [logPerformance] is never tagged [performance] and an entry of
    [logApiCall] never [api-call]: [generateTags] looks for [context.performance]
    and [context.api], which these entry points do not set.  The
    [performance] tag marks the navigation entries with a non-zero load time,
    and [element-interaction] the user actions with a non-empty element.  An
    API call is logged as an error exactly from status 400 on, which is when
    its [success] field is false. *)
Theorem tags_of_entry_points :
  forall st : SmartLogger.State,
    (forall metric value threshold,
        exists entry,
          SmartLogger.logs (SmartLogger.logPerformance metric value threshold st)
          = (SmartLogger.logs st ++ [entry])%list
          /\ ~ In "performance" (SmartLogger.tags entry)
          /\ ~ In "api-call" (SmartLogger.tags entry))
    /\ (forall method url status responseTime,
           exists entry,
             SmartLogger.logs (SmartLogger.logApiCall method url status responseTime st)
             = (SmartLogger.logs st ++ [entry])%list
             /\ ~ In "api-call" (SmartLogger.tags entry)
             /\ (SmartLogger.level entry = Level.ERROR <-> 400 <= status)
             /\ (JS.prop (SmartLogger.context entry) "success" = JS.Bool true
                 <-> SmartLogger.level entry <> Level.ERROR))
    /\ (forall from to loadTime,
           exists entry,
             SmartLogger.logs (SmartLogger.logNavigation from to loadTime st)
             = (SmartLogger.logs st ++ [entry])%list
             /\ (In "performance" (SmartLogger.tags entry)
                 <-> exists t, loadTime = Some t /\ t <> 0))
    /\ (forall action element value,
           exists entry,
             SmartLogger.logs (SmartLogger.logUserAction action element value st)
             = (SmartLogger.logs st ++ [entry])%list
             /\ (In "element-interaction" (SmartLogger.tags entry)
                 <-> exists s, element = Some s /\ s <> EmptyString)).
Proof.
  intros st. split; [|split; [|split]].
  - intros metric value threshold. eexists. split; [reflexivity|].
    cbn [SmartLogger.tags]. unfold SmartLogger.generateTags.
    cbn [JS.prop JS.lookup JS.truthy String.eqb Ascii.eqb Bool.eqb app].
    split; tag_cases; not_in.
  - intros method url status responseTime. eexists. split; [reflexivity|].
    cbn [SmartLogger.tags SmartLogger.level SmartLogger.context].
    unfold SmartLogger.generateTags, SmartLogger.apiLevel.
    cbn [JS.prop JS.lookup JS.truthy JS.or_else String.eqb Ascii.eqb Bool.eqb app].
    split; [|split].
    + tag_cases; not_in.
    + destruct (Z.leb_spec 400 status); [split; [lia|reflexivity]|].
      destruct (300 <=? status); split; (discriminate || lia).
    + destruct (Z.leb_spec 400 status), (Z.ltb_spec status 400); try lia.
      * split; [discriminate|intros Hne; now contradiction Hne].
      * destruct (300 <=? status); split; (reflexivity || discriminate).
  - intros from to loadTime. eexists. split; [reflexivity|].
    cbn [SmartLogger.tags]. unfold SmartLogger.generateTags.
    cbn [JS.prop JS.lookup JS.truthy String.eqb Ascii.eqb Bool.eqb app].
    destruct loadTime as [t|].
    + destruct (Z.eqb_spec t 0) as [->|Hne].
      * cbn. split.
        -- tag_cases; not_in.
        -- intros (t & [= <-] & Hne). contradiction.
      * assert (Hc : JS.truthy (JS.Str (SmartLogger.categorizePerformance t)) = true).
        { unfold SmartLogger.categorizePerformance. tag_cases; reflexivity. }
        rewrite Hc. split; [intros _; now exists t|].
        intros _. cbn. right. now left.
    + cbn. split.
      * tag_cases; not_in.
      * intros (t & Hsome & _). discriminate Hsome.
  - intros action element value. eexists. split; [reflexivity|].
    cbn [SmartLogger.tags]. unfold SmartLogger.generateTags.
    cbn [JS.prop JS.lookup JS.truthy String.eqb Ascii.eqb Bool.eqb app].
    destruct element as [s|]; cbn [SmartLogger.opt_str JS.truthy].
    + destruct (String.eqb_spec s EmptyString) as [->|Hne]; cbn [negb].
      * split; [tag_cases; not_in|].
        intros (s & [= <-] & Hne). contradiction.
      * split; [intros _; now exists s|]. intros _. cbn. right. now left.
    + split; [tag_cases; not_in|]. intros (s & Hsome & _). discriminate Hsome.
Qed.

(* ===================================================================== *)
(** * The suggestions for AI agents                                        *)
(* ===================================================================== *)

Section AISuggestionFacts.

Import AIContextManager.

Lemma indexed_length {A : Type} (l : list A) : List.length (indexed l) = List.length l.
Proof. unfold indexed. rewrite length_combine, length_seq. lia. Qed.

Lemma form_suggestions_type (entries : list (nat * FormInfo)) :
  forall s, In s (flat_map form_suggestion entries) ->
            sg_type s = form_interaction /\ sg_priority s = high.
Proof.
  intros s Hin. apply in_flat_map in Hin as ([index form] & _ & Hin).
  unfold form_suggestion in Hin.
  destruct (Nat.ltb 0 (List.length (frm_fields form))); [|destruct Hin].
  destruct Hin as [<-|[]]. split; reflexivity.
Qed.

Lemma form_suggestions_length (entries : list (nat * FormInfo)) :
  List.length (flat_map form_suggestion entries)
  = List.length
      (filter (fun entry => Nat.ltb 0 (List.length (frm_fields (snd entry)))) entries).
Proof.
  induction entries as [|[index form] rest IH]; [reflexivity|].
  cbn [flat_map filter snd]. rewrite length_app, IH.
  unfold form_suggestion.
  destruct (Nat.ltb 0 (List.length (frm_fields form))); reflexivity.
Qed.

Lemma filter_indexed_length {A : Type} (f : A -> bool) (l : list A) :
  forall start,
    List.length (filter (fun entry => f (snd entry))
                   (combine (seq start (List.length l)) l))
    = List.length (filter f l).
Proof.
  induction l as [|x l IH]; intros start; [reflexivity|].
  cbn [List.length seq combine filter snd].
  destruct (f x); cbn [List.length]; now rewrite IH.
Qed.

Lemma navigation_suggestions_type (l : list NavigationInfo) :
  forall s, In s (flat_map navigation_suggestion l) ->
            sg_type s = navigation_type /\ sg_priority s = medium.
Proof.
  intros s Hin. apply in_flat_map in Hin as (nav & _ & Hin).
  unfold navigation_suggestion in Hin. destruct (nav_active nav); [destruct Hin|].
  destruct Hin as [<-|[]]. split; reflexivity.
Qed.

Lemma navigation_suggestions_length (l : list NavigationInfo) :
  List.length (flat_map navigation_suggestion l)
  = List.length (filter (fun nav => negb (nav_active nav)) l).
Proof.
  induction l as [|nav rest IH]; [reflexivity|].
  cbn [flat_map filter]. rewrite length_app, IH.
  unfold navigation_suggestion. destruct (nav_active nav); reflexivity.
Qed.

Lemma in_firstn {A : Type} (n : nat) (l : list A) (x : A) :
  In x (firstn n l) -> In x l.
Proof.
  revert n. induction l as [|y l IH]; intros [|n] Hin; cbn in Hin; try destruct Hin.
  - subst. now left.
  - right. now apply (IH n).
Qed.

Lemma filter_all {A : Type} (f : A -> bool) (l : list A) :
  (forall x, In x l -> f x = true) -> filter f l = l.
Proof.
  induction l as [|x l IH]; intros H; [reflexivity|]. cbn [filter].
  rewrite (H x (or_introl eq_refl)), IH; [reflexivity|].
  intros y Hy. apply H. now right.
Qed.

Lemma filter_none {A : Type} (f : A -> bool) (l : list A) :
  (forall x, In x l -> f x = false) -> filter f l = [].
Proof.
  induction l as [|x l IH]; intros H; [reflexivity|]. cbn [filter].
  rewrite (H x (or_introl eq_refl)), IH; [reflexivity|].
  intros y Hy. apply H. now right.
Qed.

End AISuggestionFacts.

(** X25.  [generateAISuggestions] keeps the first ten of: one suggestion
    for each form with fields, one for each inactive navigation link, one for
    the errors if there are any, in this order.  So the number of suggestions
    is the smaller of 10 and the number of these candidates, the forms are
    served first, and the error validation suggestion, though of high
    priority, is returned exactly when the page has errors and fewer than ten
    form and link suggestions stand before it. *)
Theorem generateAISuggestions_drops_late_suggestions :
  forall context : AIContextManager.AIContext,
    let structure := AIContextManager.pageStructure context in
    let result := AIContextManager.generateAISuggestions context in
    let form_count :=
      List.length
        (filter (fun form =>
                   Nat.ltb 0 (List.length (AIContextManager.frm_fields form)))
           (AIContextManager.forms structure)) in
    let link_count :=
      List.length
        (filter (fun nav => negb (AIContextManager.nav_active nav))
           (AIContextManager.navigation structure)) in
    let error_count :=
      match AIContextManager.errors structure with [] => 0%nat | _ :: _ => 1%nat end in
    List.length result = Nat.min 10 (form_count + link_count + error_count)
    /\ List.length
         (filter (fun s => match AIContextManager.sg_type s with
                           | AIContextManager.form_interaction => true
                           | _ => false
                           end) result)
       = Nat.min 10 form_count
    /\ ((exists s, In s result
                   /\ AIContextManager.sg_type s = AIContextManager.error_validation)
        <-> AIContextManager.errors structure <> []
            /\ (form_count + link_count < 10)%nat)
    /\ (forall s, In s result ->
                  AIContextManager.sg_type s = AIContextManager.error_validation ->
                  AIContextManager.sg_priority s = AIContextManager.high
                  /\ List.length (AIContextManager.sg_selectors s)
                     = List.length (AIContextManager.errors structure)).
Proof.
  intros context structure result form_count link_count error_count.
  set (F := flat_map AIContextManager.form_suggestion
              (AIContextManager.indexed (AIContextManager.forms structure))).
  set (N := flat_map AIContextManager.navigation_suggestion
              (AIContextManager.navigation structure)).
  set (E := AIContextManager.error_suggestion (AIContextManager.errors structure)).
  assert (Hresult : result = firstn 10 (F ++ N ++ E)) by reflexivity.
  assert (HF : List.length F = form_count).
  { unfold F, form_count. rewrite form_suggestions_length.
    unfold AIContextManager.indexed.
    apply (filter_indexed_length
             (fun form => Nat.ltb 0 (List.length (AIContextManager.frm_fields form)))). }
  assert (HN : List.length N = link_count).
  { unfold N, link_count. apply navigation_suggestions_length. }
  assert (HE : List.length E = error_count).
  { unfold E, error_count. now destruct (AIContextManager.errors structure). }
  assert (HFt : forall s, In s F -> AIContextManager.sg_type s
                                    = AIContextManager.form_interaction).
  { intros s Hs. now apply form_suggestions_type in Hs. }
  assert (HNt : forall s, In s N -> AIContextManager.sg_type s
                                    = AIContextManager.navigation_type).
  { intros s Hs. now apply navigation_suggestions_type in Hs. }
  assert (HEt : forall s, In s E ->
                          AIContextManager.sg_type s = AIContextManager.error_validation
                          /\ AIContextManager.sg_priority s = AIContextManager.high
                          /\ List.length (AIContextManager.sg_selectors s)
                             = List.length (AIContextManager.errors structure)).
  { intros s. unfold E.
    destruct (AIContextManager.errors structure) as [|x rest] eqn:Herr; [intros []|].
    intros [<-|[]]. split; [reflexivity|]. split; [reflexivity|].
    cbn [AIContextManager.error_suggestion AIContextManager.sg_selectors].
    now rewrite length_map, indexed_length. }
  rewrite Hresult. split; [|split; [|split]].
  - rewrite length_firstn, !length_app, HF, HN, HE. lia.
  - rewrite !firstn_app, !filter_app, !length_app.
    rewrite (filter_all _ (firstn 10 F)).
    2:{ intros s Hs. apply in_firstn in Hs. now rewrite (HFt s Hs). }
    rewrite (filter_none _ (firstn (10 - List.length F) N)).
    2:{ intros s Hs. apply in_firstn in Hs. now rewrite (HNt s Hs). }
    rewrite (filter_none _ (firstn _ E)).
    2:{ intros s Hs. apply in_firstn in Hs. now rewrite (proj1 (HEt s Hs)). }
    rewrite length_firstn, HF. cbn [List.length]. lia.
  - rewrite !firstn_app. split.
    + intros (s & Hin & Htype).
      apply in_app_or in Hin as [Hin|Hin]; [|apply in_app_or in Hin as [Hin|Hin]].
      * apply in_firstn in Hin. rewrite (HFt s Hin) in Htype. discriminate Htype.
      * apply in_firstn in Hin. rewrite (HNt s Hin) in Htype. discriminate Htype.
      * rewrite HF, HN in Hin. split.
        -- intros Hnone. apply in_firstn in Hin. unfold E in Hin.
           rewrite ?Hnone in Hin. destruct Hin.
        -- destruct (10 - form_count - link_count)%nat eqn:Hleft; [destruct Hin|lia].
    + intros [Herr Hroom].
      destruct (AIContextManager.errors structure) as [|x rest] eqn:Hsome;
        [contradiction|].
      eexists. split.
      * apply in_or_app. right. apply in_or_app. right.
        rewrite HF, HN. unfold E. rewrite ?Hsome.
        destruct (10 - form_count - link_count)%nat eqn:Hleft; [lia|].
        cbn [AIContextManager.error_suggestion firstn]. left. reflexivity.
      * reflexivity.
  - intros s Hin Htype. apply in_firstn in Hin.
    apply in_app_or in Hin as [Hin|Hin]; [|apply in_app_or in Hin as [Hin|Hin]].
    + rewrite (HFt s Hin) in Htype. discriminate Htype.
    + rewrite (HNt s Hin) in Htype. discriminate Htype.
    + now destruct (HEt s Hin) as (_ & Hp & Hl).
Qed.
